(** * Protocol tracker (app.py): a shallow embedding and its properties

    The program is one Streamlit script over one SQLite table.  The
    embedding follows its parts:

    - [extract_subtasks] (the regular expression, [int], [strptime],
      [strftime]);
    - the [tasks] table and the session list [st.session_state.tasks],
      threaded as an explicit [state];
    - the button handlers of the pages (save, complete, delete) as state
      transformers, the Daily Tasks page and the Dashboard as views;
    - [export_all_tasks_to_csv] and [load_tasks_from_db] with the
      [json] codec they call.

    Text.  A Python [str] is modelled by a [string]: the sequence of the
    bytes of its UTF-8 encoding.  The pattern and the builtin [int] work
    on the characters of a text, its code points: the class [\d] and
    [int] take the decimal digits of every script, the class [\s] and
    [int] the blanks of every script, as the Unicode Character Database
    has them (version 14.0, that of CPython 3.11).  Exceptions are values
    of [exn], carried by the [result] monad.  The limits of the
    interpreter (recursion depth, the longest integer literal) are not
    part of the model. *)

From Stdlib Require Import ZArith NArith Ascii String List Bool Lia.
From Stdlib Require Import DecimalString.
From stdpp Require Import base tactics option list strings gmap sorting.

Local Open Scope string_scope.
Local Open Scope Z_scope.

(** ** Exceptions *)

Inductive exn : Set :=
| ValueError
| TypeError
| AttributeError
| JSONDecodeError.

Inductive result (A : Type) : Type :=
| Ok (a : A)
| Raise (e : exn).
Arguments Ok {A} a.
Arguments Raise {A} e.

#[global] Instance result_ret : MRet result := fun A a => Ok a.
#[global] Instance result_bind : MBind result := fun A B f r =>
  match r with
  | Ok a => f a
  | Raise e => Raise e
  end.
#[global] Instance result_fmap : FMap result := fun A B f r =>
  match r with
  | Ok a => Ok (f a)
  | Raise e => Raise e
  end.

(** A [for] loop whose body may raise: the first exception ends it. *)
Fixpoint for_each {A B : Type} (body : A -> result B) (l : list A)
  : result (list B) :=
  match l with
  | [] => Ok []
  | x :: l' =>
      y ← body x;
      ys ← for_each body l';
      Ok (y :: ys)
  end.

(** ** Characters *)

Definition LF : ascii := "010"%char.

Definition in_range (lo hi : N) (c : ascii) : bool :=
  let n := N_of_ascii c in (lo <=? n)%N && (n <=? hi)%N.

(** *** Code points and UTF-8 *)

Definition byte (n : N) : ascii := ascii_of_N n.

Definition utf8_encode (cp : N) : string :=
  (if cp <? 128 then String (byte cp) EmptyString
   else if cp <? 2048 then
     String (byte (N.lor 192 (N.shiftr cp 6)))
       (String (byte (N.lor 128 (N.land cp 63))) EmptyString)
   else if cp <? 65536 then
     String (byte (N.lor 224 (N.shiftr cp 12)))
       (String (byte (N.lor 128 (N.land (N.shiftr cp 6) 63)))
          (String (byte (N.lor 128 (N.land cp 63))) EmptyString))
   else
     String (byte (N.lor 240 (N.shiftr cp 18)))
       (String (byte (N.lor 128 (N.land (N.shiftr cp 12) 63)))
          (String (byte (N.lor 128 (N.land (N.shiftr cp 6) 63)))
             (String (byte (N.lor 128 (N.land cp 63))) EmptyString))))%N.

Definition continuation (c : ascii) : bool := in_range 128 191 c.

Definition low6 (c : ascii) : N := N.land (N_of_ascii c) 63.

(** The code points of a string; a byte that starts no well-formed
    sequence (there is none in the encoding of a [str]) stands for
    itself. *)
Fixpoint utf8_decode (s : string) : list N :=
  match s with
  | EmptyString => []
  | String a s1 =>
      let single := N_of_ascii a :: utf8_decode s1 in
      match s1 with
      | String b s2 =>
          if in_range 192 223 a && continuation b then
            N.lor (N.shiftl (N.land (N_of_ascii a) 31) 6) (low6 b)
              :: utf8_decode s2
          else
            match s2 with
            | String c s3 =>
                if in_range 224 239 a && continuation b && continuation c then
                  N.lor (N.shiftl (N.land (N_of_ascii a) 15) 12)
                    (N.lor (N.shiftl (low6 b) 6) (low6 c))
                    :: utf8_decode s3
                else
                  match s3 with
                  | String d s4 =>
                      if in_range 240 247 a && continuation b
                         && continuation c && continuation d then
                        N.lor (N.shiftl (N.land (N_of_ascii a) 7) 18)
                          (N.lor (N.shiftl (low6 b) 12)
                             (N.lor (N.shiftl (low6 c) 6) (low6 d)))
                          :: utf8_decode s4
                      else single
                  | EmptyString => single
                  end
            | EmptyString => single
            end
      | EmptyString => single
      end
  end.

(** The first character of a text, as its code point, and the text
    after it: one step of [utf8_decode]. *)
Definition next_char (s : string) : option (N * string) :=
  match s with
  | EmptyString => None
  | String a s1 =>
      let single := Some (N_of_ascii a, s1) in
      if in_range 192 223 a then
        match s1 with
        | String b s2 =>
            if continuation b
            then Some (N.lor (N.shiftl (N.land (N_of_ascii a) 31) 6) (low6 b), s2)
            else single
        | _ => single
        end
      else if in_range 224 239 a then
        match s1 with
        | String b (String c s3) =>
            if continuation b && continuation c
            then Some (N.lor (N.shiftl (N.land (N_of_ascii a) 15) 12)
                         (N.lor (N.shiftl (low6 b) 6) (low6 c)), s3)
            else single
        | _ => single
        end
      else if in_range 240 247 a then
        match s1 with
        | String b (String c (String d s4)) =>
            if continuation b && continuation c && continuation d
            then Some (N.lor (N.shiftl (N.land (N_of_ascii a) 7) 18)
                         (N.lor (N.shiftl (low6 b) 12)
                            (N.lor (N.shiftl (low6 c) 6) (low6 d))), s4)
            else single
        | _ => single
        end
      else single
  end.

(** *** The classes of characters *)

(** The ASCII digits: those of an integer literal once [int] has brought
    the digits of the other scripts to them. *)
Definition is_digit (c : ascii) : bool := in_range 48 57 c.

(** The blanks among the ASCII characters: the blank, [\t \n \v \f \r]
    and the separators [\x1c] to [\x1f]. *)
Definition is_space (c : ascii) : bool :=
  in_range 9 13 c || in_range 28 32 c.

Definition digit_value (c : ascii) : Z := Z.of_N (N_of_ascii c) - 48.

(** The decimal digits of the scripts (the characters of category [Nd])
    come in runs of ten, from a zero to a nine.  The zeros: *)
Definition decimal_zeros : list N :=
  [ 48; 1632; 1776; 1984; 2406; 2534; 2662; 2790; 2918; 3046; 3174; 3302;
    3430; 3558; 3664; 3792; 3872; 4160; 4240; 6112; 6160; 6470; 6608; 6784;
    6800; 6992; 7088; 7232; 7248; 42528; 43216; 43264; 43472; 43504; 43600;
    44016; 65296; 66720; 68912; 69734; 69872; 69942; 70096; 70384; 70736;
    70864; 71248; 71360; 71472; 71904; 72016; 72784; 73040; 73120; 92768;
    92864; 93008; 120782; 120792; 120802; 120812; 120822; 123200; 123632;
    125264; 130032 ]%N.

(** [Py_UNICODE_TODECIMAL]: the value of a decimal digit. *)
Definition decimal_value (cp : N) : option N :=
  z ← List.find (λ z, (z <=? cp) && (cp <? z + 10))%N decimal_zeros;
  Some (cp - z)%N.

(** [\d]: a decimal digit of any script. *)
Definition uni_digit (cp : N) : bool :=
  match decimal_value cp with
  | Some _ => true
  | None => false
  end.

(** [\s], and the blanks of [int] outside ASCII: [Py_UNICODE_ISSPACE]. *)
Definition uni_space (cp : N) : bool :=
  (if cp <? 128 then is_space (byte cp)
   else (cp =? 133) || (cp =? 160) || (cp =? 5760)
        || ((8192 <=? cp) && (cp <=? 8202))
        || (cp =? 8232) || (cp =? 8233) || (cp =? 8239) || (cp =? 8287)
        || (cp =? 12288))%N.

(** ** The builtins used by the script *)

(** The blanks [int] skips around an ASCII literal: those of the C
    locale. *)
Definition is_ctype_space (c : ascii) : bool :=
  in_range 9 13 c || Ascii.eqb c " ".

Fixpoint lstrip (s : string) : string :=
  match s with
  | String c s' => if is_ctype_space c then lstrip s' else s
  | EmptyString => s
  end.

(** Whether every character of [s] is in the class [p]. *)
Fixpoint all_chars (p : ascii -> bool) (s : string) : bool :=
  match s with
  | String c s' => p c && all_chars p s'
  | EmptyString => true
  end.

(** The digits of a decimal literal, after the first digit.  [acc] is the
    value read so far; an underscore must stand between two digits; blanks
    may follow the last digit. *)
Fixpoint int_digits (acc : Z) (s : string) : result Z :=
  match s with
  | EmptyString => Ok acc
  | String c s' =>
      if is_digit c then int_digits (10 * acc + digit_value c) s'
      else if Ascii.eqb c "_" then
        match s' with
        | String d s'' =>
            if is_digit d then int_digits (10 * acc + digit_value d) s''
            else Raise ValueError
        | EmptyString => Raise ValueError
        end
      else if all_chars is_ctype_space s then Ok acc
      else Raise ValueError
  end.

Definition int_unsigned (s : string) : result Z :=
  match s with
  | String c s' =>
      if is_digit c then int_digits (digit_value c) s' else Raise ValueError
  | EmptyString => Raise ValueError
  end.

(** The literal [int] reads, all in ASCII: a character below 127 stays, a
    blank of another script becomes a blank, a decimal digit of another
    script the ASCII digit of its value; at any other character the
    literal ends with a question mark, which no number has. *)
Fixpoint decimal_and_space_to_ascii (cps : list N) : string :=
  match cps with
  | [] => EmptyString
  | cp :: cps' =>
      if (cp <? 127)%N then String (byte cp) (decimal_and_space_to_ascii cps')
      else if uni_space cp then String " " (decimal_and_space_to_ascii cps')
      else match decimal_value cp with
           | Some d => String (byte (48 + d)) (decimal_and_space_to_ascii cps')
           | None => "?"
           end
  end.

(** The number of an ASCII literal, base 10: blanks, an optional sign,
    digits, blanks. *)
Definition long_from_string (s : string) : result Z :=
  match lstrip s with
  | String c s' =>
      if Ascii.eqb c "+" then int_unsigned s'
      else if Ascii.eqb c "-" then Z.opp <$> int_unsigned s'
      else int_unsigned (String c s')
  | EmptyString => Raise ValueError
  end.

(** [int(s)] for a string [s], base 10. *)
Definition py_int (s : string) : result Z :=
  long_from_string (decimal_and_space_to_ascii (utf8_decode s)).

(** [str(n)] for an integer. *)
Definition py_str_int (n : Z) : string := NilZero.string_of_int (Z.to_int n).

(** [f"{n:02d}"]: zero padding to width two. *)
Definition fmt_02d (n : Z) : string :=
  let s := py_str_int n in
  if (String.length s <? 2)%nat then "0" +:+ s else s.

(** The first [n] bytes of a text, and the text after them. *)
Fixpoint str_take (n : nat) (s : string) : string :=
  match n, s with
  | S n', String c s' => String c (str_take n' s')
  | _, _ => EmptyString
  end.

Fixpoint str_drop (n : nat) (s : string) : string :=
  match n, s with
  | S n', String _ s' => str_drop n' s'
  | _, _ => s
  end.

(** Slices [s[n:]] and [s[:n]], by characters. *)
Fixpoint drop_chars (n : nat) (s : string) : string :=
  match n with
  | O => s
  | S n' =>
      match next_char s with
      | Some (_, s') => drop_chars n' s'
      | None => EmptyString
      end
  end.

Definition take_chars (n : nat) (s : string) : string :=
  str_take (String.length s - String.length (drop_chars n s)) s.

(** [sep.join(l)]. *)
Fixpoint join (sep : string) (l : list string) : string :=
  match l with
  | [] => EmptyString
  | [x] => x
  | x :: l' => x +:+ sep +:+ join sep l'
  end.

(** ** The pattern [(\d{4}):\s*(.+)] and [re.findall] *)

(** In the encoding of a text an ASCII byte is the ASCII character: the
    colon and the newline are looked for as bytes, the characters of the
    classes [\d] and [\s] are read with [next_char]. *)

(** [.+] : at least one character, none of them a newline, as many as
    there are: the text up to the newline.  Returns the text matched and
    what follows it. *)
Fixpoint dot_star (s : string) : string * string :=
  match s with
  | String c s' =>
      if Ascii.eqb c LF then (EmptyString, s)
      else let '(t, r) := dot_star s' in (String c t, r)
  | EmptyString => (EmptyString, EmptyString)
  end.

Definition dot_plus (s : string) : option (string * string) :=
  match dot_star s with
  | (EmptyString, _) => None
  | (t, r) => Some (t, r)
  end.

(** [\s*(.+)] : the greedy star takes a blank and goes on; when the rest
    of the pattern then fails, it gives the blank back and [.+] is tried
    from here.  The fuel is the number of blanks the star may take. *)
Fixpoint blanks_then_text (fuel : nat) (s : string) : option (string * string) :=
  match fuel with
  | O => dot_plus s
  | S fuel' =>
      match next_char s with
      | Some (cp, s') =>
          if uni_space cp then
            match blanks_then_text fuel' s' with
            | Some m => Some m
            | None => dot_plus s
            end
          else dot_plus s
      | None => dot_plus s
      end
  end.

(** The whole pattern, anchored at the head of [s]: four characters of
    the class [\d], the colon, blanks and the text.  The result has the
    two groups, which are parts of [s], and the text after the match. *)
Definition match_at (s : string) : option (string * string * string) :=
  '(d1, s1) ← next_char s;
  '(d2, s2) ← next_char s1;
  '(d3, s3) ← next_char s2;
  '(d4, s4) ← next_char s3;
  if uni_digit d1 && uni_digit d2 && uni_digit d3 && uni_digit d4 then
    match s4 with
    | String c s5 =>
        if Ascii.eqb c ":" then
          '(t, r) ← blanks_then_text (String.length s5) s5;
          Some (str_take (String.length s - String.length s4) s, t, r)
        else None
    | EmptyString => None
    end
  else None.

(** The scan of [re.findall]: try the pattern here; on success go on after
    the match, otherwise one character further. *)
Fixpoint findall_from (fuel : nat) (s : string) : list (string * string) :=
  match fuel with
  | O => []
  | S fuel' =>
      match match_at s with
      | Some (code, text, rest) => (code, text) :: findall_from fuel' rest
      | None =>
          match next_char s with
          | Some (_, s') => findall_from fuel' s'
          | None => []
          end
      end
  end.

Definition findall (s : string) : list (string * string) :=
  findall_from (String.length s) s.

(** ** [datetime.strptime(s, "%m%d")] and [strftime("%B %d")] *)

(** The text [extract_subtasks] has parsed is [f"{month:02d}{day:02d}"],
    the decimal writing of two integers: ASCII digits, on which the class
    [\d] of the library's pattern is the class of the ASCII digits. *)

(** The alternatives of [%m], in the order the library tries them:
    [1[0-2]], [0[1-9]], [[1-9]]. *)
Definition month_alternatives (s : string) : list (Z * string) :=
  match s with
  | String a (String b r) =>
      (if Ascii.eqb a "1" && in_range 48 50 b then [(10 + digit_value b, r)] else [])
      ++ (if Ascii.eqb a "0" && in_range 49 57 b then [(digit_value b, r)] else [])
  | _ => []
  end
  ++
  match s with
  | String a r => if in_range 49 57 a then [(digit_value a, r)] else []
  | EmptyString => []
  end.

(** The alternatives of [%d]: [3[0-1]], [[1-2]\d], [0[1-9]], [[1-9]],
    [ [1-9]]. *)
Definition day_alternatives (s : string) : list (Z * string) :=
  match s with
  | String a (String b r) =>
      (if Ascii.eqb a "3" && in_range 48 49 b then [(30 + digit_value b, r)] else [])
      ++ (if in_range 49 50 a && is_digit b
          then [(10 * digit_value a + digit_value b, r)] else [])
      ++ (if Ascii.eqb a "0" && in_range 49 57 b then [(digit_value b, r)] else [])
  | _ => []
  end
  ++
  match s with
  | String a r => if in_range 49 57 a then [(digit_value a, r)] else []
  | EmptyString => []
  end
  ++
  match s with
  | String " " (String b r) => if in_range 49 57 b then [(digit_value b, r)] else []
  | _ => []
  end.

(** The first way to match [%m%d] at the head of [s], with backtracking
    over the alternatives of the month. *)
Definition match_md (s : string) : option (Z * Z * string) :=
  head (month_alternatives s ≫= λ '(m, r1),
        day_alternatives r1 ≫= λ '(d, r2), [(m, d, r2)]).

Definition is_leap (year : Z) : bool :=
  (year mod 4 =? 0) && (negb (year mod 100 =? 0) || (year mod 400 =? 0)).

Definition days_in_month (year month : Z) : Z :=
  if month =? 2 then (if is_leap year then 29 else 28)
  else if (month =? 4) || (month =? 6) || (month =? 9) || (month =? 11) then 30
  else 31.

(** A date of the year 1900, the year [strptime] assumes when the format
    has none. *)
Record date : Set := { month : Z; day : Z }.

Definition default_year : Z := 1900.

Definition strptime_md (s : string) : result date :=
  match match_md s with
  | Some (m, d, EmptyString) =>
      if (1 <=? d) && (d <=? days_in_month default_year m)
      then Ok {| month := m; day := d |}
      else Raise ValueError
  | _ => Raise ValueError
  end.

Definition month_name (m : Z) : string :=
  match m with
  | 1 => "January" | 2 => "February" | 3 => "March" | 4 => "April"
  | 5 => "May" | 6 => "June" | 7 => "July" | 8 => "August"
  | 9 => "September" | 10 => "October" | 11 => "November"
  | _ => "December"
  end.

(** [strftime("%B %d")] and [strftime("%m%d")]. *)
Definition strftime_B_d (d : date) : string :=
  month_name (month d) +:+ " " +:+ fmt_02d (day d).

Definition strftime_md (d : date) : string :=
  fmt_02d (month d) +:+ fmt_02d (day d).

(** ** The data model *)

(** A subtask dictionary: the four string fields [extract_subtasks] fills
    in. *)
Record subtask : Set := {
  date_code : string;
  date_str : string;
  title : string;
  status : string;
}.

(** A task dictionary of [st.session_state.tasks].  [S] is the type of
    its ["subtasks"] entry: a list of subtasks in the pages, the decoded
    JSON value right after [load_tasks_from_db]. *)
Record task_of (S : Type) : Type := {
  project : string;
  task_name : string;
  description : string;
  task_status : string;
  subtasks : S;
}.
Arguments project {S} t.
Arguments task_name {S} t.
Arguments description {S} t.
Arguments task_status {S} t.
Arguments subtasks {S} t.

Abbreviation task := (task_of (list subtask)).

#[global] Instance subtask_eq_dec : EqDecision subtask.
Proof. solve_decision. Defined.

#[global] Instance task_eq_dec : EqDecision task.
Proof. solve_decision. Defined.

(** ** [extract_subtasks] *)

(** The loop body up to [date_str]: the two [int] calls stand before the
    [try], so their exception is not caught; [strptime] is inside it. *)
Definition format_date_code (code : string) : result string :=
  month ← py_int (take_chars 2 code);
  day ← py_int (drop_chars 2 code);
  match strptime_md (fmt_02d month +:+ fmt_02d day) with
  | Ok date_obj => Ok (strftime_B_d date_obj)
  | Raise ValueError => Ok ("Invalid date (" +:+ code +:+ ")")
  | Raise e => Raise e
  end.

Definition make_subtask (m : string * string) : result subtask :=
  let '(code, text) := m in
  date_str ← format_date_code code;
  Ok {| date_code := code; date_str := date_str; title := text;
        status := "Not Started" |}.

Definition extract_subtasks (description_text : string) : result (list subtask) :=
  for_each make_subtask (findall description_text).

(** ** The [json] codec *)

#[warnings="-register-all"] Inductive json : Type :=
| JNull
| JBool (b : bool)
| JInt (n : Z)
| JFloat (lexeme : string)
| JStr (s : string)
| JList (l : list json)
| JDict (items : list (string * json)).

(** *** [json.dumps] of a list of subtasks *)

Definition hex_digit (n : N) : ascii :=
  (if n <? 10 then byte (48 + n) else byte (87 + n))%N.

(** [\uXXXX], four lower-case hexadecimal digits. *)
Definition escape_u (n : N) : string :=
  String "\" (String "u"
    (String (hex_digit (N.land (N.shiftr n 12) 15))
       (String (hex_digit (N.land (N.shiftr n 8) 15))
          (String (hex_digit (N.land (N.shiftr n 4) 15))
             (String (hex_digit (N.land n 15)) EmptyString))))).

(** One code point under [ensure_ascii=True]. *)
Definition escape_code_point (cp : N) : string :=
  (if cp =? 34 then "\" +:+ String (byte 34) EmptyString
   else if cp =? 92 then "\\"
   else if cp =? 10 then "\n"
   else if cp =? 13 then "\r"
   else if cp =? 9 then "\t"
   else if cp =? 8 then "\b"
   else if cp =? 12 then "\f"
   else if (32 <=? cp) && (cp <=? 126) then String (byte cp) EmptyString
   else if cp <? 65536 then escape_u cp
   else
     let v := cp - 65536 in
     escape_u (N.lor 55296 (N.land (N.shiftr v 10) 1023))
       +:+ escape_u (N.lor 56320 (N.land v 1023)))%N.

Definition quote : string := String (byte 34) EmptyString.

Definition dumps_str (s : string) : string :=
  quote +:+ String.concat EmptyString (escape_code_point <$> utf8_decode s) +:+ quote.

Definition dumps_subtask (s : subtask) : string :=
  "{" +:+ dumps_str "date_code" +:+ ": " +:+ dumps_str (date_code s) +:+ ", "
      +:+ dumps_str "date_str" +:+ ": " +:+ dumps_str (date_str s) +:+ ", "
      +:+ dumps_str "title" +:+ ": " +:+ dumps_str (title s) +:+ ", "
      +:+ dumps_str "status" +:+ ": " +:+ dumps_str (status s) +:+ "}".

Definition json_dumps (subs : list subtask) : string :=
  "[" +:+ join ", " (dumps_subtask <$> subs) +:+ "]".

(** *** [json.loads] *)

Definition dquote : ascii := byte 34.

Definition json_ws (c : ascii) : bool :=
  Ascii.eqb c " " || Ascii.eqb c (byte 9) || Ascii.eqb c (byte 10)
  || Ascii.eqb c (byte 13).

Fixpoint skip_ws (s : string) : string :=
  match s with
  | String c s' => if json_ws c then skip_ws s' else s
  | EmptyString => s
  end.

Fixpoint strip_prefix (p s : string) : option string :=
  match p, s with
  | EmptyString, _ => Some s
  | String a p', String b s' => if Ascii.eqb a b then strip_prefix p' s' else None
  | _, _ => None
  end.

Definition hex_value (c : ascii) : option N :=
  (if in_range 48 57 c then Some (N_of_ascii c - 48)
   else if in_range 97 102 c then Some (N_of_ascii c - 87)
   else if in_range 65 70 c then Some (N_of_ascii c - 55)
   else None)%N.

Definition hex4_value (a b c d : ascii) : option N :=
  x ← hex_value a; y ← hex_value b; z ← hex_value c; w ← hex_value d;
  Some (((x * 16 + y) * 16 + z) * 16 + w)%N.

(** The character a backslash escape other than [\u] stands for. *)
Definition escape_char (c : ascii) : option ascii :=
  if Ascii.eqb c dquote then Some dquote
  else if Ascii.eqb c "\" then Some "\"%char
  else if Ascii.eqb c "/" then Some "/"%char
  else if Ascii.eqb c "b" then Some (byte 8)
  else if Ascii.eqb c "f" then Some (byte 12)
  else if Ascii.eqb c "n" then Some (byte 10)
  else if Ascii.eqb c "r" then Some (byte 13)
  else if Ascii.eqb c "t" then Some (byte 9)
  else None.

Definition high_surrogate (n : N) : bool := ((55296 <=? n) && (n <=? 56319))%N.
Definition low_surrogate (n : N) : bool := ((56320 <=? n) && (n <=? 57343))%N.
Definition join_surrogates (hi lo : N) : N :=
  (65536 + N.lor (N.shiftl (hi - 55296) 10) (lo - 56320))%N.

(** A string literal after its opening quote, in strict mode: the decoded
    text and the input after the closing quote. *)
Fixpoint scan_string (s : string) : result (string * string) :=
  match s with
  | EmptyString => Raise JSONDecodeError
  | String c s1 =>
      if Ascii.eqb c dquote then Ok (EmptyString, s1)
      else if Ascii.eqb c "\" then
        match s1 with
        | EmptyString => Raise JSONDecodeError
        | String e s2 =>
            if Ascii.eqb e "u" then
              match s2 with
              | String h1 (String h2 (String h3 (String h4 s3))) =>
                  match hex4_value h1 h2 h3 h4 with
                  | None => Raise JSONDecodeError
                  | Some hi =>
                      let alone :=
                        '(t, r) ← scan_string s3; Ok (utf8_encode hi +:+ t, r) in
                      if high_surrogate hi then
                        match s3 with
                        | String e1 (String e2
                            (String g1 (String g2 (String g3 (String g4 s4))))) =>
                            if Ascii.eqb e1 "\" && Ascii.eqb e2 "u" then
                              match hex4_value g1 g2 g3 g4 with
                              | None => Raise JSONDecodeError
                              | Some lo =>
                                  if low_surrogate lo then
                                    '(t, r) ← scan_string s4;
                                    Ok (utf8_encode (join_surrogates hi lo) +:+ t, r)
                                  else alone
                              end
                            else alone
                        | _ => alone
                        end
                      else alone
                  end
              | _ => Raise JSONDecodeError
              end
            else
              match escape_char e with
              | Some x => '(t, r) ← scan_string s2; Ok (String x t, r)
              | None => Raise JSONDecodeError
              end
        end
      else if (N_of_ascii c <? 32)%N then Raise JSONDecodeError
      else '(t, r) ← scan_string s1; Ok (String c t, r)
  end.

Fixpoint span_digits (s : string) : string * string :=
  match s with
  | String c s' =>
      if is_digit c then let '(ds, r) := span_digits s' in (String c ds, r)
      else (EmptyString, s)
  | EmptyString => (EmptyString, EmptyString)
  end.

Fixpoint digits_value (acc : Z) (s : string) : Z :=
  match s with
  | String c s' => digits_value (10 * acc + digit_value c) s'
  | EmptyString => acc
  end.

Definition is_empty (s : string) : bool :=
  match s with EmptyString => true | _ => false end.

(** A number: an optional minus, an integer part without leading zero,
    an optional fraction (a dot and digits), an optional exponent ([e] or
    [E], an optional sign, digits).  It is an [int] when it has neither
    fraction nor exponent, otherwise a [float], kept as its lexeme. *)
Definition scan_number (s : string) : option (json * string) :=
  let '(sign, s1) :=
    match s with
    | String c r => if Ascii.eqb c "-" then ("-", r) else (EmptyString, s)
    | EmptyString => (EmptyString, s)
    end in
  '(ip, r1) ←
    match s1 with
    | String c r =>
        if Ascii.eqb c "0" then Some ("0", r)
        else if in_range 49 57 c
             then let '(ds, r') := span_digits r in Some (String c ds, r')
             else None
    | EmptyString => None
    end;
  let '(frac, r2) :=
    match r1 with
    | String c r =>
        if Ascii.eqb c "." then
          let '(ds, r') := span_digits r in
          if is_empty ds then (EmptyString, r1) else ("." +:+ ds, r')
        else (EmptyString, r1)
    | EmptyString => (EmptyString, r1)
    end in
  let '(exp, r3) :=
    match r2 with
    | String c r =>
        if Ascii.eqb c "e" || Ascii.eqb c "E" then
          let '(sg, r') :=
            match r with
            | String g r'' =>
                if Ascii.eqb g "+" || Ascii.eqb g "-"
                then (String g EmptyString, r'') else (EmptyString, r)
            | EmptyString => (EmptyString, r)
            end in
          let '(ds, r'') := span_digits r' in
          if is_empty ds then (EmptyString, r2) else (String c sg +:+ ds, r'')
        else (EmptyString, r2)
    | EmptyString => (EmptyString, r2)
    end in
  if is_empty frac && is_empty exp then
    Some (JInt (if is_empty sign then digits_value 0 ip
                else - digits_value 0 ip), r3)
  else Some (JFloat (sign +:+ ip +:+ frac +:+ exp), r3).

(** A constant spelled [name]. *)
Definition scan_constant (name : string) (v : json) (s : string)
  : option (json * string) :=
  r ← strip_prefix name s; Some (v, r).

Definition scan_atom (s : string) : result (json * string) :=
  match
    scan_constant "null" JNull s
    ∪ scan_constant "true" (JBool true) s
    ∪ scan_constant "false" (JBool false) s
    ∪ scan_number s
    ∪ scan_constant "NaN" (JFloat "NaN") s
    ∪ scan_constant "Infinity" (JFloat "Infinity") s
    ∪ scan_constant "-Infinity" (JFloat "-Infinity") s
  with
  | Some m => Ok m
  | None => Raise JSONDecodeError
  end.

(** The recursive descent of the decoder.  Each call reads at least one
    character, so with [fuel] above the length of the input the [O] case
    is not reached. *)
Fixpoint scan_once (fuel : nat) (s : string) : result (json * string) :=
  match fuel with
  | O => Raise JSONDecodeError
  | S fuel' =>
      match s with
      | EmptyString => Raise JSONDecodeError
      | String c r =>
          if Ascii.eqb c dquote then
            '(t, r') ← scan_string r; Ok (JStr t, r')
          else if Ascii.eqb c "{" then
            match skip_ws r with
            | String d r' =>
                if Ascii.eqb d "}" then Ok (JDict [], r')
                else
                  '(items, r'') ← scan_pairs fuel' (skip_ws r);
                  Ok (JDict items, r'')
            | EmptyString => Raise JSONDecodeError
            end
          else if Ascii.eqb c "[" then
            match skip_ws r with
            | String d r' =>
                if Ascii.eqb d "]" then Ok (JList [], r')
                else
                  '(l, r'') ← scan_items fuel' (skip_ws r);
                  Ok (JList l, r'')
            | EmptyString => Raise JSONDecodeError
            end
          else scan_atom s
      end
  end
(** The members of an object, from the quote of a key up to the closing
    brace. *)
with scan_pairs (fuel : nat) (s : string)
  : result (list (string * json) * string) :=
  match fuel with
  | O => Raise JSONDecodeError
  | S fuel' =>
      match s with
      | String q r =>
          if Ascii.eqb q dquote then
            '(key, r1) ← scan_string r;
            match skip_ws r1 with
            | String colon r2 =>
                if Ascii.eqb colon ":" then
                  '(v, r3) ← scan_once fuel' (skip_ws r2);
                  match skip_ws r3 with
                  | String d r4 =>
                      if Ascii.eqb d "}" then Ok ([(key, v)], r4)
                      else if Ascii.eqb d "," then
                        '(items, r5) ← scan_pairs fuel' (skip_ws r4);
                        Ok ((key, v) :: items, r5)
                      else Raise JSONDecodeError
                  | EmptyString => Raise JSONDecodeError
                  end
                else Raise JSONDecodeError
            | EmptyString => Raise JSONDecodeError
            end
          else Raise JSONDecodeError
      | EmptyString => Raise JSONDecodeError
      end
  end
(** The elements of an array, from the first character of an element up
    to the closing bracket. *)
with scan_items (fuel : nat) (s : string) : result (list json * string) :=
  match fuel with
  | O => Raise JSONDecodeError
  | S fuel' =>
      '(v, r1) ← scan_once fuel' s;
      match skip_ws r1 with
      | String d r2 =>
          if Ascii.eqb d "]" then Ok ([v], r2)
          else if Ascii.eqb d "," then
            '(l, r3) ← scan_items fuel' (skip_ws r2);
            Ok (v :: l, r3)
          else Raise JSONDecodeError
      | EmptyString => Raise JSONDecodeError
      end
  end.

Definition json_loads (s : string) : result json :=
  '(v, r) ← scan_once (S (String.length s)) (skip_ws s);
  if is_empty (skip_ws r) then Ok v else Raise JSONDecodeError.

(** ** The table [tasks] and the session *)

Record row : Set := {
  col_id : Z;
  col_project : string;
  col_task : string;
  col_description : string;
  col_status : string;
  col_subtasks : string;
}.

(** The rows in rowid order, and the largest rowid given so far (the
    table is [AUTOINCREMENT]). *)
Record database : Set := {
  rows : list row;
  last_rowid : Z;
}.

(** [INSERT INTO tasks (project, task, description, status, subtasks)]. *)
Definition sql_insert (p t d s subs : string) (db : database) : database :=
  let id := last_rowid db + 1 in
  {| rows := rows db ++ [ {| col_id := id; col_project := p; col_task := t;
                             col_description := d; col_status := s;
                             col_subtasks := subs |} ];
     last_rowid := id |}.

(** [WHERE project = ? AND task = ?]. *)
Definition where_key (p t : string) (r : row) : Prop :=
  col_project r = p ∧ col_task r = t.

#[global] Instance where_key_dec p t r : Decision (where_key p t r).
Proof. unfold where_key. apply _. Defined.

Definition set_col_subtasks (subs : string) (r : row) : row :=
  {| col_id := col_id r; col_project := col_project r; col_task := col_task r;
     col_description := col_description r; col_status := col_status r;
     col_subtasks := subs |}.

(** [UPDATE tasks SET subtasks = ? WHERE project = ? AND task = ?]. *)
Definition sql_update_subtasks (subs p t : string) (db : database) : database :=
  {| rows := (λ r, if decide (where_key p t r) then set_col_subtasks subs r else r)
               <$> rows db;
     last_rowid := last_rowid db |}.

(** [DELETE FROM tasks WHERE project = ? AND task = ?]. *)
Definition sql_delete (p t : string) (db : database) : database :=
  {| rows := filter (λ r, ¬ where_key p t r) (rows db);
     last_rowid := last_rowid db |}.

(** The store and [st.session_state.tasks]. *)
Record state : Type := {
  db : database;
  tasks : list task;
}.

(** What a handler shows: [st.success] or [st.warning]. *)
Inductive notice : Set :=
| Success (msg : string)
| Warning (msg : string).

(** ** Create Task page: the Save Task button *)

(** Truth value of a string: [False] only for the empty one. *)
Definition truthy (s : string) : bool := negb (is_empty s).

Definition save_task (project task description status : string) (st : state)
  : result (state * notice) :=
  if truthy project && truthy task then
    subtasks ← extract_subtasks description;
    Ok ({| db := sql_insert project task description status
                   (json_dumps subtasks) (db st);
           tasks := tasks st ++ [ {| project := project; task_name := task;
                                     description := description;
                                     task_status := status;
                                     subtasks := subtasks |} ] |},
        Success ("Task '" +:+ task +:+ "' under project '" +:+ project
                 +:+ "' saved!"))
  else Ok (st, Warning "Please fill in both Project and Task fields.").

(** ** Current Tasks page *)

(** The list [filtered] under the two select boxes.  Its elements are the
    dictionaries of the session list themselves, not copies: each comes
    with its position in the session list, through which a handler's
    assignment reaches the session. *)
Definition filtered (selected_project selected_task : string)
    (tasks : list task) : list (nat * task) :=
  let by_project :=
    filter (λ it, selected_project = "All Projects"
                  ∨ project it.2 = selected_project)
           (imap pair tasks) in
  if decide (selected_task ≠ "All Tasks")
  then filter (λ it, task_name it.2 = selected_task) by_project
  else by_project.

Definition set_status (new_status : string) (s : subtask) : subtask :=
  {| date_code := date_code s; date_str := date_str s; title := title s;
     status := new_status |}.

Definition set_subtasks (subs : list subtask) (t : task) : task :=
  {| project := project t; task_name := task_name t;
     description := description t; task_status := task_status t;
     subtasks := subs |}.

(** The button [complete-idx-sub_idx]; [None] when the page shows no such
    button. *)
Definition click_complete (selected_project selected_task : string)
    (idx sub_idx : nat) (st : state) : option state :=
  '(ref, task) ← filtered selected_project selected_task (tasks st) !! idx;
  _ ← subtasks task !! sub_idx;
  let subs := alter (set_status "Completed") sub_idx (subtasks task) in
  Some {| db := sql_update_subtasks (json_dumps subs) (project task)
                  (task_name task) (db st);
          tasks := <[ref := set_subtasks subs task]> (tasks st) |}.

(** The button [delete-idx]: the rows go by key, the session list by
    [pop(idx)]. *)
Definition click_delete (selected_project selected_task : string)
    (idx : nat) (st : state) : option state :=
  '(_, task) ← filtered selected_project selected_task (tasks st) !! idx;
  Some {| db := sql_delete (project task) (task_name task) (db st);
          tasks := delete idx (tasks st) |}.

(** ** Daily Tasks page *)

(** The three ways the page writes a subtask: struck through, tagged
    [[Overdue]], or in bold. *)
Inductive classification : Set :=
| Completed
| Overdue
| DueToday.

#[global] Instance classification_eq_dec : EqDecision classification.
Proof. solve_decision. Defined.

Record shown : Type := {
  shown_task : task;
  shown_subtask : subtask;
  shown_as : classification;
}.

(** The body of the inner loop: [None] for a subtask the page skips. *)
Definition daily_subtask (today_num : Z) (task : task) (subtask : subtask)
  : result (option shown) :=
  sub_num ← py_int (date_code subtask);
  let status := status subtask in
  if bool_decide (status = "Completed") && (sub_num <? today_num) then Ok None
  else if sub_num <=? today_num then
    Ok (Some {| shown_task := task; shown_subtask := subtask;
                shown_as :=
                  if bool_decide (status = "Completed") then Completed
                  else if sub_num <? today_num then Overdue
                  else DueToday |})
  else Ok None.

Definition daily_task (today_num : Z) (task : task) : result (list shown) :=
  l ← for_each (daily_subtask today_num task) (subtasks task);
  Ok (omap (M := list) id l).

Definition daily_tasks (now : date) (tasks : list task) : result (list shown) :=
  let today_code := strftime_md now in
  today_num ← py_int today_code;
  l ← for_each (daily_task today_num) tasks;
  Ok (concat l).

(** ** Dashboard *)

Record metrics : Set := {
  total_projects : nat;
  total_tasks : nat;
  overdue_count : Z;
  today_count : Z;
}.

(** The two counters, through one subtask. *)
Definition count_subtask (today_num : Z) (counts : Z * Z) (sub : subtask)
  : result (Z * Z) :=
  let '(overdue_count, today_count) := counts in
  sub_num ← py_int (date_code sub);
  if bool_decide (status sub ≠ "Completed") then
    if sub_num <? today_num then Ok (overdue_count + 1, today_count)
    else if sub_num =? today_num then Ok (overdue_count, today_count + 1)
    else Ok counts
  else Ok counts.

Fixpoint fold_result {A B : Type} (f : B -> A -> result B) (l : list A) (b : B)
  : result B :=
  match l with
  | [] => Ok b
  | x :: l' => b' ← f b x; fold_result f l' b'
  end.

Definition count_task (today_num : Z) (counts : Z * Z) (task : task)
  : result (Z * Z) :=
  fold_result (count_subtask today_num) (subtasks task) counts.

Definition dashboard (now : date) (tasks : list task) : result metrics :=
  let total_projects := length (remove_dups (project <$> tasks)) in
  let total_tasks := length tasks in
  let today_code := strftime_md now in
  today_num ← py_int today_code;
  '(overdue_count, today_count) ←
    fold_result (count_task today_num) tasks (0, 0);
  Ok {| total_projects := total_projects; total_tasks := total_tasks;
        overdue_count := overdue_count; today_count := today_count |}.

(** ** [export_all_tasks_to_csv] *)

(** [for s in v]: the elements of a list, the keys of a dictionary, the
    characters of a string. *)
Definition py_iter (v : json) : result (list json) :=
  match v with
  | JList l => Ok l
  | JDict items => Ok (JStr <$> remove_dups items.*1)
  | JStr s => Ok ((λ cp, JStr (utf8_encode cp)) <$> utf8_decode s)
  | _ => Raise TypeError
  end.

(** The value a dictionary built from [items] holds for [key]: that of
    the last pair with this key. *)
Fixpoint last_value (key : string) (items : list (string * json))
  : option json :=
  match items with
  | [] => None
  | (k, v) :: items' =>
      match last_value key items' with
      | Some v' => Some v'
      | None => if decide (k = key) then Some v else None
      end
  end.

(** [s.get(key, default)]; only a dictionary has the method. *)
Definition py_get (s : json) (key fallback : string) : result json :=
  match s with
  | JDict items => Ok (default (JStr fallback) (last_value key items))
  | _ => Raise AttributeError
  end.

(** The text an f-string puts for a value.  Floats and containers are
    left out ([None]). *)
Definition py_format (v : json) : option string :=
  match v with
  | JStr s => Some s
  | JInt n => Some (py_str_int n)
  | JBool true => Some "True"
  | JBool false => Some "False"
  | JNull => Some "None"
  | _ => None
  end.

Definition format_line (s : json) : result (option string) :=
  a ← py_get s "date_str" "?";
  b ← py_get s "title" "?";
  c ← py_get s "status" "?";
  Ok (x ← py_format a; y ← py_format b; z ← py_format c;
      Some (x +:+ ": " +:+ y +:+ " [" +:+ z +:+ "]")).

(** The inner function [format_subtasks]: whatever is raised inside the
    [try] gives the marker.  The result is [None] only where a field
    has a value [py_format] leaves out. *)
Definition format_subtasks (subtask_json : string) : option string :=
  match subtasks ← json_loads subtask_json;
        elements ← py_iter subtasks;
        for_each format_line elements with
  | Ok lines => join (String LF EmptyString) <$> mapM id lines
  | Raise _ => Some "[Invalid subtasks]"
  end.

(** A line of [data], under the columns of the frame. *)
Record export_row : Set := {
  Project : string;
  Task : string;
  Description : string;
  Status : string;
  Subtasks : option string;
}.

Definition export_all_tasks_to_csv (db : database) : list export_row :=
  (λ r, {| Project := col_project r; Task := col_task r;
           Description := col_description r; Status := col_status r;
           Subtasks := format_subtasks (col_subtasks r) |}) <$> rows db.

(** ** [load_tasks_from_db] *)

Definition load_row (r : row) : result (task_of json) :=
  subtasks ← json_loads (col_subtasks r);
  Ok {| project := col_project r; task_name := col_task r;
        description := col_description r; task_status := col_status r;
        subtasks := subtasks |}.

Definition load_tasks_from_db (db : database) : result (list (task_of json)) :=
  for_each load_row (rows db).

(** * Properties *)

(** ** Definitions in the words of the specification *)

(** A date code: exactly four digits. *)
Definition is_date_code (code : string) : bool :=
  match code with
  | String a (String b (String c (String d EmptyString))) =>
      is_digit a && is_digit b && is_digit c && is_digit d
  | _ => false
  end.

(** A string of digits, at least one. *)
Definition decimal (s : string) : bool :=
  negb (is_empty s) && all_chars is_digit s.

(** The number a string of digits denotes ("0305" is 305). *)
Definition number (s : string) : Z := digits_value 0 s.

Definition spec_month_names : list string :=
  ["January"; "February"; "March"; "April"; "May"; "June"; "July"; "August";
   "September"; "October"; "November"; "December"].

(** The lengths of the months of the year the date is built in, 1900. *)
Definition spec_month_lengths : list Z :=
  [31; 28; 31; 30; 31; 30; 31; 31; 30; 31; 30; 31].

(** [int(s)], for the strings on which it returns. *)
Definition int_value (s : string) : Z :=
  match py_int s with
  | Ok n => n
  | Raise _ => 0
  end.

(** [formatDateCode]: month from the first two digits, day from the last
    two; "Month DD" when the month has such a day, the marker otherwise. *)
Definition spec_format_date_code (code : string) : string :=
  let m := int_value (str_take 2 code) in
  let d := int_value (str_drop 2 code) in
  if (1 <=? m) && (m <=? 12) && (1 <=? d)
     && (d <=? nth (Z.to_nat (m - 1)) spec_month_lengths 0)
  then nth (Z.to_nat (m - 1)) spec_month_names EmptyString
       +:+ " " +:+ str_drop 2 code
  else "Invalid date (" +:+ code +:+ ")".

(** A date as the clock gives it. *)
Definition wall_clock (now : date) : Prop :=
  1 <= month now <= 12 ∧ 1 <= day now <= 31.

(** The task lists whose date codes are strings of digits (those that
    [extract_subtasks] writes have four). *)
Definition numeric_codes (tasks : list task) : Prop :=
  Forall (λ t : task, Forall (λ s, decimal (date_code s) = true) (subtasks t))
         tasks.

(** [dueOrOverdue]: not completed and due today or before, or completed
    and due today. *)
Definition spec_due_or_overdue (today_code : string) (s : subtask) : bool :=
  (bool_decide (status s ≠ "Completed")
   && (int_value (date_code s) <=? int_value today_code))
  || (bool_decide (status s = "Completed")
      && (int_value (date_code s) =? int_value today_code)).

(** The class of a pair, where the specification gives one. *)
Definition spec_classify (today_code : string) (s : subtask)
  : option classification :=
  if bool_decide (status s = "Completed") then Some Completed
  else if int_value (date_code s) <? int_value today_code then Some Overdue
  else if int_value (date_code s) =? int_value today_code then Some DueToday
  else None.

Definition spec_entry (today_code : string) (t : task) (s : subtask)
  : option shown :=
  if spec_due_or_overdue today_code s then
    c ← spec_classify today_code s;
    Some {| shown_task := t; shown_subtask := s; shown_as := c |}
  else None.

(** The pairs of the view, task by task, subtask by subtask. *)
Definition spec_view (today_code : string) (tasks : list task) : list shown :=
  t ← tasks; omap (spec_entry today_code t) (subtasks t).

(** How many entries of a view are of class [c]. *)
Definition count_as (c : classification) (view : list shown) : Z :=
  Z.of_nat (length (filter (λ x, shown_as x = c) view)).

(** The figures of the dashboard, computed from the view. *)
Definition metrics_of_view (tasks : list task) (view : list shown) : metrics :=
  {| total_projects := length (remove_dups (project <$> tasks));
     total_tasks := length tasks;
     overdue_count := count_as Overdue view;
     today_count := count_as DueToday view |}.

(** Whether the character [c] occurs in [s]. *)
Fixpoint occurs (c : ascii) (s : string) : bool :=
  match s with
  | String x s' => Ascii.eqb x c || occurs c s'
  | EmptyString => false
  end.

(** The lines of a text: what stands between its newlines. *)
Fixpoint lines (s : string) : list string :=
  match s with
  | EmptyString => [EmptyString]
  | String c s' =>
      if Ascii.eqb c LF then EmptyString :: lines s'
      else match lines s' with
           | l :: ls => String c l :: ls
           | [] => [String c EmptyString]
           end
  end.

(** A text that starts with a character other than a blank. *)
Definition starts_unblank (s : string) : bool :=
  match next_char s with
  | Some (cp, _) => negb (uni_space cp)
  | None => false
  end.

(** A text of one character, a blank. *)
Definition one_blank (s : string) : bool :=
  match next_char s with
  | Some (cp, EmptyString) => uni_space cp
  | _ => false
  end.

(** A date code of four decimal digits, of any script. *)
Definition decimal_date_code (code : string) : bool :=
  match utf8_decode code with
  | [a; b; c; d] => uni_digit a && uni_digit b && uni_digit c && uni_digit d
  | _ => false
  end.

(** The scan of the pattern, started at [s], arrives at the last [n]
    bytes of [s]: no match it finds on its way consumes their head. *)
Fixpoint scan_arrives (fuel : nat) (s : string) (n : nat) : bool :=
  if (String.length s =? n)%nat then true
  else match fuel with
       | O => false
       | S fuel' =>
           match match_at s with
           | Some (_, _, rest) => scan_arrives fuel' rest n
           | None =>
               match next_char s with
               | Some (_, s') => scan_arrives fuel' s' n
               | None => false
               end
           end
       end.

(** No match found in [pre +:+ line] before [line] consumes the head of
    [line]. *)
Definition not_consumed (pre line : string) : bool :=
  scan_arrives (String.length (pre +:+ line)) (pre +:+ line)
    (String.length line).

(** What may follow a line: nothing, or a newline and more text. *)
Definition ends_line (s : string) : bool :=
  match s with
  | String c _ => Ascii.eqb c LF
  | EmptyString => true
  end.

(** The subtask that a match of the pattern gives. *)
Definition spec_subtask (m : string * string) : subtask :=
  {| date_code := m.1; date_str := spec_format_date_code m.1; title := m.2;
     status := "Not Started" |}.

(** A subtask as a JSON object, and the text of its line in the export. *)
Definition subtask_to_json (s : subtask) : json :=
  JDict [("date_code", JStr (date_code s)); ("date_str", JStr (date_str s));
         ("title", JStr (title s)); ("status", JStr (status s))].

Definition spec_subtask_line (s : subtask) : string :=
  date_str s +:+ ": " +:+ title s +:+ " [" +:+ status s +:+ "]".

Definition spec_subtasks_cell (subs : list subtask) : string :=
  join (String LF EmptyString) (spec_subtask_line <$> subs).

(** Values a [for] loop cannot run over, and values without [get]. *)
Definition not_iterable (v : json) : Prop :=
  match v with
  | JList _ | JDict _ | JStr _ => False
  | _ => True
  end.

Definition not_a_dict (v : json) : Prop :=
  match v with
  | JDict _ => False
  | _ => True
  end.

(** [deleteTask] as the specification has it: the first task of the
    session list with the key goes. *)
Fixpoint spec_remove_first (p t : string) (tasks : list task) : list task :=
  match tasks with
  | [] => []
  | x :: tasks' =>
      if decide (project x = p ∧ task_name x = t) then tasks'
      else x :: spec_remove_first p t tasks'
  end.
(** * The other parts of the script

    Navigation, the select boxes and the edit area of the Current Tasks
    page, the button of the Daily Tasks page, the Project Overview page,
    and runs of the handlers. *)


(** ** Navigation *)

(** [s[0]]: the first character of a string, [None] ([IndexError]) when
    it is empty. *)
Definition first_character (s : string) : option string :=
  match utf8_decode s with
  | cp :: _ => Some (utf8_encode cp)
  | [] => None
  end.

(** [page = query_params.get("page", ["Dashboard"])[0]], from the value
    of the parameter ["page"] when there is one: a string is indexed by
    characters, the default list by elements. *)
Definition current_page (query_page : option string) : option string :=
  match query_page with
  | Some value => first_character value
  | None => Some "Dashboard"
  end.

Inductive page : Set :=
| Dashboard
| CreateTask
| CurrentTasks
| DailyTasks
| ProjectOverview.

(** The page whose [if page == ...] holds. *)
Definition page_shown (page_code : string) : option page :=
  if decide (page_code = "2") then Some CreateTask
  else if decide (page_code = "3") then Some CurrentTasks
  else if decide (page_code = "4") then Some DailyTasks
  else if decide (page_code = "5") then Some ProjectOverview
  else if decide (page_code = "1") then Some Dashboard
  else None.

(** The buttons that write the parameter ["page"]: those of the sidebar,
    "Back to Dashboard", and the quick navigation of the dashboard. *)
Inductive nav_button : Set :=
| Sidebar (p : page)
| BackToDashboard
| QuickCreate
| QuickTasks
| QuickDaily
| QuickProjects.

Definition button_value (b : nav_button) : string :=
  match b with
  | Sidebar Dashboard => "1 Dashboard"
  | Sidebar CreateTask => "2 Create Task"
  | Sidebar CurrentTasks => "3 Current Tasks"
  | Sidebar DailyTasks => "4 Daily Tasks"
  | Sidebar ProjectOverview => "5 Project Overview"
  | BackToDashboard => "1"
  | QuickCreate => "2"
  | QuickTasks => "3"
  | QuickDaily => "4"
  | QuickProjects => "5"
  end.

(** The run after a button: the page, if any, under the value written. *)
Definition page_after (b : nav_button) : option page :=
  current_page (Some (button_value b)) ≫= page_shown.

(** ** Current Tasks page: the select boxes and the edit area *)

(** [sorted] of strings. *)
Definition sorted_strings (l : list string) : list string :=
  merge_sort String.le l.

(** The options of the two select boxes. *)
Definition project_options (tasks : list task) : list string :=
  "All Projects" :: sorted_strings (remove_dups (project <$> tasks)).

Definition task_options (selected_project : string) (tasks : list task)
  : list string :=
  "All Tasks"
  :: sorted_strings
       ((λ it : nat * task, task_name it.2)
          <$> filtered selected_project "All Tasks" tasks).

(** The session with its dictionary [edit_mode]. *)
Record session : Type := {
  app : state;
  edit_mode : gmap nat bool;
}.

(** The button [edit-idx]. *)
Definition click_edit (selected_project selected_task : string) (idx : nat)
    (s : session) : option session :=
  _ ← filtered selected_project selected_task (tasks (app s)) !! idx;
  Some {| app := app s; edit_mode := <[idx := true]> (edit_mode s) |}.

(** [UPDATE tasks SET description = ?, subtasks = ?
     WHERE project = ? AND task = ?]. *)
Definition sql_update_description (d subs p t : string) (db : database)
  : database :=
  {| rows := (λ r, if decide (where_key p t r)
                   then {| col_id := col_id r; col_project := col_project r;
                           col_task := col_task r; col_description := d;
                           col_status := col_status r; col_subtasks := subs |}
                   else r) <$> rows db;
     last_rowid := last_rowid db |}.

Definition set_description (d : string) (subs : list subtask) (t : task) : task :=
  {| project := project t; task_name := task_name t; description := d;
     task_status := task_status t; subtasks := subs |}.

(** What "Save Changes" does to the store and the session list. *)
Definition save_changes (selected_project selected_task : string) (idx : nat)
    (new_desc : string) (st : state) : option (result state) :=
  '(ref, task) ← filtered selected_project selected_task (tasks st) !! idx;
  Some (new_subtasks ← extract_subtasks new_desc;
        Ok {| db := sql_update_description new_desc (json_dumps new_subtasks)
                      (project task) (task_name task) (db st);
              tasks := <[ref := set_description new_desc new_subtasks task]>
                         (tasks st) |}).

(** The button [save-idx], shown when [edit_mode.get(idx, False)] holds;
    [None] when the page shows no such button. *)
Definition click_save_changes (selected_project selected_task : string)
    (idx : nat) (new_desc : string) (s : session) : option (result session) :=
  if default false (edit_mode s !! idx) then
    r ← save_changes selected_project selected_task idx new_desc (app s);
    Some (st ← r; Ok {| app := st; edit_mode := <[idx := false]> (edit_mode s) |})
  else None.

(** ** Daily Tasks page: the button of a subtask *)

(** The run of the page in which the button [complete-today-idx-sub_idx]
    is pressed: the loop goes through the subtasks before it, which may
    raise, and stops at the button.  [Ok None] when the page shows no such
    button. *)
Definition click_complete_today (now : date) (idx sub_idx : nat) (st : state)
  : result (option state) :=
  let today_code := strftime_md now in
  today_num ← py_int today_code;
  _ ← for_each (daily_task today_num) (take idx (tasks st));
  match tasks st !! idx with
  | None => Ok None
  | Some task =>
      _ ← for_each (daily_subtask today_num task)
            (take sub_idx (subtasks task));
      match subtasks task !! sub_idx with
      | None => Ok None
      | Some subtask =>
          shown ← daily_subtask today_num task subtask;
          match shown with
          | Some _ =>
              if bool_decide (status subtask ≠ "Completed") then
                let subs :=
                  alter (set_status "Completed") sub_idx (subtasks task) in
                Ok (Some {| db := sql_update_subtasks (json_dumps subs)
                                    (project task) (task_name task) (db st);
                            tasks := <[idx := set_subtasks subs task]>
                                       (tasks st) |})
              else Ok None
          | None => Ok None
          end
      end
  end.

(** ** Project Overview page *)

(** [projects.setdefault(key, []).append(task)] on a dictionary kept as
    the list of its items in insertion order. *)
Fixpoint setdefault_append (key : string) (x : task)
    (projects : list (string * list task)) : list (string * list task) :=
  match projects with
  | [] => [(key, [x])]
  | (k, l) :: projects' =>
      if decide (k = key) then (k, (l ++ [x])%list) :: projects'
      else (k, l) :: setdefault_append key x projects'
  end.

Definition group_by_project (tasks : list task) : list (string * list task) :=
  foldl (λ projects task, setdefault_append (project task) task projects)
        [] tasks.

(** The order of [sorted(projects.items())]: by key (the keys of a
    dictionary differ, so the lists are never compared). *)
Definition items_le (a b : string * list task) : Prop := String.le a.1 b.1.

#[global] Instance items_le_dec : RelDecision items_le.
Proof. intros a b. unfold items_le. apply _. Defined.

#[global] Instance items_le_trans : Transitive items_le.
Proof. intros a b c. unfold items_le. apply transitivity. Qed.

#[global] Instance items_le_total : Total items_le.
Proof. intros a b. unfold items_le. apply total, _. Qed.

(** The columns of the page: a project and its tasks. *)
Definition project_overview (tasks : list task) : list (string * list task) :=
  merge_sort items_le (group_by_project tasks).

(** The colour of a subtask line. *)
Definition status_color (status : string) : string :=
  if decide (status = "Completed") then "green"
  else if decide (status = "In Progress") then "orange"
  else "red".

(** ** Runs of the application *)

(** What the user does: the buttons that change the store or the session
    list, with what was typed or selected. *)
Inductive event : Type :=
| SaveTask (project task description status : string)
| CompleteSubtask (selected_project selected_task : string) (idx sub_idx : nat)
| DeleteTask (selected_project selected_task : string) (idx : nat)
| SaveChanges (selected_project selected_task : string) (idx : nat)
    (new_desc : string)
| CompleteToday (now : date) (idx sub_idx : nat).

(** The state after an event; it is the state before when the handler
    does not run to its end (no such button, a warning, an exception). *)
Definition step (st : state) (e : event) : state :=
  match e with
  | SaveTask p t d s =>
      match save_task p t d s st with
      | Ok (st', _) => st'
      | Raise _ => st
      end
  | CompleteSubtask p q idx sub_idx =>
      default st (click_complete p q idx sub_idx st)
  | DeleteTask p q idx => default st (click_delete p q idx st)
  | SaveChanges p q idx new_desc =>
      match save_changes p q idx new_desc st with
      | Some (Ok st') => st'
      | _ => st
      end
  | CompleteToday now idx sub_idx =>
      match click_complete_today now idx sub_idx st with
      | Ok (Some st') => st'
      | _ => st
      end
  end.

Definition run (st : state) (events : list event) : state :=
  foldl step st events.

(** ** Enumerations and checks used in the proofs *)

Definition digit_chars : list ascii :=
  ["0"; "1"; "2"; "3"; "4"; "5"; "6"; "7"; "8"; "9"]%char.

(** The ten thousand date codes. *)
Definition all_date_codes : list string :=
  a ← digit_chars; b ← digit_chars; c ← digit_chars; d ← digit_chars;
  [String a (String b (String c (String d EmptyString)))].

Definition format_agrees (code : string) : bool :=
  match format_date_code code with
  | Ok s => String.eqb s (spec_format_date_code code)
  | Raise _ => false
  end.

(** The days of a year, by month and day of the month. *)
Definition all_days : list date :=
  m ← seqZ 1 12; d ← seqZ 1 31; [{| month := m; day := d |}].

Definition today_agrees (now : date) : bool :=
  match py_int (strftime_md now) with
  | Ok n => (n =? 100 * month now + day now) && decimal (strftime_md now)
  | Raise _ => false
  end.

(** The example of the specification: the fifteenth of June, and a task
    with subtasks due on the tenth and on the fifteenth, open and
    completed. *)
Definition june_15 : date := {| month := 6; day := 15 |}.

Definition example_subtask (code status : string) : subtask :=
  {| date_code := code; date_str := "June " +:+ str_drop 2 code;
     title := "step"; status := status |}.

Definition example_task : task :=
  {| project := "assay"; task_name := "prepare"; description := EmptyString;
     task_status := "In Progress";
     subtasks := [ example_subtask "0610" "Not Started";
                   example_subtask "0615" "Not Started";
                   example_subtask "0615" "Completed";
                   example_subtask "0610" "Completed" ] |}.

Definition january_1 : date := {| month := 1; day := 1 |}.

(** A description whose first line has a code and nothing after the
    colon, and whose second line is a subtask of the 29th of February. *)
Definition leap_description : string :=
  "0101:" +:+ String LF "0229: x".

(** The state of a fresh installation. *)
Definition empty_state : state :=
  {| db := {| rows := []; last_rowid := 0 |}; tasks := [] |}.

(** The effect, on a list of references, of assigning [subs] to the
    subtasks of the task at position [ref] of the session list. *)
Definition assign_at (ref : nat) (subs : list subtask) (it : nat * task)
  : nat * task :=
  if decide (it.1 = ref) then (it.1, set_subtasks subs it.2) else it.

(** A state with one task of two subtasks, saved. *)
Definition state_with_example : state :=
  {| db := {| rows := [ {| col_id := 1; col_project := "assay";
                           col_task := "prepare";
                           col_description := EmptyString;
                           col_status := "In Progress";
                           col_subtasks := json_dumps (subtasks example_task) |} ];
              last_rowid := 1 |};
     tasks := [example_task] |}.

(** A table of two rows: the example task, and a row whose subtasks
    column is cut short. *)
Definition table_with_malformed_row : database :=
  {| rows := [ {| col_id := 1; col_project := "assay"; col_task := "prepare";
                  col_description := EmptyString; col_status := "In Progress";
                  col_subtasks := json_dumps (subtasks example_task) |};
               {| col_id := 2; col_project := "assay"; col_task := "measure";
                  col_description := "0305: weigh"; col_status := "Not Started";
                  col_subtasks := "[{" |} ];
     last_rowid := 2 |}.

(** Two tasks of the same project and name, told apart by their
    descriptions, both saved. *)
Definition twin (description : string) : task :=
  {| project := "assay"; task_name := "prepare"; description := description;
     task_status := "Not Started"; subtasks := [] |}.

Definition twin_row (id : Z) (description : string) : row :=
  {| col_id := id; col_project := "assay"; col_task := "prepare";
     col_description := description; col_status := "Not Started";
     col_subtasks := "[]" |}.

Definition state_with_twins : state :=
  {| db := {| rows := [twin_row 1 "first"; twin_row 2 "second"];
              last_rowid := 2 |};
     tasks := [twin "first"; twin "second"] |}.

(** Two tasks of two projects. *)
Definition other_task : task :=
  {| project := "buffer"; task_name := "mix"; description := EmptyString;
     task_status := "Not Started"; subtasks := [] |}.

Definition state_with_two_projects : state :=
  {| db := {| rows := [ twin_row 1 "first";
                        {| col_id := 2; col_project := "buffer";
                           col_task := "mix"; col_description := EmptyString;
                           col_status := "Not Started"; col_subtasks := "[]" |} ];
              last_rowid := 2 |};
     tasks := [twin "first"; other_task] |}.

(** ** Further definitions used in statements *)

(** A line ["MMDD: text"] of a description, and the description made of
    such lines. *)
Definition coded_line (m : string * string) : string :=
  m.1 +:+ ": " +:+ m.2.

Definition coded_description (ms : list (string * string)) : string :=
  join (String LF EmptyString) (coded_line <$> ms).

(** A title as a coded line may carry it: it starts with a character
    other than a blank and has no newline. *)
Definition line_text (text : string) : bool :=
  starts_unblank text && negb (occurs LF text).

(** Every subtask of every task has a date code of four ASCII digits. *)
Definition date_codes_ok (tasks : list task) : Prop :=
  Forall (λ t : task, Forall (λ s, is_date_code (date_code s) = true) (subtasks t))
         tasks.

(** Every subtask of every task has a date code of four decimal digits,
    of any script. *)
Definition decimal_codes_ok (tasks : list task) : Prop :=
  Forall (λ t : task,
            Forall (λ s, decimal_date_code (date_code s) = true) (subtasks t))
         tasks.

(** The bytes [p] are a whole character, the one of code point [cp],
    whatever follows them. *)
Definition char_bytes (p : string) (cp : N) : Prop :=
  p ≠ EmptyString ∧ ∀ t, next_char (p +:+ t) = Some (cp, t).

(** The value of a decimal digit, and the number a sequence of decimal
    digits denotes. *)
Definition digit_number (cp : N) : Z :=
  match decimal_value cp with
  | Some v => Z.of_N v
  | None => 0
  end.

Definition decimal_number (cps : list N) : Z :=
  foldl (λ acc cp, 10 * acc + digit_number cp) 0 cps.

(** The date string [extract_subtasks] writes for a code, and the
    subtask it makes of a match. *)
Definition date_str_of (code : string) : string :=
  match format_date_code code with
  | Ok s => s
  | Raise _ => EmptyString
  end.

Definition subtask_of_match (m : string * string) : subtask :=
  {| date_code := m.1; date_str := date_str_of m.1; title := m.2;
     status := "Not Started" |}.

(** The rowids of a table differ from one another and none is above the
    largest rowid given so far. *)
Definition rowids_ok (db : database) : Prop :=
  NoDup (col_id <$> rows db) ∧ Forall (λ r, col_id r <= last_rowid db) (rows db).

(** A morning at the bench: a task saved, its first subtask completed from
    the Daily Tasks page, a second task saved under the same name, and the
    second task deleted. *)
Definition example_run : list event :=
  [ SaveTask "assay" "prepare" ("0610: thaw" +:+ String LF "0615: mix")
      "Not Started";
    CompleteToday june_15 0 0;
    SaveTask "assay" "prepare" "0701: repeat" "Not Started";
    DeleteTask "All Projects" "All Tasks" 1 ].

(** A row that holds what a task of the session list holds. *)
Definition row_mirrors (r : row) (t : task) : Prop :=
  col_project r = project t ∧ col_task r = task_name t
  ∧ col_description r = description t ∧ col_status r = task_status t
  ∧ col_subtasks r = json_dumps (subtasks t).

(** The session list mirrors the table, row by row. *)
Definition in_sync (st : state) : Prop :=
  Forall2 row_mirrors (rows (db st)) (tasks st).

Definition task_key (t : task) : string * string := (project t, task_name t).

(** No two tasks of the session list have the same project and name. *)
Definition unique_keys (tasks : list task) : Prop := NoDup (task_key <$> tasks).

(** Events that keep the mirror: a task is saved under a key that is not
    in use, and a delete button is pressed where the task has the same
    position in the filtered list as in the session list. *)
Definition careful (st : state) (e : event) : Prop :=
  match e with
  | SaveTask p t _ _ => (p, t) ∉ task_key <$> tasks st
  | DeleteTask p q idx =>
      ∀ ref t, filtered p q (tasks st) !! idx = Some (ref, t) -> ref = idx
  | _ => True
  end.

(** A session on the example state, with no task being edited. *)
Definition session_with_example : session :=
  {| app := state_with_example; edit_mode := ∅ |}.

(** The class under which the Daily Tasks page writes a subtask, if it
    writes it. *)
Definition entry_class (today_code : string) (s : subtask)
  : option classification :=
  if spec_due_or_overdue today_code s then spec_classify today_code s else None.

(** How many of the subtasks are written under the class [c]. *)
Definition class_count (today_code : string) (c : classification)
    (subs : list subtask) : Z :=
  Z.of_nat (length (filter (λ s, entry_class today_code s = Some c) subs)).

(** A project with its tasks, in the order of the session list. *)
Definition project_group (tasks : list task) (k : string)
  : string * list task :=
  (k, filter (λ t, project t = k) tasks).

(** The digit under which the code tests for a page, and the page a
    button is labelled with. *)
Definition page_digit (p : page) : ascii :=
  match p with
  | Dashboard => "1"
  | CreateTask => "2"
  | CurrentTasks => "3"
  | DailyTasks => "4"
  | ProjectOverview => "5"
  end.

Definition button_target (b : nav_button) : page :=
  match b with
  | Sidebar p => p
  | BackToDashboard => Dashboard
  | QuickCreate => CreateTask
  | QuickTasks => CurrentTasks
  | QuickDaily => DailyTasks
  | QuickProjects => ProjectOverview
  end.

(** A code point other than a surrogate, up to the last one. *)
Definition scalar (cp : N) : bool :=
  ((cp <? 55296) || ((57344 <=? cp) && (cp <? 1114112)))%N.

(** The strings that stand for a [str] without surrogates: the encoding
    of their code points, each of them a scalar value. *)
Definition is_text (s : string) : bool :=
  String.eqb (String.concat EmptyString (utf8_encode <$> utf8_decode s)) s
  && forallb scalar (utf8_decode s).

Definition text_subtask (s : subtask) : bool :=
  is_text (date_code s) && is_text (date_str s) && is_text (title s)
  && is_text (status s).

(** A title with an accented letter and a character above the basic
    plane, as the bytes of its encoding. *)
Definition accented_title : string :=
  "th" +:+ String (byte 195) (String (byte 169)
    (" " +:+ String (byte 240) (String (byte 159) (String (byte 152)
       (String (byte 128) (String dquote EmptyString)))))).

Definition accented_subtask : subtask :=
  {| date_code := "0610"; date_str := "June 10"; title := accented_title;
     status := "Not Started" |}.

(** A task as [load_tasks_from_db] gives it, and its line of the export. *)
Definition task_to_json (t : task) : task_of json :=
  {| project := project t; task_name := task_name t;
     description := description t; task_status := task_status t;
     subtasks := JList (subtask_to_json <$> subtasks t) |}.

Definition export_of (t : task) : export_row :=
  {| Project := project t; Task := task_name t; Description := description t;
     Status := task_status t;
     Subtasks := Some (spec_subtasks_cell (subtasks t)) |}.

Definition text_tasks (tasks : list task) : bool :=
  forallb (λ t, forallb text_subtask (subtasks t)) tasks.

(** A store with one task, its subtask the accented one, and the session
    that mirrors it. *)
Definition accented_task : task :=
  {| project := "assay"; task_name := "prepare"; description := EmptyString;
     task_status := "Not Started"; subtasks := [accented_subtask] |}.

Definition state_with_accent : state :=
  {| db := {| rows := [ {| col_id := 1; col_project := "assay";
                           col_task := "prepare";
                           col_description := EmptyString;
                           col_status := "Not Started";
                           col_subtasks := json_dumps [accented_subtask] |} ];
              last_rowid := 1 |};
     tasks := [accented_task] |}.

(** The description "٠٣٠٥: weigh", its date code in Arabic-Indic digits,
    as the bytes of its encoding; and the run that saves a task with it. *)
Definition arabic_0305 : string :=
  String (byte 217) (String (byte 160) (String (byte 217) (String (byte 163)
    (String (byte 217) (String (byte 160) (String (byte 217)
       (String (byte 165) EmptyString))))))).

Definition run_with_scripts : list event :=
  [ SaveTask "assay" "measure" (arabic_0305 +:+ ": weigh") "Not Started" ].

(** ** Characters, digits and [int] *)

Lemma in_range_spec lo hi c :
  in_range lo hi c = true ↔ (lo <= N_of_ascii c <= hi)%N.
Proof. unfold in_range. rewrite andb_true_iff, !N.leb_le. tauto. Qed.

Lemma in_range_false lo hi c :
  (N_of_ascii c < lo ∨ hi < N_of_ascii c)%N -> in_range lo hi c = false.
Proof.
  intros H. apply not_true_is_false. rewrite in_range_spec. lia.
Qed.

Lemma utf8_decode_cons a s1 :
  utf8_decode (String a s1)
  = let single := N_of_ascii a :: utf8_decode s1 in
    match s1 with
    | String b s2 =>
        if in_range 192 223 a && continuation b then
          N.lor (N.shiftl (N.land (N_of_ascii a) 31) 6) (low6 b)
            :: utf8_decode s2
        else
          match s2 with
          | String c s3 =>
              if in_range 224 239 a && continuation b && continuation c then
                N.lor (N.shiftl (N.land (N_of_ascii a) 15) 12)
                  (N.lor (N.shiftl (low6 b) 6) (low6 c))
                  :: utf8_decode s3
              else
                match s3 with
                | String d s4 =>
                    if in_range 240 247 a && continuation b
                       && continuation c && continuation d then
                      N.lor (N.shiftl (N.land (N_of_ascii a) 7) 18)
                        (N.lor (N.shiftl (low6 b) 12)
                           (N.lor (N.shiftl (low6 c) 6) (low6 d)))
                        :: utf8_decode s4
                    else single
                | EmptyString => single
                end
          | EmptyString => single
          end
    | EmptyString => single
    end.
Proof. reflexivity. Qed.

(** [utf8_decode], one character at a time. *)
Lemma utf8_decode_next s :
  utf8_decode s
  = match next_char s with
    | Some (cp, r) => cp :: utf8_decode r
    | None => []
    end.
Proof.
  destruct s as [|a s1]; [done|]. rewrite utf8_decode_cons. cbv zeta.
  unfold next_char.
  destruct (in_range 192 223 a) eqn:H2.
  { apply in_range_spec in H2.
    rewrite !(in_range_false 224 239 a), !(in_range_false 240 247 a) by lia.
    destruct s1 as [|b s2]; [done|]. simpl andb.
    destruct (continuation b); [done|]. by destruct s2 as [|c [|d s4]]. }
  destruct (in_range 224 239 a) eqn:H3.
  { apply in_range_spec in H3. rewrite !(in_range_false 240 247 a) by lia.
    destruct s1 as [|b [|c s3]]; try done. simpl andb.
    destruct (continuation b), (continuation c); simpl andb; try done.
    all: by destruct s3. }
  destruct (in_range 240 247 a) eqn:H4.
  { destruct s1 as [|b [|c [|d s4]]]; try done. simpl andb.
    by destruct (continuation b), (continuation c), (continuation d). }
  by destruct s1 as [|b [|c [|d s4]]].
Qed.

Lemma next_char_ascii a s :
  (N_of_ascii a < 128)%N -> next_char (String a s) = Some (N_of_ascii a, s).
Proof.
  intros H. unfold next_char. by rewrite !(in_range_false _ _ a) by lia.
Qed.

Lemma utf8_decode_ascii a s :
  (N_of_ascii a < 128)%N ->
  utf8_decode (String a s) = N_of_ascii a :: utf8_decode s.
Proof. intros H. by rewrite utf8_decode_next, next_char_ascii. Qed.

(** A character takes at least one byte. *)
Lemma next_char_length s cp r :
  next_char s = Some (cp, r) -> (String.length r < String.length s)%nat.
Proof.
  destruct s as [|a s1]; [done|]. unfold next_char.
  repeat case_match; intros; simplify_eq; simpl; lia.
Qed.

(** ** Digits, [int] and date codes *)


Lemma is_digit_In c : is_digit c = true -> In c digit_chars.
Proof.
  destruct c as [[] [] [] [] [] [] [] []]; intros H;
    solve [ discriminate H | vm_compute; tauto ].
Qed.

Lemma is_digit_range c :
  is_digit c = true -> (48 <= N_of_ascii c <= 57)%N.
Proof.
  unfold is_digit, in_range. rewrite andb_true_iff, !N.leb_le. tauto.
Qed.


Lemma digit_not_char c x :
  is_digit c = true -> is_digit x = false -> Ascii.eqb c x = false.
Proof.
  intros Hc Hx. apply Ascii.eqb_neq. intros ->. congruence.
Qed.

Lemma digit_not_space c : is_digit c = true -> is_ctype_space c = false.
Proof.
  intros H. apply orb_false_iff; split.
  - apply is_digit_range in H. unfold in_range.
    apply andb_false_iff; right; apply N.leb_gt; lia.
  - by apply digit_not_char.
Qed.

Lemma int_digits_all_digits s acc :
  all_chars is_digit s = true -> int_digits acc s = Ok (digits_value acc s).
Proof.
  revert acc. induction s as [|c s IH]; intros acc H; simpl in *; [done|].
  apply andb_true_iff in H as [Hc Hs]. rewrite Hc. by apply IH.
Qed.

(** A literal of ASCII digits is the literal [int] reads. *)
Lemma ascii_digits_fixed s :
  all_chars is_digit s = true ->
  decimal_and_space_to_ascii (utf8_decode s) = s.
Proof.
  induction s as [|c s IH]; [done|]. cbn [all_chars].
  intros [Hc Hs]%andb_true_iff. apply is_digit_range in Hc.
  rewrite utf8_decode_ascii by lia. cbn [decimal_and_space_to_ascii].
  rewrite (proj2 (N.ltb_lt _ _)) by lia. unfold byte.
  by rewrite ascii_N_embedding, IH.
Qed.

(** On a string of digits [int] returns the number it denotes. *)
Lemma py_int_decimal s : decimal s = true -> py_int s = Ok (number s).
Proof.
  unfold decimal. intros [Hne Hall]%andb_true_iff.
  unfold py_int. rewrite ascii_digits_fixed by done. revert Hall.
  destruct s as [|c s]; [done|]. simpl.
  intros [Hc Hs]%andb_true_iff. unfold long_from_string. simpl.
  rewrite (digit_not_space c Hc).
  rewrite (digit_not_char c "+" Hc eq_refl), (digit_not_char c "-" Hc eq_refl).
  simpl. rewrite Hc. unfold number. simpl. by apply int_digits_all_digits.
Qed.

Lemma date_code_decimal code : is_date_code code = true -> decimal code = true.
Proof.
  destruct code as [|a [|b [|c [|d [|]]]]]; try done. unfold decimal. simpl.
  rewrite !andb_true_iff. tauto.
Qed.


Lemma is_date_code_In code : is_date_code code = true -> code ∈ all_date_codes.
Proof.
  destruct code as [|a [|b [|c [|d [|]]]]]; try done. simpl.
  rewrite !andb_true_iff. intros [[[Ha Hb] Hc] Hd].
  apply is_digit_In, list_elem_of_In in Ha, Hb, Hc, Hd.
  unfold all_date_codes.
  apply list_elem_of_bind; exists a; split; [|done].
  apply list_elem_of_bind; exists b; split; [|done].
  apply list_elem_of_bind; exists c; split; [|done].
  apply list_elem_of_bind; exists d; split; [|done].
  apply list_elem_of_singleton. done.
Qed.

(** A property checked on every date code holds of each of them. *)
Lemma date_code_check (check : string -> bool) :
  forallb check all_date_codes = true ->
  forall code, is_date_code code = true -> check code = true.
Proof.
  intros Hall code Hcode. rewrite forallb_forall in Hall.
  apply Hall, list_elem_of_In, is_date_code_In, Hcode.
Qed.


Lemma format_agrees_all : forallb format_agrees all_date_codes = true.
Proof. vm_compute. reflexivity. Qed.

Lemma format_date_code_ok code :
  is_date_code code = true ->
  format_date_code code = Ok (spec_format_date_code code).
Proof.
  intros H. pose proof (date_code_check _ format_agrees_all code H) as Hc.
  unfold format_agrees in Hc. destruct (format_date_code code); [|done].
  apply String.eqb_eq in Hc. by subst.
Qed.

Lemma int_value_decimal s : decimal s = true -> py_int s = Ok (int_value s).
Proof. intros H. unfold int_value. by rewrite (py_int_decimal s H). Qed.

(** ** Date-code formatting *)

(** C5.  For a code of four digits, the date string is computed without
    an exception: the code is split into a month (its first two digits) and
    a day (its last two); when the month is one of the twelve and has such
    a day in the year 1900, the result is the month's name, a blank and the
    two digits of the day; otherwise it is "Invalid date (CODE)". *)
Theorem format_date_code_spec code :
  is_date_code code = true ->
  format_date_code code = Ok (spec_format_date_code code).
Proof.
  intros Hcode.
  assert (format_agrees code = true) as Hc.
  { pose proof format_agrees_all as Hall. rewrite forallb_forall in Hall.
    apply Hall, list_elem_of_In, is_date_code_In, Hcode. }
  unfold format_agrees in Hc.
  destruct (format_date_code code) as [s|e]; [|discriminate Hc].
  apply String.eqb_eq in Hc. by rewrite Hc.
Qed.

(** The examples of the specification: "0305", "0230" and "1301". *)
Lemma format_date_code_examples :
  format_date_code "0305" = Ok "March 05"
  ∧ format_date_code "0230" = Ok "Invalid date (0230)"
  ∧ format_date_code "1301" = Ok "Invalid date (1301)".
Proof.
  split; [|split].
  - exact (format_date_code_spec "0305" eq_refl).
  - exact (format_date_code_spec "0230" eq_refl).
  - exact (format_date_code_spec "1301" eq_refl).
Defined.

(** ** Today's code *)

Lemma wall_clock_In now : wall_clock now -> now ∈ all_days.
Proof.
  destruct now as [m d]. intros [Hm Hd]; simpl in *. unfold all_days.
  apply list_elem_of_bind; exists m; split; [|apply elem_of_seqZ; lia].
  apply list_elem_of_bind; exists d; split; [|apply elem_of_seqZ; lia].
  apply list_elem_of_singleton. done.
Qed.

Lemma today_agrees_all : forallb today_agrees all_days = true.
Proof. vm_compute. reflexivity. Qed.

Lemma today_code_decimal now : wall_clock now -> decimal (strftime_md now) = true.
Proof.
  intros H%wall_clock_In%list_elem_of_In.
  pose proof (proj1 (forallb_forall _ _) today_agrees_all now H) as Hc.
  unfold today_agrees in Hc. destruct (py_int (strftime_md now)); [|done].
  by apply andb_true_iff in Hc as [_ ?].
Qed.

(** The number of today's code is [100 * month + day]. *)
Lemma today_num_value now :
  wall_clock now -> py_int (strftime_md now) = Ok (100 * month now + day now).
Proof.
  intros H%wall_clock_In%list_elem_of_In.
  pose proof (proj1 (forallb_forall _ _) today_agrees_all now H) as Hc.
  unfold today_agrees in Hc. destruct (py_int (strftime_md now)); [|done].
  apply andb_true_iff in Hc as [Hc _]. apply Z.eqb_eq in Hc. by subst.
Qed.

(** ** The Daily Tasks page *)

Lemma for_each_ok {A B : Type} (f : A -> result B) (g : A -> B) (l : list A) :
  Forall (λ x, f x = Ok (g x)) l -> for_each f l = Ok (g <$> l).
Proof.
  induction 1 as [|x l Hx _ IH]; simpl; [done|]. by rewrite Hx, IH.
Qed.

Lemma omap_id_fmap {A B : Type} (g : A -> option B) (l : list A) :
  omap id (g <$> l) = omap g l.
Proof.
  induction l as [|x l IH]; simpl in *; [done|].
  destruct (g x); [f_equal|]; exact IH.
Qed.

Lemma daily_subtask_entry today_code task s :
  decimal (date_code s) = true ->
  daily_subtask (int_value today_code) task s = Ok (spec_entry today_code task s).
Proof.
  intros H. unfold daily_subtask. rewrite (int_value_decimal _ H). simpl.
  unfold spec_entry, spec_due_or_overdue, spec_classify.
  destruct (decide (status s = "Completed")) as [Hs|Hs].
  - rewrite !(bool_decide_eq_true_2 _ Hs), (bool_decide_eq_false_2 (_ ≠ _)) by tauto.
    simpl.
    destruct (Z.ltb_spec (int_value (date_code s)) (int_value today_code)),
      (Z.leb_spec (int_value (date_code s)) (int_value today_code)),
      (Z.eqb_spec (int_value (date_code s)) (int_value today_code));
      simpl; try done; lia.
  - rewrite !(bool_decide_eq_false_2 _ Hs), (bool_decide_eq_true_2 (_ ≠ _)) by tauto.
    simpl. rewrite orb_false_r.
    destruct (Z.ltb_spec (int_value (date_code s)) (int_value today_code)),
      (Z.leb_spec (int_value (date_code s)) (int_value today_code)),
      (Z.eqb_spec (int_value (date_code s)) (int_value today_code));
      simpl; try done; lia.
Qed.

Lemma daily_task_entries today_code (t : task) :
  Forall (λ s, decimal (date_code s) = true) (subtasks t) ->
  daily_task (int_value today_code) t
  = Ok (omap (spec_entry today_code t) (subtasks t)).
Proof.
  intros H. unfold daily_task.
  rewrite (for_each_ok _ (spec_entry today_code t)).
  - simpl. by rewrite omap_id_fmap.
  - eapply Forall_impl; [exact H|]. intros s Hs. by apply daily_subtask_entry.
Qed.

Lemma concat_fmap_bind {A B : Type} (f : A -> list B) (l : list A) :
  concat (f <$> l) = l ≫= f.
Proof. induction l as [|x l IH]; simpl; [done|]. f_equal. exact IH. Qed.

Lemma daily_tasks_numeric now tasks :
  wall_clock now -> numeric_codes tasks ->
  daily_tasks now tasks = Ok (spec_view (strftime_md now) tasks).
Proof.
  intros Hnow Htasks. unfold daily_tasks.
  rewrite (int_value_decimal _ (today_code_decimal now Hnow)). simpl.
  rewrite (for_each_ok _ (λ t, omap (spec_entry (strftime_md now) t) (subtasks t))).
  - simpl. by rewrite concat_fmap_bind.
  - eapply Forall_impl; [exact Htasks|]. intros t Ht. by apply daily_task_entries.
Qed.




(** ** The dashboard against the Daily Tasks page *)

Lemma count_as_app c (v1 v2 : list shown) :
  count_as c (v1 ++ v2) = count_as c v1 + count_as c v2.
Proof. unfold count_as. rewrite filter_app, length_app. lia. Qed.

Lemma count_as_cons c (x : shown) (v : list shown) :
  count_as c (x :: v)
  = (if decide (shown_as x = c) then 1 else 0) + count_as c v.
Proof.
  unfold count_as. rewrite filter_cons. destruct (decide (shown_as x = c)); simpl; lia.
Qed.

(** One subtask moves the counters as its entry of the view says. *)
Lemma count_subtask_daily today_num task s o d :
  count_subtask today_num (o, d) s
  = (x ← daily_subtask today_num task s;
     Ok (o + count_as Overdue (option_list x),
         d + count_as DueToday (option_list x))).
Proof.
  unfold count_subtask, daily_subtask.
  destruct (py_int (date_code s)) as [n|e]; simpl; [|done].
  destruct (decide (status s = "Completed")) as [Hs|Hs].
  - rewrite (bool_decide_eq_true_2 _ Hs), (bool_decide_eq_false_2 (_ ≠ _)) by tauto.
    simpl.
    destruct (Z.ltb_spec n today_num), (Z.leb_spec n today_num);
      simpl; try lia; unfold count_as; simpl;
      repeat f_equal; lia.
  - rewrite (bool_decide_eq_false_2 _ Hs), (bool_decide_eq_true_2 (_ ≠ _)) by tauto.
    simpl.
    destruct (Z.ltb_spec n today_num), (Z.leb_spec n today_num),
      (Z.eqb_spec n today_num);
      simpl; try lia; unfold count_as; simpl;
      repeat f_equal; lia.
Qed.

Lemma count_task_daily today_num (task : task) subs o d :
  fold_result (count_subtask today_num) subs (o, d)
  = (l ← for_each (daily_subtask today_num task) subs;
     Ok (o + count_as Overdue (omap id l), d + count_as DueToday (omap id l))).
Proof.
  revert o d. induction subs as [|s subs IH]; intros o d;
    cbn [fold_result for_each].
  - unfold count_as; simpl. repeat f_equal; lia.
  - rewrite (count_subtask_daily today_num task).
    destruct (daily_subtask today_num task s) as [x|e]; simpl; [|done].
    rewrite IH.
    destruct (for_each (daily_subtask today_num task) subs) as [l|e]; simpl; [|done].
    destruct x as [y|]; simpl;
      change (list_omap (option shown) shown id l) with (omap id l);
      rewrite ?count_as_cons; unfold count_as at 1 3; simpl;
      destruct (omap id l); repeat case_decide; f_equal; f_equal; lia.
Qed.

Lemma count_tasks_daily today_num tasks o d :
  fold_result (count_task today_num) tasks (o, d)
  = (l ← for_each (daily_task today_num) tasks;
     Ok (o + count_as Overdue (concat l), d + count_as DueToday (concat l))).
Proof.
  revert o d. induction tasks as [|t tasks IH]; intros o d;
    cbn [fold_result for_each].
  - unfold count_as; simpl. repeat f_equal; lia.
  - change (count_task today_num (o, d) t)
      with (fold_result (count_subtask today_num) (subtasks t) (o, d)).
    change (daily_task today_num t)
      with (l ← for_each (daily_subtask today_num t) (subtasks t);
            Ok (omap (M := list) id l)).
    rewrite (count_task_daily today_num t).
    destruct (for_each (daily_subtask today_num t) (subtasks t)) as [l|e];
      simpl; [|done].
    rewrite IH.
    destruct (for_each (daily_task today_num) tasks) as [ls|e]; simpl; [|done].
    rewrite !count_as_app. f_equal. f_equal; lia.
Qed.

(** The dashboard is the view of the Daily Tasks page, counted; when the
    page raises, the dashboard raises the same exception. *)
Lemma dashboard_daily now tasks :
  dashboard now tasks
  = (view ← daily_tasks now tasks; Ok (metrics_of_view tasks view)).
Proof.
  unfold dashboard, daily_tasks.
  destruct (py_int (strftime_md now)) as [today_num|e]; simpl; [|done].
  rewrite count_tasks_daily.
  destruct (for_each (daily_task today_num) tasks) as [l|e]; simpl; [|done].
  done.
Qed.

(** C3.  For every date and every task list the dashboard is the view of
    the Daily Tasks page, counted: its overdue figure is the number of
    pairs the page writes as Overdue and its figure for today the number of
    pairs the page writes as DueToday, both over subtasks that are not
    completed; and on a clock date and a list whose date codes are strings
    of digits both return. *)
Theorem dashboard_counts_daily now tasks :
  dashboard now tasks
  = (view ← daily_tasks now tasks; Ok (metrics_of_view tasks view))
  ∧ (wall_clock now -> numeric_codes tasks ->
     ∃ view m,
       daily_tasks now tasks = Ok view ∧ dashboard now tasks = Ok m
       ∧ overdue_count m = count_as Overdue view
       ∧ today_count m = count_as DueToday view
       ∧ Forall (λ x, shown_as x ≠ Completed
                      -> status (shown_subtask x) ≠ "Completed") view).
Proof.
  split; [apply dashboard_daily|].
  intros Hnow Htasks. rewrite dashboard_daily.
  rewrite (daily_tasks_numeric now tasks Hnow Htasks). simpl.
  eexists _, _. repeat split.
  unfold spec_view. apply Forall_forall. intros x Hx.
  apply list_elem_of_bind in Hx as (t & Hx & _).
  apply list_elem_of_omap in Hx as (s & _ & Hx).
  unfold spec_entry, spec_classify in Hx.
  destruct (spec_due_or_overdue _ s); [|done].
  destruct (decide (status s = "Completed")) as [Hs|Hs].
  - rewrite (bool_decide_eq_true_2 _ Hs) in Hx. simplify_eq/=. done.
  - rewrite (bool_decide_eq_false_2 _ Hs) in Hx.
    repeat case_match; simplify_eq/=; done.
Qed.

(** On the example of the specification: one subtask overdue, one due
    today. *)
Lemma dashboard_example :
  ∃ view m,
    daily_tasks june_15 [example_task] = Ok view
    ∧ dashboard june_15 [example_task] = Ok m
    ∧ overdue_count m = count_as Overdue view
    ∧ today_count m = count_as DueToday view
    ∧ Forall (λ x, shown_as x ≠ Completed
                   -> status (shown_subtask x) ≠ "Completed") view.
Proof.
  refine (proj2 (dashboard_counts_daily june_15 [example_task]) _ _).
  - unfold wall_clock, june_15; simpl; lia.
  - repeat constructor.
Defined.

(** ** The comparison of date codes *)

Lemma for_each_elem {A B : Type} (f : A -> result B) (l : list A) ys y :
  for_each f l = Ok ys -> y ∈ ys -> ∃ x, x ∈ l ∧ f x = Ok y.
Proof.
  revert ys. induction l as [|x l IH]; intros ys Hl Hy; simpl in Hl.
  - simplify_eq. by apply elem_of_nil in Hy.
  - destruct (f x) as [y0|] eqn:Hx; simpl in Hl; [|done].
    destruct (for_each f l) as [ys0|] eqn:Hl0; simpl in Hl; [|done].
    simplify_eq. apply elem_of_cons in Hy as [->|Hy].
    + exists x. split; [left|done].
    + destruct (IH ys0 eq_refl Hy) as (x' & ? & ?). exists x'. split; [by right|done].
Qed.

(** Every entry of the view comes from a subtask of a task of the list,
    through the body of the loop. *)
Lemma daily_tasks_elem now tasks view x :
  daily_tasks now tasks = Ok view -> x ∈ view ->
  ∃ today_num (t : task) s,
    py_int (strftime_md now) = Ok today_num ∧ t ∈ tasks ∧ s ∈ subtasks t
    ∧ daily_subtask today_num t s = Ok (Some x).
Proof.
  unfold daily_tasks. intros H Hx.
  destruct (py_int (strftime_md now)) as [n|] eqn:Hn; simpl in H; [|done].
  destruct (for_each (daily_task n) tasks) as [ls|] eqn:Hls; simpl in H; [|done].
  simplify_eq. apply list_elem_of_In, in_concat in Hx as (v & Hv & Hx).
  apply list_elem_of_In in Hv, Hx.
  destruct (for_each_elem _ _ _ _ Hls Hv) as (t & Ht & Hdt).
  unfold daily_task in Hdt.
  destruct (for_each (daily_subtask n t) (subtasks t)) as [l|] eqn:Hl;
    simpl in Hdt; [|done].
  simplify_eq. apply list_elem_of_omap in Hx as (o & Ho & Hx). simpl in Hx. subst o.
  destruct (for_each_elem _ _ _ _ Hl Ho) as (s & Hs & Hds).
  by exists n, t, s.
Qed.

Lemma daily_subtask_shows today_num task s x :
  daily_subtask today_num task s = Ok (Some x) ->
  ∃ n, py_int (date_code s) = Ok n ∧ n <= today_num
       ∧ shown_task x = task ∧ shown_subtask x = s.
Proof.
  unfold daily_subtask. destruct (py_int (date_code s)) as [n|]; simpl; [|done].
  intros H. exists n. repeat case_match; simplify_eq/=; repeat split; lia.
Qed.

(** C4.  Date codes are compared as plain integers: for a subtask that is
    not completed, whose code [A] has the number [a], and a code of the
    day [B] with the number [b], the Daily Tasks page writes the subtask as
    overdue exactly when [a < b], and the dashboard counts it as overdue
    exactly when [a < b].  "1231" is 1231 and "0101" is 101, so on the
    first of January no subtask of "1231" is on the page, and the dashboard
    counts none. *)
Theorem date_codes_compare_as_integers :
  (∀ (today_code : string) (task : task) (sub : subtask) (a b : Z),
     py_int (date_code sub) = Ok a -> py_int today_code = Ok b ->
     status sub ≠ "Completed" ->
     (daily_subtask b task sub
      = Ok (Some {| shown_task := task; shown_subtask := sub;
                    shown_as := Overdue |}) ↔ a < b)
     ∧ (∀ o d, count_subtask b (o, d) sub = Ok (o + 1, d) ↔ a < b))
  ∧ (py_int "1231" = Ok 1231 ∧ py_int "0101" = Ok 101
     ∧ strftime_md january_1 = "0101")
  ∧ (∀ tasks view, daily_tasks january_1 tasks = Ok view ->
       ∀ x, x ∈ view -> date_code (shown_subtask x) ≠ "1231")
  ∧ (∀ sub o d, date_code sub = "1231" ->
       count_subtask 101 (o, d) sub = Ok (o, d)).
Proof.
  split; [|split; [|split]].
  - intros today_code task sub a b Ha _ Hs.
    unfold daily_subtask, count_subtask. rewrite Ha. simpl.
    rewrite (bool_decide_eq_false_2 _ Hs), (bool_decide_eq_true_2 (_ ≠ _)) by done.
    simpl. split; [|intros o d].
    + destruct (Z.ltb_spec a b), (Z.leb_spec a b); split; intros; try done; lia.
    + destruct (Z.ltb_spec a b), (Z.eqb_spec a b); split; intros;
        simplify_eq; try done; lia.
  - done.
  - intros tasks view Hview x Hx Hcode.
    destruct (daily_tasks_elem _ _ _ _ Hview Hx) as (n & t & s & Hn & _ & _ & Hds).
    change (py_int (strftime_md january_1)) with (Ok (A := Z) 101) in Hn.
    simplify_eq.
    destruct (daily_subtask_shows _ _ _ _ Hds) as (m & Hm & Hle & _ & <-).
    rewrite Hcode in Hm. change (py_int "1231") with (Ok (A := Z) 1231) in Hm.
    simplify_eq. lia.
  - intros sub o d Hcode. unfold count_subtask. rewrite Hcode.
    change (py_int "1231") with (Ok (A := Z) 1231). simpl.
    by destruct (bool_decide _).
Qed.

(** With "0615" as the code of the day, the open subtask of "0610" is
    overdue on the page and for the dashboard. *)
Lemma date_codes_compare_example :
  daily_subtask 615 example_task (example_subtask "0610" "Not Started")
  = Ok (Some {| shown_task := example_task;
                shown_subtask := example_subtask "0610" "Not Started";
                shown_as := Overdue |})
  ∧ count_subtask 615 (0, 0) (example_subtask "0610" "Not Started") = Ok (1, 0).
Proof.
  pose proof (proj1 date_codes_compare_as_integers "0615" example_task
                (example_subtask "0610" "Not Started") 610 615
                eq_refl eq_refl ltac:(discriminate)) as [Hpage Hcount].
  split.
  - apply Hpage. lia.
  - apply (Hcount 0 0). lia.
Defined.

(** ** Texts and their characters *)

Lemma append_assoc (a b c : string) : (a +:+ b) +:+ c = a +:+ (b +:+ c).
Proof.
  induction a as [|x a IH]; [done|].
  change (String x ((a +:+ b) +:+ c) = String x (a +:+ b +:+ c)). by rewrite IH.
Qed.

Lemma append_nil_r (a : string) : a +:+ EmptyString = a.
Proof.
  induction a as [|x a IH]; [done|].
  change (String x (a +:+ EmptyString) = String x a). by rewrite IH.
Qed.

Lemma app_cons c (a b : string) : String c a +:+ b = String c (a +:+ b).
Proof. reflexivity. Qed.

Lemma app_empty (b : string) : EmptyString +:+ b = b.
Proof. reflexivity. Qed.

Lemma append_length (a b : string) :
  String.length (a +:+ b) = (String.length a + String.length b)%nat.
Proof.
  induction a as [|x a IH]; [done|].
  change (S (String.length (a +:+ b)) = S (String.length a + String.length b)).
  by rewrite IH.
Qed.

(** Of two ends of a text, the shorter one ends the longer one. *)
Lemma suffix_app (p q r s : string) :
  p +:+ r = q +:+ s -> (String.length s <= String.length r)%nat ->
  ∃ x, r = x +:+ s ∧ q = p +:+ x.
Proof.
  revert q. induction p as [|a p IH]; intros q H Hlen.
  - exists q. by split.
  - destruct q as [|b q].
    + apply (f_equal String.length) in H. rewrite !append_length in H.
      simpl in H. lia.
    + change (String a (p +:+ r) = String b (q +:+ s)) in H.
      injection H as -> H. destruct (IH q H Hlen) as (x & -> & ->).
      by exists x.
Qed.

Lemma str_take_app (p r : string) :
  str_take (String.length (p +:+ r) - String.length r) (p +:+ r) = p.
Proof.
  rewrite append_length.
  replace (String.length p + String.length r - String.length r)%nat
    with (String.length p) by lia.
  induction p as [|a p IH]; [by destruct r|].
  change (String a (str_take (String.length p) (p +:+ r)) = String a p).
  by rewrite IH.
Qed.

Lemma occurs_app c (a b : string) :
  occurs c (a +:+ b) = occurs c a || occurs c b.
Proof.
  induction a as [|x a IH]; [done|].
  change (Ascii.eqb x c || occurs c (a +:+ b)
          = Ascii.eqb x c || occurs c a || occurs c b).
  by rewrite IH, orb_assoc.
Qed.

(** The head of a text without [c], up to the first [c], is the same
    however the text is cut there. *)
Lemma first_occurrence c (a b x y : string) :
  occurs c a = false -> occurs c b = false ->
  a +:+ String c x = b +:+ String c y -> a = b ∧ x = y.
Proof.
  revert b. induction a as [|u a IH]; intros b Ha Hb H.
  - destruct b as [|v b]; [by injection H|].
    change (String c x = String v (b +:+ String c y)) in H.
    injection H as <- _. simpl in Hb. by rewrite Ascii.eqb_refl in Hb.
  - destruct b as [|v b].
    + change (String u (a +:+ String c x) = String c y) in H.
      injection H as -> _. simpl in Ha. by rewrite Ascii.eqb_refl in Ha.
    + change (String u (a +:+ String c x) = String v (b +:+ String c y)) in H.
      injection H as -> H. simpl in Ha, Hb.
      apply orb_false_iff in Ha as [_ Ha], Hb as [_ Hb].
      by destruct (IH b Ha Hb H) as [-> ->].
Qed.

(** The bytes of the first character: an ASCII byte among them is the
    character; and they are a whole character whatever follows them, unless
    the character is a byte outside ASCII that stands for itself. *)
Lemma next_char_inv s cp r :
  next_char s = Some (cp, r) ->
  ∃ p, s = p +:+ r ∧ p ≠ EmptyString
       ∧ (∀ c, (N_of_ascii c < 128)%N -> occurs c p = true ->
               cp = N_of_ascii c ∧ p = String c EmptyString)
       ∧ ((cp < 128 ∨ 256 <= cp)%N -> ∀ t, next_char (p +:+ t) = Some (cp, t)).
Proof.
  destruct s as [|a s1]; [done|]. unfold next_char.
  pose proof (N_ascii_bounded a) as Ha.
  assert (∀ x : ascii, continuation x = true -> (128 <= N_of_ascii x)%N) as Hcont.
  { intros x Hx%in_range_spec. lia. }
  assert (∀ (c x : ascii), (N_of_ascii c < 128)%N -> (128 <= N_of_ascii x)%N ->
            Ascii.eqb x c = false) as Hne.
  { intros c x Hc Hx. apply Ascii.eqb_neq. intros ->. lia. }
  assert (Some (N_of_ascii a, s1) = Some (cp, r) ->
          ∃ p, String a s1 = p +:+ r ∧ p ≠ EmptyString
               ∧ (∀ c, (N_of_ascii c < 128)%N -> occurs c p = true ->
                       cp = N_of_ascii c ∧ p = String c EmptyString)
               ∧ ((cp < 128 ∨ 256 <= cp)%N ->
                  ∀ t, next_char (p +:+ t) = Some (cp, t))) as Hsingle.
  { intros [= <- <-]. exists (String a EmptyString).
    split; [done|]. split; [done|]. split.
    - intros c Hc. simpl. rewrite orb_false_r. by intros ->%Ascii.eqb_eq.
    - intros Hcp t. rewrite app_cons, app_empty. apply next_char_ascii. lia. }
  destruct (in_range 192 223 a) eqn:H2.
  { pose proof (proj1 (in_range_spec _ _ _) H2) as H2'.
    destruct s1 as [|b s2]; [done|].
    destruct (continuation b) eqn:Hb; [|done].
    intros [= <- <-]. exists (String a (String b EmptyString)).
    split; [done|]. split; [done|]. split.
    - intros c Hc. simpl. rewrite !Hne by (auto; lia). done.
    - intros _ t. rewrite !app_cons, app_empty. unfold next_char.
      by rewrite H2, Hb. }
  destruct (in_range 224 239 a) eqn:H3.
  { pose proof (proj1 (in_range_spec _ _ _) H3) as H3'.
    destruct s1 as [|b [|c s3]]; try done.
    destruct (continuation b) eqn:Hb, (continuation c) eqn:Hc; simpl andb;
      try done.
    intros [= <- <-]. exists (String a (String b (String c EmptyString))).
    split; [done|]. split; [done|]. split.
    - intros x Hx. simpl. rewrite !Hne by (auto; lia). done.
    - intros _ t. rewrite !app_cons, app_empty. unfold next_char.
      by rewrite H2, H3, Hb, Hc. }
  destruct (in_range 240 247 a) eqn:H4; [|done].
  pose proof (proj1 (in_range_spec _ _ _) H4) as H4'.
  destruct s1 as [|b [|c [|d s4]]]; try done.
  destruct (continuation b) eqn:Hb, (continuation c) eqn:Hc,
    (continuation d) eqn:Hd; simpl andb; try done.
  intros [= <- <-].
  exists (String a (String b (String c (String d EmptyString)))).
  split; [done|]. split; [done|]. split.
  - intros x Hx. simpl. rewrite !Hne by (auto; lia). done.
  - intros _ t. rewrite !app_cons, app_empty. unfold next_char.
    by rewrite H2, H3, H4, Hb, Hc, Hd.
Qed.

Lemma next_char_complete s cp r :
  next_char s = Some (cp, r) -> (cp < 128 ∨ 256 <= cp)%N ->
  ∃ p, s = p +:+ r ∧ char_bytes p cp
       ∧ ∀ c, (N_of_ascii c < 128)%N -> occurs c p = true -> cp = N_of_ascii c.
Proof.
  intros (p & -> & Hp & Hc & Ht)%next_char_inv Hcp. exists p.
  split; [done|]. split; [split; [done|by apply Ht]|].
  intros c H1 H2. by destruct (Hc c H1 H2).
Qed.

(** What [next_char] leaves is an end of the text. *)
Lemma next_char_suffix s cp r :
  next_char s = Some (cp, r) -> ∃ p, s = p +:+ r ∧ p ≠ EmptyString.
Proof. intros (p & -> & Hp & _)%next_char_inv. by exists p. Qed.

(** Before an ASCII character, the characters of a text are those it has
    on its own. *)
Lemma next_char_app_ascii x c y :
  x ≠ EmptyString -> (N_of_ascii c < 128)%N ->
  next_char (x +:+ String c y)
  = (λ '(cp, x'), (cp, x' +:+ String c y)) <$> next_char x.
Proof.
  intros Hx Hc.
  assert (continuation c = false) as Hcc by (apply in_range_false; lia).
  destruct x as [|a x1]; [done|]. rewrite app_cons. unfold next_char.
  destruct (in_range 192 223 a).
  { destruct x1 as [|b x2]; [rewrite app_empty, Hcc; done|].
    rewrite app_cons. by destruct (continuation b). }
  destruct (in_range 224 239 a).
  { destruct x1 as [|b [|c' x3]]; rewrite ?app_cons, ?app_empty.
    - destruct y; [done|]. by rewrite Hcc.
    - by rewrite Hcc, andb_false_r.
    - by destruct (continuation b && continuation c'). }
  destruct (in_range 240 247 a); [|done].
  destruct x1 as [|b [|c' [|d x4]]]; rewrite ?app_cons, ?app_empty.
  - destruct y as [|? []]; try done; by rewrite Hcc.
  - destruct y; [done|]. by rewrite Hcc, andb_false_r.
  - by rewrite Hcc, andb_false_r.
  - by destruct (continuation b && continuation c' && continuation d).
Qed.

(** ** The decimal digits of the scripts *)

Lemma decimal_value_inv cp v :
  decimal_value cp = Some v ->
  ∃ z, In z decimal_zeros ∧ (z <= cp < z + 10)%N ∧ v = (cp - z)%N.
Proof.
  unfold decimal_value.
  destruct (List.find _ decimal_zeros) as [z|] eqn:Hz; [|done].
  intros [= <-]. apply List.find_some in Hz as [Hin Hz].
  apply andb_true_iff in Hz as [H1%N.leb_le H2%N.ltb_lt]. by exists z.
Qed.

(** After the ASCII digits, the next decimal digits are the
    Arabic-Indic ones. *)
Lemma decimal_zeros_apart z : In z decimal_zeros -> (z = 48 ∨ 1632 <= z)%N.
Proof.
  assert (forallb (λ z, (z =? 48) || (1632 <=? z))%N decimal_zeros = true) as H
    by reflexivity.
  rewrite forallb_forall in H. intros Hz.
  apply H, orb_true_iff in Hz as [?%N.eqb_eq|?%N.leb_le]; auto.
Qed.

(** No decimal digit is a blank. *)
Lemma decimal_zeros_not_blank z i :
  In z decimal_zeros -> (i < 10)%N -> uni_space (z + i) = false.
Proof.
  assert (forallb (λ z, forallb (λ i, negb (uni_space (z + N.of_nat i)))
                          (seq 0 10)) decimal_zeros = true) as H
    by (vm_compute; reflexivity).
  rewrite forallb_forall in H. intros Hz Hi. specialize (H z Hz).
  rewrite forallb_forall in H. specialize (H (N.to_nat i)).
  rewrite N2Nat.id in H. apply negb_true_iff, H, in_seq. lia.
Qed.

Lemma uni_digit_value cp :
  uni_digit cp = true -> ∃ v, decimal_value cp = Some v.
Proof. unfold uni_digit. destruct (decimal_value cp); [by eexists|done]. Qed.

Lemma uni_digit_range cp :
  uni_digit cp = true -> (48 <= cp <= 57 ∨ 1632 <= cp)%N.
Proof.
  intros [v (z & Hz & Hcp & _)%decimal_value_inv]%uni_digit_value.
  apply decimal_zeros_apart in Hz. lia.
Qed.

Lemma is_digit_byte v : (v < 10)%N -> is_digit (byte (48 + v)) = true.
Proof.
  intros Hv. apply in_range_spec. unfold byte.
  rewrite N_ascii_embedding by lia. lia.
Qed.

Lemma digit_value_byte v :
  (v < 10)%N -> digit_value (byte (48 + v)) = Z.of_N v.
Proof.
  intros Hv. unfold digit_value, byte. rewrite N_ascii_embedding by lia. lia.
Qed.

(** [int] brings a decimal digit to the ASCII digit of its value. *)
Lemma to_ascii_digit cp v l :
  decimal_value cp = Some v ->
  (v < 10)%N
  ∧ decimal_and_space_to_ascii (cp :: l)
    = String (byte (48 + v)) (decimal_and_space_to_ascii l).
Proof.
  intros Hv. pose proof Hv as (z & Hz & Hcp & ->)%decimal_value_inv.
  split; [lia|]. cbn [decimal_and_space_to_ascii].
  destruct (N.ltb_spec cp 127) as [Hlow|Hhigh].
  - apply decimal_zeros_apart in Hz as [->|?]; [|lia].
    by replace (48 + (cp - 48))%N with cp by lia.
  - replace cp with (z + (cp - z))%N at 1 by lia.
    rewrite decimal_zeros_not_blank by (done || lia).
    replace (z + (cp - z))%N with cp by lia. by rewrite Hv.
Qed.

Lemma to_ascii_digits cps :
  Forall (λ cp, uni_digit cp = true) cps ->
  all_chars is_digit (decimal_and_space_to_ascii cps) = true
  ∧ ∀ acc, digits_value acc (decimal_and_space_to_ascii cps)
           = foldl (λ acc cp, 10 * acc + digit_number cp) acc cps.
Proof.
  induction 1 as [|cp cps [v Hv]%uni_digit_value _ [IH1 IH2]]; [done|].
  destruct (to_ascii_digit cp v cps Hv) as [Hlt ->]. split.
  - cbn [all_chars]. by rewrite is_digit_byte, IH1.
  - intros acc. cbn [digits_value foldl]. rewrite IH2. f_equal.
    unfold digit_number. by rewrite Hv, digit_value_byte.
Qed.

(** On an ASCII literal of digits, the number it denotes. *)
Lemma long_from_string_decimal s :
  decimal s = true -> long_from_string s = Ok (number s).
Proof.
  unfold decimal. destruct s as [|c s]; [done|]. simpl.
  intros [Hc Hs]%andb_true_iff. unfold long_from_string. simpl.
  rewrite (digit_not_space c Hc).
  rewrite (digit_not_char c "+" Hc eq_refl), (digit_not_char c "-" Hc eq_refl).
  simpl. rewrite Hc. unfold number. simpl. by apply int_digits_all_digits.
Qed.

(** [int] of a text of decimal digits, of any scripts, is the number they
    denote. *)
Lemma py_int_decimals s :
  utf8_decode s ≠ [] ->
  Forall (λ cp, uni_digit cp = true) (utf8_decode s) ->
  py_int s = Ok (decimal_number (utf8_decode s)).
Proof.
  intros Hne Hall. unfold py_int, decimal_number.
  destruct (to_ascii_digits _ Hall) as [H1 H2].
  rewrite long_from_string_decimal.
  - unfold number. by rewrite H2.
  - unfold decimal. rewrite H1, andb_true_r.
    destruct (utf8_decode s) as [|cp cps]; [done|].
    apply Forall_cons in Hall as [[v Hv]%uni_digit_value _].
    by destruct (to_ascii_digit cp v cps Hv) as [_ ->].
Qed.

Lemma digit_number_range cp : 0 <= digit_number cp <= 9.
Proof.
  unfold digit_number. destruct (decimal_value cp) as [v|] eqn:Hv; [|lia].
  apply decimal_value_inv in Hv as (z & _ & ? & ->). lia.
Qed.

(** The number of a date code of four decimal digits. *)
Lemma py_int_date_code code :
  decimal_date_code code = true ->
  ∃ n, py_int code = Ok n ∧ 0 <= n <= 9999.
Proof.
  unfold decimal_date_code. intros H. eexists. split.
  - apply py_int_decimals.
    + by destruct (utf8_decode code).
    + destruct (utf8_decode code) as [|a [|b [|c [|d [|]]]]]; try done.
      repeat (apply andb_true_iff in H as [H ?]). by repeat constructor.
  - destruct (utf8_decode code) as [|a [|b [|c [|d [|]]]]]; try done.
    unfold decimal_number. simpl.
    pose proof (digit_number_range a). pose proof (digit_number_range b).
    pose proof (digit_number_range c). pose proof (digit_number_range d). lia.
Qed.

(** ** The scan of the pattern *)

Lemma dot_star_inv s t r :
  dot_star s = (t, r) ->
  s = t +:+ r ∧ occurs LF t = false ∧ ends_line r = true.
Proof.
  revert t r. induction s as [|c s IH]; intros t r; simpl.
  - by intros [= <- <-].
  - destruct (Ascii.eqb c LF) eqn:Hc.
    + intros [= <- <-]. simpl. by rewrite Hc.
    + destruct (dot_star s) as [t0 r0]. intros [= <- <-].
      destruct (IH t0 r0 eq_refl) as (-> & Ht & Hr). simpl. by rewrite Hc, Ht.
Qed.

Lemma dot_star_length s t r :
  dot_star s = (t, r) -> (String.length t + String.length r = String.length s)%nat.
Proof. intros (-> & _)%dot_star_inv. by rewrite append_length. Qed.

Lemma dot_star_line text post :
  occurs LF text = false -> ends_line post = true ->
  dot_star (text +:+ post) = (text, post).
Proof.
  intros Ht Hp. induction text as [|c text IH]; simpl in *.
  - destruct post as [|c post]; [done|]. simpl in *. by rewrite Hp.
  - apply orb_false_iff in Ht as [Hc Ht]. rewrite Hc, (IH Ht). done.
Qed.

Lemma dot_plus_inv s t r :
  dot_plus s = Some (t, r) ->
  s = t +:+ r ∧ t ≠ EmptyString ∧ occurs LF t = false ∧ ends_line r = true.
Proof.
  unfold dot_plus. destruct (dot_star s) as [t0 r0] eqn:H.
  apply dot_star_inv in H as (-> & Ht & Hr). by destruct t0; intros [= <- <-].
Qed.

Lemma dot_plus_length s t r :
  dot_plus s = Some (t, r) -> (String.length r < String.length s)%nat.
Proof.
  intros (-> & Ht & _)%dot_plus_inv. rewrite append_length.
  destruct t; [done|]. simpl. lia.
Qed.

Lemma dot_plus_None s : dot_plus s = None -> ends_line s = true.
Proof.
  unfold dot_plus. destruct s as [|c s]; [done|]. simpl.
  destruct (Ascii.eqb c LF); [done|]. by destruct (dot_star s).
Qed.

Lemma dot_plus_line text post :
  text ≠ EmptyString -> occurs LF text = false -> ends_line post = true ->
  dot_plus (text +:+ post) = Some (text, post).
Proof.
  intros Hne Ht Hp. unfold dot_plus. rewrite dot_star_line by done.
  by destruct text.
Qed.

Lemma blanks_then_text_None fuel s :
  blanks_then_text fuel s = None -> dot_plus s = None.
Proof.
  destruct fuel as [|fuel]; [done|]. cbn [blanks_then_text].
  destruct (next_char s) as [[cp s']|]; [|done].
  destruct (uni_space cp); [|done]. by destruct (blanks_then_text fuel s').
Qed.

Lemma next_char_None s : next_char s = None -> s = EmptyString.
Proof.
  destruct s as [|a s1]; [done|]. unfold next_char. repeat case_match; done.
Qed.

(** The first character of a line is that of the text it is in. *)
Lemma next_char_line t r cp x :
  t ≠ EmptyString -> ends_line r = true ->
  next_char (t +:+ r) = Some (cp, x) ->
  ∃ t', next_char t = Some (cp, t') ∧ x = t' +:+ r.
Proof.
  intros Ht Hr. destruct r as [|c r].
  - rewrite append_nil_r. intros H. exists x. by rewrite append_nil_r.
  - simpl in Hr. apply Ascii.eqb_eq in Hr as ->.
    rewrite next_char_app_ascii by (done || (vm_compute; reflexivity)).
    destruct (next_char t) as [[cp' t']|]; [|done].
    intros [= <- <-]. by exists t'.
Qed.

(** The text of a match: not empty, on one line, and either starting
    with a character other than a blank or made of one blank. *)
Lemma blanks_then_text_inv fuel s t r :
  (String.length s <= fuel)%nat ->
  blanks_then_text fuel s = Some (t, r) ->
  ∃ q, s = q +:+ t +:+ r ∧ t ≠ EmptyString ∧ occurs LF t = false
       ∧ ends_line r = true
       ∧ (starts_unblank t = true ∨ one_blank t = true).
Proof.
  revert s. induction fuel as [|fuel IH]; intros s Hfuel.
  - destruct s; [done|simpl in Hfuel; lia].
  - cbn [blanks_then_text].
    destruct (next_char s) as [[cp s']|] eqn:Hnext;
      [|by apply next_char_None in Hnext as ->].
    pose proof (next_char_length _ _ _ Hnext) as Hlen.
    destruct (uni_space cp) eqn:Hcp.
    + destruct (blanks_then_text fuel s') as [[t0 r0]|] eqn:Hrec.
      * intros [= <- <-].
        destruct (IH s' ltac:(lia) Hrec) as (q & -> & Hrest).
        apply next_char_suffix in Hnext as (p & -> & _).
        exists (p +:+ q). by rewrite append_assoc.
      * intros H. pose proof H as (Hs & Hne & Hnl & Hr)%dot_plus_inv.
        exists EmptyString. split; [done|]. do 3 (split; [done|]). right.
        apply blanks_then_text_None, dot_plus_None in Hrec.
        pose proof Hnext as (p & -> & Hp & Hascii & _)%next_char_inv.
        assert (occurs LF p = false) as Hpnl.
        { apply not_true_is_false. intros Hocc.
          destruct (Hascii LF ltac:(vm_compute; reflexivity) Hocc) as [_ ->].
          by rewrite app_cons in H. }
        rewrite (dot_plus_line p s') in H by done. simplify_eq.
        destruct (next_char_line _ _ _ _ Hp Hrec Hnext) as (t' & Ht' & Heq).
        unfold one_blank. rewrite Ht'.
        apply (f_equal String.length) in Heq. rewrite append_length in Heq.
        destruct t'; [exact Hcp|simpl in Heq; lia].
    + intros (-> & Hne & Hnl & Hr)%dot_plus_inv.
      exists EmptyString. split; [done|]. do 3 (split; [done|]). left.
      destruct (next_char_line _ _ _ _ Hne Hr Hnext) as (t' & Ht' & _).
      unfold starts_unblank. by rewrite Ht', Hcp.
Qed.

Lemma blanks_then_text_length fuel s t r :
  blanks_then_text fuel s = Some (t, r) -> (String.length r < String.length s)%nat.
Proof.
  revert s. induction fuel as [|fuel IH]; intros s; cbn [blanks_then_text].
  - apply dot_plus_length.
  - destruct (next_char s) as [[cp s']|] eqn:Hnext; [|apply dot_plus_length].
    apply next_char_length in Hnext.
    destruct (uni_space cp); [|apply dot_plus_length].
    destruct (blanks_then_text fuel s') as [[t0 r0]|] eqn:Hrec;
      [|apply dot_plus_length].
    intros [= <- <-]. apply IH in Hrec. lia.
Qed.

Lemma decode_uncons s cp l :
  utf8_decode s = cp :: l -> ∃ r, next_char s = Some (cp, r) ∧ utf8_decode r = l.
Proof.
  rewrite utf8_decode_next. destruct (next_char s) as [[cp' r]|]; [|done].
  intros [= <- <-]. by exists r.
Qed.

(** The fuel of the star is enough. *)
Lemma blanks_then_text_fuel fuel1 fuel2 s :
  (String.length s <= fuel1)%nat -> (String.length s <= fuel2)%nat ->
  blanks_then_text fuel1 s = blanks_then_text fuel2 s.
Proof.
  revert fuel2 s. induction fuel1 as [|fuel1 IH]; intros fuel2 s H1 H2.
  - destruct s; [|simpl in H1; lia]. by destruct fuel2.
  - destruct fuel2 as [|fuel2]; [destruct s; [done|simpl in H2; lia]|].
    cbn [blanks_then_text].
    destruct (next_char s) as [[cp s']|] eqn:Hn; [|done].
    apply next_char_length in Hn. destruct (uni_space cp); [|done].
    by rewrite (IH fuel2 s') by lia.
Qed.

(** A match: four decimal digits, the colon, blanks, and the text. *)
Lemma match_at_inv s code t r :
  match_at s = Some (code, t, r) ->
  ∃ q, s = code +:+ String ":" (q +:+ t +:+ r)
       ∧ decimal_date_code code = true ∧ occurs ":" code = false
       ∧ (4 <= String.length code)%nat
       ∧ t ≠ EmptyString ∧ occurs LF t = false ∧ ends_line r = true
       ∧ (starts_unblank t = true ∨ one_blank t = true).
Proof.
  unfold match_at.
  destruct (next_char s) as [[d1 s1]|] eqn:H1; [|done]. cbn [mbind option_bind].
  destruct (next_char s1) as [[d2 s2]|] eqn:H2; [|done]. cbn [mbind option_bind].
  destruct (next_char s2) as [[d3 s3]|] eqn:H3; [|done]. cbn [mbind option_bind].
  destruct (next_char s3) as [[d4 s4]|] eqn:H4; [|done]. cbn [mbind option_bind].
  destruct (uni_digit d1 && uni_digit d2 && uni_digit d3 && uni_digit d4)
    eqn:Hd; [|done].
  apply andb_true_iff in Hd as [[[Hd1 Hd2]%andb_true_iff Hd3]%andb_true_iff Hd4].
  destruct s4 as [|c s5]; [done|].
  destruct (Ascii.eqb c ":") eqn:Hc; [|done]. apply Ascii.eqb_eq in Hc as ->.
  destruct (blanks_then_text (String.length s5) s5) as [[t0 r0]|] eqn:Hb; [|done].
  cbn [mbind option_bind]. intros [= <- <- <-].
  apply blanks_then_text_inv in Hb as (q & -> & Hrest); [|done].
  assert (∀ d, uni_digit d = true -> (d < 128 ∨ 256 <= d)%N ∧ d ≠ 58%N) as Hrange.
  { intros d Hd%uni_digit_range. lia. }
  apply next_char_complete in H4 as (p4 & -> & [Hp4 Hc4] & Ha4);
    [|by apply Hrange].
  apply next_char_complete in H3 as (p3 & -> & [Hp3 Hc3] & Ha3);
    [|by apply Hrange].
  apply next_char_complete in H2 as (p2 & -> & [Hp2 Hc2] & Ha2);
    [|by apply Hrange].
  apply next_char_complete in H1 as (p1 & -> & [Hp1 Hc1] & Ha1);
    [|by apply Hrange].
  set (rest := String ":" (q +:+ t0 +:+ r0)).
  assert (p1 +:+ p2 +:+ p3 +:+ p4 +:+ rest
          = (p1 +:+ p2 +:+ p3 +:+ p4) +:+ rest) as ->
    by (by rewrite !append_assoc).
  rewrite str_take_app. exists q. split; [done|]. split; [|split; [|split]].
  - unfold decimal_date_code.
    rewrite utf8_decode_next, Hc1, utf8_decode_next, Hc2, utf8_decode_next, Hc3.
    rewrite <- (append_nil_r p4), utf8_decode_next, Hc4.
    change (utf8_decode EmptyString) with (@nil N).
    by rewrite Hd1, Hd2, Hd3, Hd4.
  - rewrite !occurs_app. apply not_true_is_false.
    intros [H|[H|[H|H]%orb_true_iff]%orb_true_iff]%orb_true_iff.
    + apply (Ha1 ":"%char) in H; [|by vm_compute]. by apply (Hrange d1).
    + apply (Ha2 ":"%char) in H; [|by vm_compute]. by apply (Hrange d2).
    + apply (Ha3 ":"%char) in H; [|by vm_compute]. by apply (Hrange d3).
    + apply (Ha4 ":"%char) in H; [|by vm_compute]. by apply (Hrange d4).
  - rewrite !append_length.
    destruct p1, p2, p3, p4; try done; simpl; lia.
  - done.
Qed.

(** A match leaves a shorter text, by six bytes at least. *)
Lemma match_at_six s code t r :
  match_at s = Some (code, t, r) ->
  (String.length r + 6 <= String.length s)%nat.
Proof.
  intros (q & -> & _ & _ & Hlen & Ht & _)%match_at_inv.
  rewrite append_length. cbn [String.length]. rewrite !append_length.
  destruct t; [done|]. simpl. lia.
Qed.

(** The fuel of the scan is enough. *)
Lemma findall_from_fuel fuel1 fuel2 s :
  (String.length s <= fuel1)%nat -> (String.length s <= fuel2)%nat ->
  findall_from fuel1 s = findall_from fuel2 s.
Proof.
  revert fuel2 s. induction fuel1 as [|fuel1 IH]; intros fuel2 s H1 H2.
  - destruct s; [|simpl in H1; lia]. by destruct fuel2.
  - destruct fuel2 as [|fuel2]; [destruct s; [done|simpl in H2; lia]|].
    cbn [findall_from].
    destruct (match_at s) as [[[code t] r]|] eqn:Hm.
    + apply match_at_six in Hm. f_equal. apply IH; lia.
    + destruct (next_char s) as [[cp s']|] eqn:Hn; [|done].
      apply next_char_length in Hn. apply IH; lia.
Qed.

(** The scan, one step at a time. *)
Lemma findall_step s :
  findall s
  = match match_at s with
    | Some (code, text, rest) => (code, text) :: findall rest
    | None =>
        match next_char s with
        | Some (_, s') => findall s'
        | None => []
        end
    end.
Proof.
  unfold findall. destruct s as [|c s]; [done|].
  cbn [String.length findall_from].
  destruct (match_at (String c s)) as [[[code t] r]|] eqn:Hm.
  - apply match_at_six in Hm. simpl in Hm.
    f_equal. apply findall_from_fuel; lia.
  - destruct (next_char (String c s)) as [[cp s']|] eqn:Hn; [|done].
    apply next_char_length in Hn. simpl in Hn. apply findall_from_fuel; lia.
Qed.

Lemma findall_from_codes fuel s :
  Forall (λ m, decimal_date_code m.1 = true) (findall_from fuel s).
Proof.
  revert s. induction fuel as [|fuel IH]; intros s; simpl; [done|].
  destruct (match_at s) as [[[code t] r]|] eqn:Hm.
  - apply match_at_inv in Hm as (q & _ & Hc & _). constructor; [done|apply IH].
  - destruct (next_char s) as [[cp s']|]; [apply IH|done].
Qed.

(** Two coded lines give two matches, in their order. *)
Example findall_two_lines :
  findall ("0101: New Year" +:+ String LF "0704: Independence")
  = [("0101", "New Year"); ("0704", "Independence")].
Proof. reflexivity. Qed.

(** ** [extract_subtasks] *)

(** On a code of four decimal digits the date string is computed
    without an exception. *)
Lemma format_date_code_total code :
  decimal_date_code code = true ->
  format_date_code code = Ok (date_str_of code).
Proof.
  intros Hcode.
  assert (∃ s, format_date_code code = Ok s) as [s Hs];
    [|by unfold date_str_of; rewrite Hs].
  unfold decimal_date_code in Hcode.
  destruct (utf8_decode code) as [|a [|b [|c [|d [|]]]]] eqn:Hdec; try done.
  apply andb_true_iff in Hcode as [[[Ha Hb]%andb_true_iff Hc]%andb_true_iff Hd].
  apply decode_uncons in Hdec as (r1 & H1 & Hdec).
  apply decode_uncons in Hdec as (r2 & H2 & Hdec).
  assert (∀ x, uni_digit x = true -> (x < 128 ∨ 256 <= x)%N) as Hrange.
  { intros x Hx%uni_digit_range. lia. }
  pose proof H2 as (p2 & -> & [_ Hc2] & _)%next_char_complete; [|by apply Hrange].
  pose proof H1 as (p1 & -> & [_ Hc1] & _)%next_char_complete; [|by apply Hrange].
  unfold format_date_code.
  assert (drop_chars 2 (p1 +:+ p2 +:+ r2) = r2) as Hdrop
    by (cbn [drop_chars]; by rewrite H1, H2).
  unfold take_chars. rewrite Hdrop, <- (append_assoc p1 p2 r2), str_take_app.
  rewrite (py_int_decimals (p1 +:+ p2)), (py_int_decimals r2).
  - cbn [mbind result_bind].
    destruct (strptime_md _) as [date_obj|[]] eqn:Hst; try by eexists.
    all: unfold strptime_md in Hst; repeat case_match; done.
  - by rewrite Hdec.
  - rewrite Hdec. by repeat constructor.
  - rewrite utf8_decode_next, Hc1. done.
  - rewrite utf8_decode_next, Hc1, <- (append_nil_r p2), utf8_decode_next, Hc2.
    by repeat constructor.
Qed.

Lemma make_subtask_ok m :
  decimal_date_code m.1 = true -> make_subtask m = Ok (subtask_of_match m).
Proof.
  destruct m as [code text]. simpl. intros H.
  by rewrite (format_date_code_total code H).
Qed.

(** The extraction returns: one subtask for each match, in their order. *)
Lemma extract_subtasks_ok d :
  extract_subtasks d = Ok (subtask_of_match <$> findall d).
Proof.
  unfold extract_subtasks. apply for_each_ok.
  eapply Forall_impl; [apply findall_from_codes|].
  intros m Hm. by apply make_subtask_ok.
Qed.

(** The codes of four ASCII digits are among those of four decimal
    digits, and their date string is that of the specification. *)
Lemma uni_digit_ascii c : is_digit c = true -> uni_digit (N_of_ascii c) = true.
Proof.
  intros H%is_digit_In. simpl in H.
  repeat (destruct H as [<-|H]; [reflexivity|]). done.
Qed.

Lemma date_code_decimal_digits code :
  is_date_code code = true -> decimal_date_code code = true.
Proof.
  destruct code as [|a [|b [|c [|d [|]]]]]; try done. simpl.
  intros [[[Ha Hb]%andb_true_iff Hc]%andb_true_iff Hd]%andb_true_iff.
  unfold decimal_date_code.
  pose proof (is_digit_range _ Ha). pose proof (is_digit_range _ Hb).
  pose proof (is_digit_range _ Hc). pose proof (is_digit_range _ Hd).
  rewrite !utf8_decode_ascii by lia.
  by rewrite !uni_digit_ascii.
Qed.

Lemma subtask_of_match_spec m :
  is_date_code m.1 = true -> subtask_of_match m = spec_subtask m.
Proof.
  intros H. unfold subtask_of_match, spec_subtask, date_str_of.
  by rewrite (format_date_code_ok _ H).
Qed.

Lemma starts_unblank_ne text : starts_unblank text = true -> text ≠ EmptyString.
Proof. by destruct text. Qed.

Lemma blanks_then_text_line fuel text post :
  starts_unblank text = true -> occurs LF text = false -> ends_line post = true ->
  blanks_then_text fuel (text +:+ post) = Some (text, post).
Proof.
  intros Hs Ht Hp. pose proof (starts_unblank_ne _ Hs) as Hne.
  destruct fuel as [|fuel]; cbn [blanks_then_text]; [by apply dot_plus_line|].
  destruct (next_char (text +:+ post)) as [[cp x]|] eqn:Hn;
    [|by apply dot_plus_line].
  destruct (next_char_line _ _ _ _ Hne Hp Hn) as (t' & Ht' & _).
  unfold starts_unblank in Hs. rewrite Ht' in Hs.
  apply negb_true_iff in Hs as ->. by apply dot_plus_line.
Qed.

(** A coded line at the head of a text is one match, up to the end of the
    line. *)
Lemma match_at_coded_line code text post :
  is_date_code code = true -> starts_unblank text = true ->
  occurs LF text = false -> ends_line post = true ->
  match_at (code +:+ ": " +:+ text +:+ post) = Some (code, text, post).
Proof.
  intros Hcode Hs Ht Hp.
  destruct code as [|c1 [|c2 [|c3 [|c4 [|]]]]]; try done. simpl in Hcode.
  apply andb_true_iff in Hcode
    as [[[H1 H2]%andb_true_iff H3]%andb_true_iff H4].
  rewrite !app_cons, !app_empty. unfold match_at.
  pose proof (is_digit_range _ H1). pose proof (is_digit_range _ H2).
  pose proof (is_digit_range _ H3). pose proof (is_digit_range _ H4).
  rewrite next_char_ascii by lia. cbn [mbind option_bind].
  rewrite next_char_ascii by lia. cbn [mbind option_bind].
  rewrite next_char_ascii by lia. cbn [mbind option_bind].
  rewrite next_char_ascii by lia. cbn [mbind option_bind].
  rewrite !uni_digit_ascii by done. cbn [andb].
  change (Ascii.eqb ":" ":") with true. cbv iota.
  cbn [String.length blanks_then_text].
  rewrite next_char_ascii by (vm_compute; reflexivity).
  change (uni_space (N_of_ascii " ")) with true. cbv iota.
  rewrite blanks_then_text_line by done. cbn [mbind option_bind].
  replace (S (S (S (S (S (S (String.length (text +:+ post)))))))
           - S (S (String.length (text +:+ post))))%nat with 4%nat by lia.
  reflexivity.
Qed.

(** ** The 29th of February *)

(** The second line of [leap_description] is "0229: x", yet the
    extraction gives no subtask of code "0229": the blanks after the colon
    of the first line run over the newline, and the second line becomes the
    title of the first subtask. *)
Lemma leap_day_line_swallowed :
  "0229: x" ∈ lines leap_description
  ∧ extract_subtasks leap_description
    = Ok [ {| date_code := "0101"; date_str := "January 01";
              title := "0229: x"; status := "Not Started" |} ]
  ∧ ¬ (∃ subs s, extract_subtasks leap_description = Ok subs ∧ s ∈ subs
                 ∧ date_str s = "Invalid date (0229)").
Proof.
  split; [|split].
  - vm_compute. right. left.
  - vm_compute. reflexivity.
  - intros (subs & s & Hsubs & Hs & Hstr).
    assert (subs = [ {| date_code := "0101"; date_str := "January 01";
                        title := "0229: x"; status := "Not Started" |} ])
      as -> by (vm_compute in Hsubs; congruence).
    apply list_elem_of_singleton in Hs. subst s. discriminate Hstr.
Qed.

Lemma utf8_decode_nil x : utf8_decode x = [] -> x = EmptyString.
Proof.
  rewrite utf8_decode_next. destruct (next_char x) as [[cp r]|] eqn:H; [done|].
  intros _. by apply next_char_None.
Qed.

(** Before an ASCII character, a text has the characters it has on its
    own. *)
Lemma utf8_decode_app_ascii x c y :
  (N_of_ascii c < 128)%N ->
  utf8_decode (x +:+ String c y) = (utf8_decode x ++ utf8_decode (String c y))%list.
Proof.
  intros Hc. remember (String.length x) as n eqn:Hn. revert x Hn.
  induction n as [n IH] using lt_wf_ind. intros x ->.
  destruct (decide (x = EmptyString)) as [->|Hx]; [done|].
  rewrite utf8_decode_next, next_char_app_ascii by done.
  rewrite (utf8_decode_next x).
  destruct (next_char x) as [[cp x']|] eqn:Hnext;
    [|by apply next_char_None in Hnext].
  cbn [fmap option_fmap option_map]. rewrite <- app_comm_cons. f_equal.
  apply next_char_length in Hnext. by eapply IH.
Qed.

Lemma date_code_ascii_head c code :
  is_date_code (String c code) = true -> (N_of_ascii c < 128)%N.
Proof.
  destruct code as [|? [|? [|? [|]]]]; try done. simpl.
  intros [[[H _]%andb_true_iff _]%andb_true_iff _]%andb_true_iff.
  apply is_digit_range in H. lia.
Qed.

(** Text without a colon before a code gives no match. *)
Lemma match_at_no_colon pre code rest :
  pre ≠ EmptyString -> occurs ":" pre = false -> is_date_code code = true ->
  match_at (pre +:+ code +:+ String ":" rest) = None.
Proof.
  intros Hne Hpre Hcode.
  destruct (match_at _) as [[[code' t] r]|] eqn:Hm; [exfalso|done].
  apply match_at_inv in Hm as (q & Heq & Hdec & Hcolon & _).
  assert (occurs ":" code = false) as Hcc.
  { apply negb_true_iff.
    exact (date_code_check (λ c, negb (occurs ":" c)) eq_refl code Hcode). }
  rewrite <- append_assoc in Heq.
  apply first_occurrence in Heq as [<- _];
    [|by rewrite occurs_app, Hpre, Hcc|done].
  unfold decimal_date_code in Hdec.
  destruct code as [|c1 code]; [done|].
  rewrite utf8_decode_app_ascii in Hdec by (by eapply date_code_ascii_head).
  pose proof (date_code_decimal_digits _ Hcode) as Hcode'.
  unfold decimal_date_code in Hcode'.
  destruct (utf8_decode (String c1 code)) as [|a [|b [|c [|d [|]]]]]; try done.
  destruct (utf8_decode pre) as [|x l] eqn:Hx; [by apply utf8_decode_nil in Hx|].
  by destruct l as [|? [|? [|? [|? ?]]]].
Qed.

Lemma scan_arrives_0 s n :
  (String.length s = n)%nat -> ∀ fuel, scan_arrives fuel s n = true.
Proof.
  intros H fuel. destruct fuel; simpl; by rewrite (proj2 (Nat.eqb_eq _ _) H).
Qed.

Lemma scan_arrives_S fuel s n :
  String.length s ≠ n ->
  scan_arrives (S fuel) s n
  = match match_at s with
    | Some (_, _, rest) => scan_arrives fuel rest n
    | None =>
        match next_char s with
        | Some (_, s') => scan_arrives fuel s' n
        | None => false
        end
    end.
Proof. intros H. simpl. by rewrite (proj2 (Nat.eqb_neq _ _) H). Qed.

Lemma scan_arrives_le fuel s n :
  scan_arrives fuel s n = true -> (n <= String.length s)%nat.
Proof.
  revert s. induction fuel as [|fuel IH]; intros s.
  - simpl. destruct (Nat.eqb_spec (String.length s) n); [lia|done].
  - destruct (decide (String.length s = n)) as [->|Hne]; [lia|].
    rewrite scan_arrives_S by done.
    destruct (match_at s) as [[[code t] r]|] eqn:Hm.
    + intros H%IH. apply match_at_six in Hm. lia.
    + destruct (next_char s) as [[cp s']|] eqn:Hn; [|done].
      intros H%IH. apply next_char_length in Hn. lia.
Qed.

(** Where the scan arrives, it goes on as if it had started there. *)
Lemma scan_arrives_findall fuel s p suf :
  (String.length s <= fuel)%nat -> s = p +:+ suf ->
  scan_arrives fuel s (String.length suf) = true ->
  ∃ before, findall s = (before ++ findall suf)%list.
Proof.
  revert s p. induction fuel as [|fuel IH]; intros s p Hfuel Hs.
  - intros _. destruct s; [|simpl in Hfuel; lia].
    destruct p; [|done]. rewrite app_empty in Hs. subst suf. by exists [].
  - destruct (decide (String.length s = String.length suf)) as [Hlen|Hlen].
    { intros _. exists []. rewrite Hs, append_length in Hlen.
      destruct p; [by rewrite Hs|simpl in Hlen; lia]. }
    rewrite scan_arrives_S, findall_step by done.
    destruct (match_at s) as [[[code t] r]|] eqn:Hm.
    + intros Harr. pose proof (scan_arrives_le _ _ _ Harr) as Hle.
      pose proof (match_at_six _ _ _ _ Hm) as Hsix.
      apply match_at_inv in Hm as (q & Heq & _).
      assert (s = (code +:+ String ":" (q +:+ t)) +:+ r) as Heq'
        by (by rewrite Heq, !append_assoc, app_cons, !append_assoc).
      rewrite Hs in Heq'. symmetry in Heq'.
      destruct (suffix_app _ _ _ _ Heq' Hle) as (x & Hr & _).
      destruct (IH r x ltac:(lia) Hr Harr) as [before Hbefore].
      exists ((code, t) :: before). by rewrite Hbefore.
    + destruct (next_char s) as [[cp s']|] eqn:Hn; [|done].
      intros Harr. pose proof (scan_arrives_le _ _ _ Harr) as Hle.
      pose proof (next_char_length _ _ _ Hn) as Hshort.
      apply next_char_suffix in Hn as (p0 & Heq & _).
      rewrite Hs in Heq. symmetry in Heq.
      destruct (suffix_app _ _ _ _ Heq Hle) as (x & Hr & _).
      by destruct (IH s' x ltac:(lia) Hr Harr) as [before Hbefore]; exists before.
Qed.

(** Through a text without a colon the scan arrives at the code that
    follows it. *)
Lemma scan_arrives_no_colon fuel x code rest :
  (String.length x <= fuel)%nat -> occurs ":" x = false ->
  is_date_code code = true ->
  scan_arrives fuel (x +:+ code +:+ String ":" rest)
    (String.length (code +:+ String ":" rest)) = true.
Proof.
  intros Hfuel Hx Hcode. revert x Hfuel Hx.
  induction fuel as [|fuel IH]; intros x Hfuel Hx.
  - destruct x; [|simpl in Hfuel; lia]. by apply scan_arrives_0.
  - destruct (decide (x = EmptyString)) as [->|Hne]; [by apply scan_arrives_0|].
    rewrite scan_arrives_S.
    2: { rewrite append_length. destruct x; [done|simpl; lia]. }
    rewrite match_at_no_colon by done.
    destruct code as [|c1 code]; [done|]. rewrite app_cons.
    rewrite next_char_app_ascii by (done || by eapply date_code_ascii_head).
    destruct (next_char x) as [[cp x']|] eqn:Hn;
      [|by apply next_char_None in Hn].
    cbn [fmap option_fmap option_map].
    pose proof (next_char_length _ _ _ Hn) as Hshort.
    apply next_char_suffix in Hn as (p0 & -> & _).
    rewrite occurs_app in Hx. apply orb_false_iff in Hx as [_ Hx].
    rewrite <- app_cons. apply IH; [lia|done].
Qed.

(** C10, amended.  The date is built in the year 1900, which has no 29th
    of February: for every description the extraction returns, and every
    subtask of code "0229" it returns has the date string
    "Invalid date (0229)" and the status "Not Started".  A line
    "0229: text", where [text] starts with a character other than a blank,
    gives such a subtask, with the title [text], whenever no match found
    before the line consumes it: the subtasks of the matches before come
    first, then this one, then those of the text after the line.  In
    particular no match consumes the line when there is no colon before
    it. *)
Theorem leap_day_code_is_invalid :
  (∀ d, ∃ subs,
     extract_subtasks d = Ok subs
     ∧ ∀ s, s ∈ subs -> date_code s = "0229" ->
            date_str s = "Invalid date (0229)" ∧ status s = "Not Started")
  ∧ (∀ pre text post,
       not_consumed pre ("0229: " +:+ text +:+ post) = true ->
       starts_unblank text = true ->
       occurs LF text = false -> ends_line post = true ->
       ∃ before after,
         extract_subtasks (pre +:+ "0229: " +:+ text +:+ post)
         = Ok (before
               ++ {| date_code := "0229"; date_str := "Invalid date (0229)";
                     title := text; status := "Not Started" |} :: after)%list
         ∧ extract_subtasks post = Ok after)
  ∧ (∀ pre text post,
       occurs ":" pre = false ->
       not_consumed pre ("0229: " +:+ text +:+ post) = true).
Proof.
  split; [|split].
  - intros d. eexists. split; [apply extract_subtasks_ok|].
    intros s Hs Hcode. apply list_elem_of_fmap in Hs as (m & -> & _).
    unfold subtask_of_match in *. simpl in *. by rewrite Hcode.
  - intros pre text post Harr Hs Ht Hp.
    unfold not_consumed in Harr.
    destruct (scan_arrives_findall _ _ pre _ (Nat.le_refl _) eq_refl Harr)
      as [before Hbefore].
    exists (subtask_of_match <$> before), (subtask_of_match <$> findall post).
    split; [|apply extract_subtasks_ok].
    rewrite extract_subtasks_ok, Hbefore, fmap_app. f_equal.
    rewrite findall_step.
    change ("0229: " +:+ text +:+ post) with ("0229" +:+ ": " +:+ text +:+ post).
    rewrite (match_at_coded_line "0229" text post eq_refl Hs Ht Hp).
    reflexivity.
  - intros pre text post Hpre. unfold not_consumed.
    change ("0229: " +:+ text +:+ post)
      with ("0229" +:+ String ":" (" " +:+ text +:+ post)).
    apply scan_arrives_no_colon; [|done..].
    rewrite append_length. lia.
Qed.

(** A description of three coded lines, the second being
    "0229: leap day": the first line ends with its text, so its match
    leaves the second line to the scan. *)
Lemma leap_day_example :
  ∃ before after,
    extract_subtasks ("0101: thaw" +:+ String LF "0229: leap day"
                      +:+ String LF "0301: next")
    = Ok (before
          ++ {| date_code := "0229"; date_str := "Invalid date (0229)";
                title := "leap day"; status := "Not Started" |} :: after)%list
    ∧ extract_subtasks (String LF "0301: next") = Ok after.
Proof.
  exact (proj1 (proj2 leap_day_code_is_invalid)
           ("0101: thaw" +:+ String LF EmptyString)
           "leap day" (String LF "0301: next") eq_refl eq_refl eq_refl eq_refl).
Defined.

(** ** Saving a task *)

Lemma truthy_iff s : truthy s = true ↔ s ≠ EmptyString.
Proof. by destruct s. Qed.

(** A project name of one blank is a string of blanks only, and the task
    is saved all the same: a row is written and the session list grows. *)
Lemma save_task_blank_project_is_saved :
  all_chars is_space " " = true
  ∧ save_task " " "measure" "0305: weigh" "Not Started" empty_state
    = Ok ({| db := {| rows := [ {| col_id := 1; col_project := " ";
                                   col_task := "measure";
                                   col_description := "0305: weigh";
                                   col_status := "Not Started";
                                   col_subtasks :=
                                     json_dumps
                                       [ {| date_code := "0305";
                                            date_str := "March 05";
                                            title := "weigh";
                                            status := "Not Started" |} ] |} ];
                      last_rowid := 1 |};
             tasks := [ {| project := " "; task_name := "measure";
                           description := "0305: weigh";
                           task_status := "Not Started";
                           subtasks := [ {| date_code := "0305";
                                            date_str := "March 05";
                                            title := "weigh";
                                            status := "Not Started" |} ] |} ] |},
          Success "Task 'measure' under project ' ' saved!")
  ∧ ¬ (∃ msg, save_task " " "measure" "0305: weigh" "Not Started" empty_state
              = Ok (empty_state, Warning msg)).
Proof.
  split; [reflexivity|]. split; [vm_compute; reflexivity|].
  intros [msg H]. vm_compute in H. discriminate H.
Qed.

(** C2, amended.  Saving a task with an empty project or an empty task
    name gives the warning and leaves the state as it was: no row is
    written and the session list is unchanged.  With a project and a task
    name that are not empty (a string of blanks counts as not empty), the
    subtasks are derived from the description, a row with the next rowid
    and the serialized subtasks is added to the table, and the task is
    appended to the session list. *)
Theorem save_task_spec project task description status st :
  ((project = EmptyString ∨ task = EmptyString) ->
   save_task project task description status st
   = Ok (st, Warning "Please fill in both Project and Task fields."))
  ∧ (project ≠ EmptyString -> task ≠ EmptyString ->
     ∃ subtasks,
       extract_subtasks description = Ok subtasks
       ∧ save_task project task description status st
         = Ok ({| db := {| rows := rows (db st)
                             ++ [ {| col_id := last_rowid (db st) + 1;
                                     col_project := project; col_task := task;
                                     col_description := description;
                                     col_status := status;
                                     col_subtasks := json_dumps subtasks |} ];
                           last_rowid := last_rowid (db st) + 1 |};
                  tasks := tasks st
                    ++ [ {| project := project; task_name := task;
                            description := description; task_status := status;
                            subtasks := subtasks |} ] |},
               Success ("Task '" +:+ task +:+ "' under project '" +:+ project
                        +:+ "' saved!"))).
Proof.
  split.
  - intros [-> | ->]; unfold save_task; simpl; [done|].
    by rewrite andb_false_r.
  - intros Hp%truthy_iff Ht%truthy_iff. exists (subtask_of_match <$> findall description).
    split; [apply extract_subtasks_ok|].
    unfold save_task. rewrite Hp, Ht, extract_subtasks_ok. reflexivity.
Qed.

(** An empty project name on a fresh installation: the warning, and still
    no row and no task; a named project and task: one row, one task. *)
Lemma save_task_example :
  save_task EmptyString "measure" "0305: weigh" "Not Started" empty_state
  = Ok (empty_state, Warning "Please fill in both Project and Task fields.")
  ∧ ∃ subtasks st' msg,
      extract_subtasks "0305: weigh" = Ok subtasks
      ∧ save_task "assay" "measure" "0305: weigh" "Not Started" empty_state
        = Ok (st', Success msg)
      ∧ length (rows (db st')) = 1%nat ∧ length (tasks st') = 1%nat.
Proof.
  split.
  - exact (proj1 (save_task_spec EmptyString "measure" "0305: weigh" "Not Started"
                    empty_state) (or_introl eq_refl)).
  - destruct (proj2 (save_task_spec "assay" "measure" "0305: weigh" "Not Started"
                       empty_state) ltac:(discriminate) ltac:(discriminate))
      as (subtasks & Hsubs & Hsave).
    exists subtasks. eexists _, _. split; [exact Hsubs|].
    split; [exact Hsave|]. split; reflexivity.
Defined.

(** ** Completing a subtask *)

Lemma filter_fmap_preserved {A : Type} (P : A -> Prop)
    `{!∀ x, Decision (P x)} (g : A -> A) (l : list A) :
  (∀ x, P (g x) ↔ P x) -> filter P (g <$> l) = g <$> filter P l.
Proof.
  intros Hg. induction l as [|x l IH]; [done|].
  rewrite fmap_cons, !filter_cons, IH.
  destruct (decide (P (g x))) as [H1|H1], (decide (P x)) as [H2|H2];
    try done; exfalso; pose proof (Hg x); tauto.
Qed.

Lemma imap_pair_insert (l : list task) ref t subs :
  l !! ref = Some t ->
  imap pair (<[ref := set_subtasks subs t]> l) = assign_at ref subs <$> imap pair l.
Proof.
  intros Hl. apply list_eq. intros i.
  rewrite list_lookup_fmap, !list_lookup_imap, list_lookup_insert.
  unfold assign_at. case_decide as Hi.
  - destruct Hi as [-> _]. rewrite Hl. simpl. by rewrite decide_True.
  - destruct (l !! i) as [x|] eqn:Hx; simpl; [|done].
    rewrite decide_False; [done|]. simpl. intros ->.
    apply Hi. split; [done|]. by apply lookup_lt_Some in Hx.
Qed.

(** Assigning subtasks to a task of the session list changes, in
    [filtered], this task only: it keeps its place. *)
Lemma filtered_insert p q (l : list task) ref t subs :
  l !! ref = Some t ->
  filtered p q (<[ref := set_subtasks subs t]> l)
  = assign_at ref subs <$> filtered p q l.
Proof.
  intros Hl. unfold filtered. rewrite (imap_pair_insert _ _ _ _ Hl).
  assert (∀ it : nat * task, project (assign_at ref subs it).2 = project it.2
                             ∧ task_name (assign_at ref subs it).2 = task_name it.2)
    as Hkeep by (intros it; unfold assign_at; by case_decide).
  rewrite (filter_fmap_preserved (λ it : nat * task, _ ∨ project it.2 = p)).
  2: { intros it. by rewrite (proj1 (Hkeep it)). }
  case_decide; [|done].
  rewrite (filter_fmap_preserved (λ it : nat * task, task_name it.2 = q)); [done|].
  intros it. by rewrite (proj2 (Hkeep it)).
Qed.

(** An element of [filtered] is a task of the session list, with its
    position. *)
Lemma filtered_lookup p q (l : list task) idx ref t :
  filtered p q l !! idx = Some (ref, t) -> l !! ref = Some t.
Proof.
  intros H. assert ((ref, t) ∈ imap pair l) as Hin.
  { unfold filtered in H. apply list_elem_of_lookup_2 in H.
    case_decide; repeat (apply list_elem_of_filter in H as [_ H]); done. }
  apply elem_of_lookup_imap in Hin as (i & y & Heq & Hy). by simplify_eq.
Qed.

Lemma sql_update_subtasks_twice subs p t db :
  sql_update_subtasks subs p t (sql_update_subtasks subs p t db)
  = sql_update_subtasks subs p t db.
Proof.
  unfold sql_update_subtasks. simpl. f_equal.
  rewrite <- list_fmap_compose. apply list_fmap_ext. intros _ r _. simpl.
  destruct (decide (where_key p t r)) as [H|H].
  - rewrite decide_True by exact H. done.
  - by rewrite decide_False.
Qed.

(** C6.  Completing a subtask is idempotent: when the button of a subtask
    has been pressed once, pressing it again, under the same selection of
    project and task, returns the very state the first press gave, session
    list and rows of the table alike. *)
Theorem click_complete_idempotent p q idx sub_idx st st1 :
  click_complete p q idx sub_idx st = Some st1 ->
  click_complete p q idx sub_idx st1 = Some st1.
Proof.
  unfold click_complete. intros H.
  destruct (filtered p q (tasks st) !! idx) as [[ref t]|] eqn:Hf; simpl in H; [|done].
  destruct (subtasks t !! sub_idx) as [s|] eqn:Hs; simpl in H; [|done].
  simplify_eq. simpl.
  pose proof (filtered_lookup _ _ _ _ _ _ Hf) as Href.
  rewrite (filtered_insert _ _ _ _ _ _ Href), list_lookup_fmap, Hf. simpl.
  unfold assign_at. simpl. rewrite decide_True by done. simpl.
  rewrite list_lookup_alter_eq, Hs. simpl.
  rewrite list_alter_alter_eq.
  rewrite (list_alter_ext _ (set_status "Completed") _ (subtasks t) sub_idx)
    by done.
  rewrite sql_update_subtasks_twice.
  rewrite list_insert_insert_eq. done.
Qed.

(** The second subtask of the example, completed once and once more. *)
Lemma click_complete_example :
  ∃ st1,
    click_complete "All Projects" "All Tasks" 0 1 state_with_example = Some st1
    ∧ click_complete "All Projects" "All Tasks" 0 1 st1 = Some st1
    ∧ (status <$> (tasks st1 ≫= subtasks))
      = ["Not Started"; "Completed"; "Completed"; "Completed"].
Proof.
  eexists. split; [vm_compute; reflexivity|]. split.
  - apply (click_complete_idempotent "All Projects" "All Tasks" 0 1
             state_with_example).
    vm_compute; reflexivity.
  - vm_compute; reflexivity.
Defined.

(** ** The fuel of the JSON decoder *)

Lemma skip_ws_length s : (String.length (skip_ws s) <= String.length s)%nat.
Proof.
  induction s as [|c s IH]; simpl; [done|]. destruct (json_ws c); simpl; lia.
Qed.

Lemma strip_prefix_length p s r :
  strip_prefix p s = Some r ->
  (String.length r + String.length p = String.length s)%nat.
Proof.
  revert s. induction p as [|a p IH]; intros [|b s]; simpl; try done.
  - intros; simplify_eq; simpl; lia.
  - intros; simplify_eq; simpl; lia.
  - destruct (Ascii.eqb a b); [|done]. intros H%IH. lia.
Qed.

Lemma span_digits_length s ds r :
  span_digits s = (ds, r) -> (String.length r <= String.length s)%nat.
Proof.
  revert ds r. induction s as [|c s IH]; intros ds r; simpl.
  - intros; simplify_eq; done.
  - destruct (is_digit c).
    + destruct (span_digits s) as [ds0 r0]. intros; simplify_eq.
      specialize (IH _ _ eq_refl). lia.
    + intros; simplify_eq; simpl; lia.
Qed.

Lemma scan_constant_length name v s m :
  name ≠ EmptyString -> scan_constant name v s = Some m ->
  (String.length m.2 < String.length s)%nat.
Proof.
  unfold scan_constant. intros Hn.
  destruct (strip_prefix name s) as [r|] eqn:Hr; simpl; [|done].
  intros; simplify_eq. apply strip_prefix_length in Hr. simpl.
  destruct name; [done|]. simpl in Hr. lia.
Qed.

Lemma scan_number_length s m :
  scan_number s = Some m -> (String.length m.2 < String.length s)%nat.
Proof.
  unfold scan_number.
  set (p := match s with
            | String c r => if Ascii.eqb c "-" then ("-", r) else (EmptyString, s)
            | EmptyString => (EmptyString, s)
            end).
  assert (String.length p.2 <= String.length s)%nat as Hp.
  { subst p. destruct s as [|c r]; [done|]. destruct (Ascii.eqb c "-"); simpl; lia. }
  destruct p as [sign s1]. simpl in Hp.
  destruct s1 as [|c r]; [done|].
  set (ip := if Ascii.eqb c "0" then Some ("0", r)
             else if in_range 49 57 c
                  then let '(ds, r') := span_digits r in Some (String c ds, r')
                  else None).
  assert (∀ x r1, ip = Some (x, r1) -> String.length r1 <= String.length r)%nat as Hip.
  { subst ip. intros x r1. destruct (Ascii.eqb c "0"); [intros; by simplify_eq|].
    destruct (in_range 49 57 c); [|done].
    destruct (span_digits r) as [ds r'] eqn:Hds. intros; simplify_eq.
    by apply span_digits_length in Hds. }
  destruct ip as [[x r1]|]; [|done]. specialize (Hip _ _ eq_refl). simpl.
  set (fr := match r1 with
             | String c0 r0 =>
                 if Ascii.eqb c0 "."
                 then let '(ds, r') := span_digits r0 in
                      if is_empty ds then (EmptyString, r1) else ("." +:+ ds, r')
                 else (EmptyString, r1)
             | EmptyString => (EmptyString, r1)
             end).
  assert (String.length fr.2 <= String.length r1)%nat as Hfr.
  { subst fr. destruct r1 as [|c0 r0]; [done|].
    destruct (Ascii.eqb c0 "."); [|done].
    destruct (span_digits r0) as [ds r'] eqn:Hds.
    apply span_digits_length in Hds. destruct (is_empty ds); simpl; lia. }
  destruct fr as [frac r2]. simpl in Hfr.
  set (ex := match r2 with
             | String c0 r0 =>
                 if Ascii.eqb c0 "e" || Ascii.eqb c0 "E"
                 then let '(sg, r') :=
                        match r0 with
                        | String g r'' =>
                            if Ascii.eqb g "+" || Ascii.eqb g "-"
                            then (String g EmptyString, r'')
                            else (EmptyString, r0)
                        | EmptyString => (EmptyString, r0)
                        end in
                      let '(ds, r'') := span_digits r' in
                      if is_empty ds then (EmptyString, r2)
                      else (String c0 sg +:+ ds, r'')
                 else (EmptyString, r2)
             | EmptyString => (EmptyString, r2)
             end).
  assert (String.length ex.2 <= String.length r2)%nat as Hex.
  { subst ex. destruct r2 as [|c0 r0]; [done|].
    destruct (Ascii.eqb c0 "e" || Ascii.eqb c0 "E"); [|done].
    set (sg := match r0 with
               | String g r'' =>
                   if Ascii.eqb g "+" || Ascii.eqb g "-"
                   then (String g EmptyString, r'')
                   else (EmptyString, r0)
               | EmptyString => (EmptyString, r0)
               end).
    assert (String.length sg.2 <= String.length r0)%nat as Hsg.
    { subst sg. destruct r0 as [|g r'']; [done|].
      destruct (Ascii.eqb g "+" || Ascii.eqb g "-"); simpl; lia. }
    destruct sg as [sg r']. simpl in Hsg.
    destruct (span_digits r') as [ds r''] eqn:Hds.
    apply span_digits_length in Hds. destruct (is_empty ds); simpl; lia. }
  destruct ex as [exp r3]. simpl in Hex.
  destruct (is_empty frac && is_empty exp); intros; simplify_eq; simpl in *; lia.
Qed.

Lemma scan_atom_length s v r :
  scan_atom s = Ok (v, r) -> (String.length r < String.length s)%nat.
Proof.
  unfold scan_atom.
  destruct (_ ∪ _) as [m|] eqn:Hm; [|done]. intros; simplify_eq.
  repeat match type of Hm with
         | _ ∪ _ = Some _ => apply union_Some in Hm as [Hm|[_ Hm]]
         end;
    first [ by apply (scan_number_length _ _ Hm)
          | eapply scan_constant_length in Hm; [exact Hm|done] ].
Qed.

Lemma scan_string_length_below n s t r :
  (String.length s < n)%nat -> scan_string s = Ok (t, r) ->
  (String.length r < String.length s)%nat.
Proof.
  revert s t r. induction n as [|n IH]; intros s t r Hn H; [lia|].
  destruct s as [|c s1]; [done|]. cbn [scan_string] in H.
  repeat (case_match; try done); simplify_eq;
    try (simpl; lia);
    match type of H with
    | context [scan_string ?x] =>
        destruct (scan_string x) as [[t' r']|] eqn:Hx; simpl in H; [|done];
        simplify_eq; apply IH in Hx; simpl in *; lia
    end.
Qed.

Lemma scan_string_length s t r :
  scan_string s = Ok (t, r) -> (String.length r < String.length s)%nat.
Proof. apply (scan_string_length_below (S (String.length s))). lia. Qed.

Lemma scan_once_S fuel s :
  scan_once (S fuel) s
  = match s with
    | EmptyString => Raise JSONDecodeError
    | String c r =>
        if Ascii.eqb c dquote then
          '(t, r') ← scan_string r; Ok (JStr t, r')
        else if Ascii.eqb c "{" then
          match skip_ws r with
          | String d r' =>
              if Ascii.eqb d "}" then Ok (JDict [], r')
              else
                '(items, r'') ← scan_pairs fuel (skip_ws r);
                Ok (JDict items, r'')
          | EmptyString => Raise JSONDecodeError
          end
        else if Ascii.eqb c "[" then
          match skip_ws r with
          | String d r' =>
              if Ascii.eqb d "]" then Ok (JList [], r')
              else
                '(l, r'') ← scan_items fuel (skip_ws r);
                Ok (JList l, r'')
          | EmptyString => Raise JSONDecodeError
          end
        else scan_atom s
    end.
Proof. reflexivity. Qed.

Lemma scan_pairs_S fuel s :
  scan_pairs (S fuel) s
  = match s with
    | String q r =>
        if Ascii.eqb q dquote then
          '(key, r1) ← scan_string r;
          match skip_ws r1 with
          | String colon r2 =>
              if Ascii.eqb colon ":" then
                '(v, r3) ← scan_once fuel (skip_ws r2);
                match skip_ws r3 with
                | String d r4 =>
                    if Ascii.eqb d "}" then Ok ([(key, v)], r4)
                    else if Ascii.eqb d "," then
                      '(items, r5) ← scan_pairs fuel (skip_ws r4);
                      Ok ((key, v) :: items, r5)
                    else Raise JSONDecodeError
                | EmptyString => Raise JSONDecodeError
                end
              else Raise JSONDecodeError
          | EmptyString => Raise JSONDecodeError
          end
        else Raise JSONDecodeError
    | EmptyString => Raise JSONDecodeError
    end.
Proof. reflexivity. Qed.

Lemma scan_items_S fuel s :
  scan_items (S fuel) s
  = ('(v, r1) ← scan_once fuel s;
     match skip_ws r1 with
     | String d r2 =>
         if Ascii.eqb d "]" then Ok ([v], r2)
         else if Ascii.eqb d "," then
           '(l, r3) ← scan_items fuel (skip_ws r2);
           Ok (v :: l, r3)
         else Raise JSONDecodeError
     | EmptyString => Raise JSONDecodeError
     end).
Proof. reflexivity. Qed.

(** A scan that succeeds reads at least one character, and succeeds in
    the same way with any fuel that is at least the number of characters
    it reads. *)
Lemma scan_fuel fuel :
  (∀ s v r, scan_once fuel s = Ok (v, r) ->
     (String.length r < String.length s)%nat
     ∧ ∀ fuel', (String.length s - String.length r <= fuel')%nat ->
                scan_once fuel' s = Ok (v, r))
  ∧ (∀ s l r, scan_pairs fuel s = Ok (l, r) ->
       (String.length r < String.length s)%nat
       ∧ ∀ fuel', (String.length s - String.length r <= fuel')%nat ->
                  scan_pairs fuel' s = Ok (l, r))
  ∧ (∀ s l r, scan_items fuel s = Ok (l, r) ->
       (String.length r < String.length s)%nat
       ∧ ∀ fuel', (String.length s - String.length r <= fuel')%nat ->
                  scan_items fuel' s = Ok (l, r)).
Proof.
  induction fuel as [|fuel (IHo & IHp & IHi)]; [by repeat split|].
  split; [|split].
  - intros s v r H. rewrite scan_once_S in H.
    destruct s as [|c r0]; [done|].
    destruct (Ascii.eqb c dquote) eqn:Hq.
    { destruct (scan_string r0) as [[t r']|] eqn:Hs; simpl in H; [|done].
      simplify_eq. pose proof (scan_string_length _ _ _ Hs).
      split; [simpl; lia|]. intros [|fuel'] Hf; [simpl in Hf; lia|].
      rewrite scan_once_S, Hq, Hs. done. }
    destruct (Ascii.eqb c "{") eqn:Hb.
    { pose proof (skip_ws_length r0).
      destruct (skip_ws r0) as [|d r'] eqn:Hw; [done|]. simpl in *.
      destruct (Ascii.eqb d "}") eqn:Hd.
      - simplify_eq. split; [lia|]. intros [|fuel'] Hf; [lia|].
        rewrite scan_once_S, Hq, Hb, Hw, Hd. done.
      - destruct (scan_pairs fuel (String d r')) as [[items r'']|] eqn:Hp;
          simpl in H; [|done].
        simplify_eq. destruct (IHp _ _ _ Hp) as [Hlen Hmore]. simpl in Hlen.
        split; [lia|]. intros [|fuel'] Hf; [lia|].
        rewrite scan_once_S, Hq, Hb, Hw, Hd, Hmore; [done|simpl; lia]. }
    destruct (Ascii.eqb c "[") eqn:Ha.
    { pose proof (skip_ws_length r0).
      destruct (skip_ws r0) as [|d r'] eqn:Hw; [done|]. simpl in *.
      destruct (Ascii.eqb d "]") eqn:Hd.
      - simplify_eq. split; [lia|]. intros [|fuel'] Hf; [lia|].
        rewrite scan_once_S, Hq, Hb, Ha, Hw, Hd. done.
      - destruct (scan_items fuel (String d r')) as [[l r'']|] eqn:Hi;
          simpl in H; [|done].
        simplify_eq. destruct (IHi _ _ _ Hi) as [Hlen Hmore]. simpl in Hlen.
        split; [lia|]. intros [|fuel'] Hf; [lia|].
        rewrite scan_once_S, Hq, Hb, Ha, Hw, Hd, Hmore; [done|simpl; lia]. }
    pose proof (scan_atom_length _ _ _ H) as Hlen.
    split; [done|]. intros [|fuel'] Hf; [lia|].
    rewrite scan_once_S, Hq, Hb, Ha. done.
  - intros s l r H. rewrite scan_pairs_S in H.
    destruct s as [|q r0]; [done|].
    destruct (Ascii.eqb q dquote) eqn:Hq; [|done].
    destruct (scan_string r0) as [[key r1]|] eqn:Hs; simpl in H; [|done].
    pose proof (scan_string_length _ _ _ Hs).
    pose proof (skip_ws_length r1).
    destruct (skip_ws r1) as [|colon r2] eqn:Hw1; [done|]. simpl in *.
    destruct (Ascii.eqb colon ":") eqn:Hc; [|done].
    pose proof (skip_ws_length r2).
    destruct (scan_once fuel (skip_ws r2)) as [[v r3]|] eqn:Ho; simpl in H; [|done].
    destruct (IHo _ _ _ Ho) as [Hlen3 Hmore3].
    pose proof (skip_ws_length r3).
    destruct (skip_ws r3) as [|d r4] eqn:Hw3; [done|]. simpl in *.
    destruct (Ascii.eqb d "}") eqn:Hd.
    { simplify_eq. split; [lia|]. intros [|fuel'] Hf; [lia|].
      rewrite scan_pairs_S, Hq, Hs. simpl. rewrite Hw1, Hc, Hmore3 by lia.
      simpl. rewrite Hw3, Hd. done. }
    destruct (Ascii.eqb d ",") eqn:Hcomma; [|done].
    pose proof (skip_ws_length r4).
    destruct (scan_pairs fuel (skip_ws r4)) as [[items r5]|] eqn:Hp;
      simpl in H; [|done].
    destruct (IHp _ _ _ Hp) as [Hlen5 Hmore5]. simplify_eq.
    split; [lia|]. intros [|fuel'] Hf; [lia|].
    rewrite scan_pairs_S, Hq, Hs. simpl. rewrite Hw1, Hc, Hmore3 by lia.
    simpl. rewrite Hw3, Hd, Hcomma, Hmore5 by lia. done.
  - intros s l r H. rewrite scan_items_S in H.
    destruct (scan_once fuel s) as [[v r1]|] eqn:Ho; simpl in H; [|done].
    destruct (IHo _ _ _ Ho) as [Hlen1 Hmore1].
    pose proof (skip_ws_length r1).
    destruct (skip_ws r1) as [|d r2] eqn:Hw1; [done|]. simpl in *.
    destruct (Ascii.eqb d "]") eqn:Hd.
    { simplify_eq. split; [lia|]. intros [|fuel'] Hf; [lia|].
      rewrite scan_items_S, Hmore1 by lia. simpl. rewrite Hw1, Hd. done. }
    destruct (Ascii.eqb d ",") eqn:Hcomma; [|done].
    pose proof (skip_ws_length r2).
    destruct (scan_items fuel (skip_ws r2)) as [[l' r3]|] eqn:Hi;
      simpl in H; [|done].
    destruct (IHi _ _ _ Hi) as [Hlen3 Hmore3]. simplify_eq.
    split; [lia|]. intros [|fuel'] Hf; [lia|].
    rewrite scan_items_S, Hmore1 by lia. simpl.
    rewrite Hw1, Hd, Hcomma, Hmore3 by lia. done.
Qed.

Lemma scan_string_raises_below n s e :
  (String.length s < n)%nat -> scan_string s = Raise e -> e = JSONDecodeError.
Proof.
  revert s e. induction n as [|n IH]; intros s e Hn H; [lia|].
  destruct s as [|c s1]; [by (simpl in H; simplify_eq)|]. cbn [scan_string] in H.
  repeat (case_match; try done); simplify_eq; try done;
    match type of H with
    | context [scan_string ?x] =>
        destruct (scan_string x) as [[t' r']|] eqn:Hx; simpl in H; [done|];
        simplify_eq; apply IH in Hx; [done|simpl in *; lia]
    end.
Qed.

Lemma scan_string_raises s e : scan_string s = Raise e -> e = JSONDecodeError.
Proof. apply (scan_string_raises_below (S (String.length s))). lia. Qed.

Lemma scan_atom_raises s e : scan_atom s = Raise e -> e = JSONDecodeError.
Proof. unfold scan_atom. case_match; [done|]. by intros; simplify_eq. Qed.

(** The decoder raises nothing but [JSONDecodeError]. *)
Lemma scan_raises fuel :
  (∀ s e, scan_once fuel s = Raise e -> e = JSONDecodeError)
  ∧ (∀ s e, scan_pairs fuel s = Raise e -> e = JSONDecodeError)
  ∧ (∀ s e, scan_items fuel s = Raise e -> e = JSONDecodeError).
Proof.
  induction fuel as [|fuel (IHo & IHp & IHi)];
    [by repeat split; intros ? ? H; simpl in H; simplify_eq|].
  split; [|split]; intros s e H.
  - rewrite scan_once_S in H.
    repeat (case_match; try done); simplify_eq; try done;
      first [ by eapply scan_atom_raises
            | match type of H with
              | context [scan_string ?x] =>
                  destruct (scan_string x) as [[? ?]|] eqn:Hx; simpl in H;
                  [done|]; simplify_eq; by eapply scan_string_raises
              | context [scan_pairs fuel ?x] =>
                  destruct (scan_pairs fuel x) as [[? ?]|] eqn:Hx; simpl in H;
                  [done|]; simplify_eq; by eapply IHp
              | context [scan_items fuel ?x] =>
                  destruct (scan_items fuel x) as [[? ?]|] eqn:Hx; simpl in H;
                  [done|]; simplify_eq; by eapply IHi
              end ].
  - rewrite scan_pairs_S in H.
    destruct s as [|q r0]; [by (simpl in H; simplify_eq)|].
    destruct (Ascii.eqb q dquote); [|by (simpl in H; simplify_eq)].
    destruct (scan_string r0) as [[key r1]|] eqn:Hs; simpl in H;
      [|simplify_eq; by eapply scan_string_raises].
    destruct (skip_ws r1) as [|colon r2]; [by (simpl in H; simplify_eq)|].
    destruct (Ascii.eqb colon ":"); [|by (simpl in H; simplify_eq)].
    destruct (scan_once fuel (skip_ws r2)) as [[v r3]|] eqn:Ho; simpl in H;
      [|simplify_eq; by eapply IHo].
    destruct (skip_ws r3) as [|d r4]; [by (simpl in H; simplify_eq)|].
    destruct (Ascii.eqb d "}"); [done|].
    destruct (Ascii.eqb d ","); [|by (simpl in H; simplify_eq)].
    destruct (scan_pairs fuel (skip_ws r4)) as [[items r5]|] eqn:Hp; simpl in H;
      [done|simplify_eq; by eapply IHp].
  - rewrite scan_items_S in H.
    destruct (scan_once fuel s) as [[v r1]|] eqn:Ho; simpl in H;
      [|simplify_eq; by eapply IHo].
    destruct (skip_ws r1) as [|d r2]; [by (simpl in H; simplify_eq)|].
    destruct (Ascii.eqb d "]"); [done|].
    destruct (Ascii.eqb d ","); [|by (simpl in H; simplify_eq)].
    destruct (scan_items fuel (skip_ws r2)) as [[l r3]|] eqn:Hi; simpl in H;
      [done|simplify_eq; by eapply IHi].
Qed.

(** The fuel [json_loads] gives the decoder is enough: more fuel changes
    nothing. *)
Lemma json_loads_fuel s fuel :
  (String.length s < fuel)%nat ->
  scan_once fuel (skip_ws s) = scan_once (S (String.length s)) (skip_ws s).
Proof.
  intros Hf. pose proof (skip_ws_length s) as Hw.
  destruct (scan_once (S (String.length s)) (skip_ws s)) as [[v r]|e] eqn:H1.
  - destruct (proj1 (scan_fuel _) _ _ _ H1) as [_ Hmore]. apply Hmore. lia.
  - destruct (scan_once fuel (skip_ws s)) as [[v r]|e'] eqn:H2.
    + destruct (proj1 (scan_fuel _) _ _ _ H2) as [_ Hmore].
      rewrite Hmore in H1 by lia. done.
    + apply (proj1 (scan_raises _)) in H1, H2. by subst.
Qed.

(** What [json.dumps] writes for the subtasks of the example,
    [json.loads] reads back. *)
Example json_round_trip :
  json_loads (json_dumps (subtasks example_task))
  = Ok (JList (subtask_to_json <$> subtasks example_task)).
Proof. vm_compute. reflexivity. Qed.

(** ** The export *)

Lemma format_line_subtask s :
  format_line (subtask_to_json s) = Ok (Some (spec_subtask_line s)).
Proof. done. Qed.

Lemma mapM_id_Some {A : Type} (l : list A) : mapM id (Some <$> l) = Some l.
Proof.
  induction l as [|x l IH]; [done|]. simpl.
  change (list_fmap A (option A) Some l) with (Some <$> l). by rewrite IH.
Qed.

Lemma for_each_raises {A B : Type} (f : A -> result B) (l : list A) :
  Exists (λ x, ∃ e, f x = Raise e) l -> ∃ e, for_each f l = Raise e.
Proof.
  induction 1 as [x l [e He]|x l _ [e IH]]; simpl.
  - exists e. by rewrite He.
  - destruct (f x); simpl; [|by eexists]. rewrite IH. by eexists.
Qed.

Lemma format_subtasks_well_formed cell subs :
  json_loads cell = Ok (JList (subtask_to_json <$> subs)) ->
  format_subtasks cell = Some (spec_subtasks_cell subs).
Proof.
  intros H. unfold format_subtasks. rewrite H. simpl.
  rewrite (for_each_ok _ (λ v, match format_line v with
                               | Ok o => o
                               | Raise _ => None
                               end)).
  - rewrite <- !list_fmap_compose.
    rewrite (list_fmap_ext _ (Some ∘ spec_subtask_line) subs) by done.
    rewrite list_fmap_compose, mapM_id_Some. done.
  - apply Forall_fmap, Forall_forall. intros s _. simpl.
    by rewrite format_line_subtask.
Qed.

Lemma format_subtasks_raises cell e :
  json_loads cell = Raise e -> format_subtasks cell = Some "[Invalid subtasks]".
Proof. intros H. unfold format_subtasks. by rewrite H. Qed.

Lemma format_subtasks_not_iterable cell v :
  json_loads cell = Ok v -> not_iterable v ->
  format_subtasks cell = Some "[Invalid subtasks]".
Proof. intros H Hv. unfold format_subtasks. rewrite H. by destruct v. Qed.

Lemma format_subtasks_not_dicts cell l :
  json_loads cell = Ok (JList l) -> Exists not_a_dict l ->
  format_subtasks cell = Some "[Invalid subtasks]".
Proof.
  intros H Hl. unfold format_subtasks. rewrite H. simpl.
  destruct (for_each_raises format_line l) as [e ->]; [|done].
  eapply Exists_impl; [exact Hl|]. intros v Hv. exists AttributeError.
  by destruct v.
Qed.

(** C7.  The export has one line for each row of the table, in their
    order, with the project, task, description and status of the row.
    The Subtasks cell of a row depends on that row alone: when its column
    decodes to a list of subtasks, the cell is the lines
    [date_str: title [status]] of these subtasks joined by newlines; when
    the column is malformed (the decoder raises, or the value decoded is
    not a collection, or an element of the list is not an object), the
    cell is "[Invalid subtasks]".  The other rows are exported as if the
    malformed one were not there. *)
Theorem export_rows_isolated db :
  length (export_all_tasks_to_csv db) = length (rows db)
  ∧ ∀ i r, rows db !! i = Some r ->
      ∃ x, export_all_tasks_to_csv db !! i = Some x
           ∧ Project x = col_project r ∧ Task x = col_task r
           ∧ Description x = col_description r ∧ Status x = col_status r
           ∧ Subtasks x = format_subtasks (col_subtasks r)
           ∧ (∀ subs,
                json_loads (col_subtasks r) = Ok (JList (subtask_to_json <$> subs)) ->
                Subtasks x = Some (spec_subtasks_cell subs))
           ∧ (∀ e, json_loads (col_subtasks r) = Raise e ->
                   Subtasks x = Some "[Invalid subtasks]")
           ∧ (∀ v, json_loads (col_subtasks r) = Ok v -> not_iterable v ->
                   Subtasks x = Some "[Invalid subtasks]")
           ∧ (∀ l, json_loads (col_subtasks r) = Ok (JList l) ->
                   Exists not_a_dict l ->
                   Subtasks x = Some "[Invalid subtasks]").
Proof.
  unfold export_all_tasks_to_csv. split; [by rewrite length_fmap|].
  intros i r Hr. eexists. rewrite list_lookup_fmap, Hr. simpl.
  split; [reflexivity|]. simpl. repeat split.
  - apply format_subtasks_well_formed.
  - apply format_subtasks_raises.
  - apply format_subtasks_not_iterable.
  - apply format_subtasks_not_dicts.
Qed.

(** A table whose second row is malformed: the first row is exported with
    its four lines, the second with the marker. *)
Lemma export_example :
  (Subtasks <$> export_all_tasks_to_csv table_with_malformed_row)
  = [ Some ("June 10: step [Not Started]" +:+ String LF
            "June 15: step [Not Started]" +:+ String LF
            "June 15: step [Completed]" +:+ String LF
            "June 10: step [Completed]");
      Some "[Invalid subtasks]" ].
Proof.
  destruct (proj2 (export_rows_isolated table_with_malformed_row) 0%nat _ eq_refl)
    as (x0 & H0 & _ & _ & _ & _ & _ & Hgood & _).
  destruct (proj2 (export_rows_isolated table_with_malformed_row) 1%nat _ eq_refl)
    as (x1 & H1 & _ & _ & _ & _ & _ & _ & Hbad & _).
  specialize (Hgood (subtasks example_task) ltac:(vm_compute; reflexivity)).
  specialize (Hbad JSONDecodeError ltac:(vm_compute; reflexivity)).
  apply list_eq. intros [|[|i]]; rewrite list_lookup_fmap.
  - rewrite H0. simpl. by rewrite Hgood.
  - rewrite H1. simpl. by rewrite Hbad.
  - reflexivity.
Defined.

(** ** Loading the tasks *)

(** One malformed row makes the whole load raise. *)
Lemma load_tasks_raises db r e :
  r ∈ rows db -> json_loads (col_subtasks r) = Raise e ->
  ∃ e', load_tasks_from_db db = Raise e'.
Proof.
  intros Hr He. apply for_each_raises, Exists_exists. exists r. split; [done|].
  exists e. unfold load_row. by rewrite He.
Qed.

(** C8 fails on the code.  On a table of two rows, the second one with a
    subtasks column cut short, [load_tasks_from_db] raises
    [JSONDecodeError]: it gives neither the first task nor the second one
    with an empty list of subtasks, although the first row alone loads.
    The export, on the same table, writes the marker for the second row
    and goes on. *)
Theorem load_aborts_on_malformed_row :
  load_tasks_from_db table_with_malformed_row = Raise JSONDecodeError
  ∧ (∃ t, load_tasks_from_db
            {| rows := take 1 (rows table_with_malformed_row);
               last_rowid := 1 |} = Ok [t])
  ∧ (Subtasks <$> export_all_tasks_to_csv table_with_malformed_row) !! 1%nat
    = Some (Some "[Invalid subtasks]").
Proof.
  split; [vm_compute; reflexivity|]. split; [|vm_compute; reflexivity].
  eexists. vm_compute. reflexivity.
Qed.

(** ** Deleting a task *)

Lemma filter_all {A : Type} (P : A -> Prop) `{!∀ x, Decision (P x)} (l : list A) :
  (∀ x, P x) -> filter P l = l.
Proof.
  intros HP. induction l as [|x l IH]; [done|].
  rewrite filter_cons, decide_True by apply HP. by rewrite IH.
Qed.

(** Without a selection, [filtered] is the session list. *)
Lemma filtered_all (l : list task) :
  filtered "All Projects" "All Tasks" l = imap pair l.
Proof.
  unfold filtered. case_decide; [done|].
  apply filter_all. intros it. by left.
Qed.

(** Of two tasks with the same project and name, the button of the
    second one removes the second one from the session list, where the
    first task with the key would be the first one. *)
Lemma click_delete_removes_clicked_twin :
  click_delete "All Projects" "All Tasks" 1 state_with_twins
  = Some {| db := {| rows := []; last_rowid := 2 |};
            tasks := [twin "first"] |}
  ∧ spec_remove_first "assay" "prepare" (tasks state_with_twins)
    = [twin "second"]
  ∧ [twin "first"] ≠ [twin "second"].
Proof. split; [|split]; [vm_compute; reflexivity..|discriminate]. Qed.

(** C9, amended.  With no selection of project or task, the delete button
    of the task at position [idx] of the session list removes from the
    table every row with the project and name of this task, and no other
    row, and removes from the session list the entry at position [idx],
    and no other entry: other tasks with the same project and name stay in
    the session list. *)
Theorem click_delete_unfiltered idx st (t : task) :
  tasks st !! idx = Some t ->
  click_delete "All Projects" "All Tasks" idx st
  = Some {| db := {| rows := filter (λ r, ¬ where_key (project t) (task_name t) r)
                                    (rows (db st));
                     last_rowid := last_rowid (db st) |};
            tasks := take idx (tasks st) ++ drop (S idx) (tasks st) |}.
Proof.
  intros Ht. unfold click_delete.
  rewrite filtered_all, list_lookup_imap, Ht. simpl.
  by rewrite delete_take_drop.
Qed.

(** The button of the first twin: both rows go, the second twin stays in
    the session list. *)
Lemma click_delete_example :
  click_delete "All Projects" "All Tasks" 0 state_with_twins
  = Some {| db := {| rows := []; last_rowid := 2 |};
            tasks := [twin "second"] |}.
Proof.
  exact (click_delete_unfiltered 0 state_with_twins (twin "first") eq_refl).
Defined.

(** Under a selection the position in [filtered] is not the position in
    the session list: with the project "buffer" selected, the button of
    its task deletes the row of that task and pops the task of the other
    project. *)
Lemma click_delete_under_selection :
  click_delete "buffer" "All Tasks" 0 state_with_two_projects
  = Some {| db := {| rows := [twin_row 1 "first"]; last_rowid := 2 |};
            tasks := [other_task] |}.
Proof. vm_compute. reflexivity. Qed.
(** * Further properties of the code *)

(** ** What [extract_subtasks] returns *)

Lemma findall_from_texts fuel s :
  Forall (λ m, m.2 ≠ EmptyString ∧ occurs LF m.2 = false
               ∧ (starts_unblank m.2 = true ∨ one_blank m.2 = true))
         (findall_from fuel s).
Proof.
  revert s. induction fuel as [|fuel IH]; intros s; simpl; [done|].
  destruct (match_at s) as [[[code t] r]|] eqn:Hm.
  - apply match_at_inv in Hm as (q & _ & _ & _ & _ & Hne & Hnl & _ & Hstart).
    constructor; [done|apply IH].
  - destruct (next_char s) as [[cp s']|]; [apply IH|done].
Qed.

(** X1.  [extract_subtasks] never raises, whatever the description, and
    every subtask it returns has a date code of four decimal digits, of
    any script, which [int] reads as a number from 0 to 9999; it has the
    date string of this code, the status "Not Started", and a title that
    is not empty, has no newline, and starts with a character other than a
    blank unless it is one blank. *)
Theorem extract_subtasks_shape description :
  ∃ subs,
    extract_subtasks description = Ok subs
    ∧ Forall (λ s, decimal_date_code (date_code s) = true
                   ∧ (∃ n, py_int (date_code s) = Ok n ∧ 0 <= n <= 9999)
                   ∧ format_date_code (date_code s) = Ok (date_str s)
                   ∧ status s = "Not Started"
                   ∧ title s ≠ EmptyString ∧ occurs LF (title s) = false
                   ∧ (starts_unblank (title s) = true
                      ∨ one_blank (title s) = true)) subs.
Proof.
  eexists. split; [apply extract_subtasks_ok|].
  apply Forall_fmap, Forall_forall. intros m Hm.
  pose proof (proj1 (Forall_forall _ _) (findall_from_codes _ _) m Hm) as Hcode.
  pose proof (proj1 (Forall_forall _ _) (findall_from_texts _ _) m Hm)
    as (Hne & Hnl & Hstart).
  simpl in *. split; [done|]. split; [by apply py_int_date_code|].
  split; [by apply format_date_code_total|]. done.
Qed.

Lemma findall_from_count fuel s :
  (6 * length (findall_from fuel s) <= String.length s)%nat.
Proof.
  revert s. induction fuel as [|fuel IH]; intros s; simpl; [lia|].
  destruct (match_at s) as [[[code t] r]|] eqn:Hm.
  - apply match_at_six in Hm. specialize (IH r). simpl in *. lia.
  - destruct (next_char s) as [[cp s']|] eqn:Hn; [|simpl; lia].
    apply next_char_length in Hn. specialize (IH s'). lia.
Qed.

Lemma match_at_colon s m : match_at s = Some m -> occurs ":" s = true.
Proof.
  destruct m as [[code t] r]. intros (q & -> & _)%match_at_inv.
  rewrite occurs_app. simpl. by rewrite orb_true_r.
Qed.

Lemma findall_from_no_colon fuel s :
  occurs ":" s = false -> findall_from fuel s = [].
Proof.
  revert s. induction fuel as [|fuel IH]; intros s Hs; simpl; [done|].
  destruct (match_at s) as [m|] eqn:Hm.
  - apply match_at_colon in Hm. congruence.
  - destruct (next_char s) as [[cp s']|] eqn:Hn; [|done].
    apply next_char_suffix in Hn as (p & -> & _). apply IH.
    rewrite occurs_app in Hs. by apply orb_false_iff in Hs as [_ ?].
Qed.

(** X2.  A description gives at most one subtask for every six of its
    characters, and none when it has no colon; the empty description gives
    none. *)
Theorem extract_subtasks_few description :
  ∃ subs,
    extract_subtasks description = Ok subs
    ∧ (6 * length subs <= String.length description)%nat
    ∧ (occurs ":" description = false -> subs = []).
Proof.
  eexists. split; [apply extract_subtasks_ok|]. split.
  - rewrite length_fmap. apply findall_from_count.
  - intros H. unfold findall. by rewrite findall_from_no_colon.
Qed.

Lemma extract_subtasks_few_example :
  extract_subtasks "buy reagents, then wait" = Ok [].
Proof.
  destruct (extract_subtasks_few "buy reagents, then wait") as (subs & -> & _ & H).
  by rewrite (H eq_refl).
Defined.

(** ** Descriptions written one coded line per line *)

Lemma findall_newline s : findall (String LF s) = findall s.
Proof.
  rewrite findall_step.
  assert (match_at (String LF s) = None) as ->.
  { unfold match_at. rewrite next_char_ascii by (vm_compute; reflexivity).
    cbn [mbind option_bind]. change (uni_digit (N_of_ascii LF)) with false.
    by repeat (destruct (next_char _) as [[? ?]|]; cbn [mbind option_bind]). }
  by rewrite next_char_ascii by (vm_compute; reflexivity).
Qed.

Lemma findall_coded_description ms :
  Forall (λ m, is_date_code m.1 = true ∧ line_text m.2 = true) ms ->
  findall (coded_description ms) = ms.
Proof.
  unfold coded_description. induction 1 as [|[code text] ms [Hc Ht] Hms IH].
  - done.
  - simpl in Hc, Ht. apply andb_true_iff in Ht as [Hs Ht%negb_true_iff].
    assert (∀ post, ends_line post = true ->
              findall (coded_line (code, text) +:+ post)
              = (code, text) :: findall post) as Hline.
    { intros post Hp. rewrite findall_step. unfold coded_line. simpl.
      rewrite !append_assoc.
      by rewrite (match_at_coded_line code text post Hc Hs Ht Hp). }
    destruct ms as [|m ms'].
    + simpl. rewrite <- (append_nil_r (coded_line (code, text))).
      by rewrite Hline.
    + change (join (String LF EmptyString) (coded_line <$> (code, text) :: m :: ms'))
        with (coded_line (code, text)
              +:+ String LF (join (String LF EmptyString) (coded_line <$> m :: ms'))).
      rewrite Hline by done. by rewrite findall_newline, IH.
Qed.

(** X3.  A description written as lines "MMDD: text", each with a code of
    four ASCII digits and a text that starts with a character other than a
    blank (of any script) and has no newline, gives exactly one subtask per
    line, in the order of the lines, with the code of the line, its text as
    title and the status "Not Started". *)
Theorem extract_coded_description ms :
  Forall (λ m, is_date_code m.1 = true ∧ line_text m.2 = true) ms ->
  extract_subtasks (coded_description ms) = Ok (spec_subtask <$> ms).
Proof.
  intros H. rewrite extract_subtasks_ok, findall_coded_description by done.
  f_equal. apply Forall_fmap_ext. eapply Forall_impl; [exact H|].
  intros m [Hm _]. by apply subtask_of_match_spec.
Qed.

Lemma extract_coded_description_example :
  extract_subtasks ("0305: weigh 2 g" +:+ String LF "0229: incubate: 37 C")
  = Ok [ {| date_code := "0305"; date_str := "March 05";
            title := "weigh 2 g"; status := "Not Started" |};
         {| date_code := "0229"; date_str := "Invalid date (0229)";
            title := "incubate: 37 C"; status := "Not Started" |} ].
Proof.
  apply (extract_coded_description
           [("0305", "weigh 2 g"); ("0229", "incubate: 37 C")]).
  repeat constructor.
Defined.

(** ** Invariants of the runs *)

Lemma extract_subtasks_codes d subs :
  extract_subtasks d = Ok subs ->
  Forall (λ s, decimal_date_code (date_code s) = true) subs.
Proof.
  rewrite extract_subtasks_ok. intros; simplify_eq.
  apply Forall_fmap. eapply Forall_impl; [apply findall_from_codes|]. done.
Qed.

Lemma alter_status_codes st k subs :
  Forall (λ s, is_date_code (date_code s) = true) subs ->
  Forall (λ s, is_date_code (date_code s) = true) (alter (set_status st) k subs).
Proof. intros H. apply Forall_alter; [done|]. by intros s _ Hs. Qed.

Lemma date_codes_ok_insert (l : list task) i (t : task) :
  date_codes_ok l ->
  Forall (λ s, is_date_code (date_code s) = true) (subtasks t) ->
  date_codes_ok (<[i := t]> l).
Proof. intros Hl Ht. by apply Forall_insert. Qed.

Lemma date_codes_ok_lookup (l : list task) i (t : task) :
  date_codes_ok l -> l !! i = Some t ->
  Forall (λ s, is_date_code (date_code s) = true) (subtasks t).
Proof. intros Hl Hi. by apply (Forall_lookup_1 _ _ _ _ Hl Hi). Qed.

Lemma date_codes_ok_numeric tasks : date_codes_ok tasks -> numeric_codes tasks.
Proof.
  intros H. eapply Forall_impl; [exact H|]. intros t Ht.
  eapply Forall_impl; [exact Ht|]. intros s. apply date_code_decimal.
Qed.

Lemma alter_status_decimal st k subs :
  Forall (λ s, decimal_date_code (date_code s) = true) subs ->
  Forall (λ s, decimal_date_code (date_code s) = true)
         (alter (set_status st) k subs).
Proof. intros H. apply Forall_alter; [done|]. by intros s _ Hs. Qed.

(** Each handler keeps the date codes of the session list in order. *)
Lemma step_date_codes st e :
  decimal_codes_ok (tasks st) -> decimal_codes_ok (tasks (step st e)).
Proof.
  intros H. destruct e as [p t d s|p q idx sub_idx|p q idx|p q idx new_desc
                           |now idx sub_idx]; simpl.
  - unfold save_task. destruct (truthy p && truthy t); [|done].
    destruct (extract_subtasks d) as [subs|] eqn:Hd; simpl; [|done].
    apply Forall_app. split; [done|]. constructor; [|done]. simpl.
    by apply extract_subtasks_codes in Hd.
  - unfold click_complete.
    destruct (filtered p q (tasks st) !! idx) as [[ref t]|] eqn:Hf; simpl; [|done].
    destruct (subtasks t !! sub_idx); simpl; [|done].
    apply Forall_insert; [done|]. simpl. apply alter_status_decimal.
    apply (Forall_lookup_1 _ _ _ _ H (filtered_lookup _ _ _ _ _ _ Hf)).
  - unfold click_delete.
    destruct (filtered p q (tasks st) !! idx) as [[ref t]|]; simpl; [|done].
    by apply Forall_delete.
  - unfold save_changes.
    destruct (filtered p q (tasks st) !! idx) as [[ref t]|]; simpl; [|done].
    destruct (extract_subtasks new_desc) as [subs|] eqn:Hd; simpl; [|done].
    apply Forall_insert; [done|]. simpl.
    by apply extract_subtasks_codes in Hd.
  - unfold click_complete_today.
    destruct (py_int (strftime_md now)) as [n|]; simpl; [|done].
    destruct (for_each (daily_task n) (take idx (tasks st))); simpl; [|done].
    destruct (tasks st !! idx) as [t|] eqn:Ht; [|done].
    destruct (for_each (daily_subtask n t) (take sub_idx (subtasks t)));
      simpl; [|done].
    destruct (subtasks t !! sub_idx) as [s|]; [|done].
    destruct (daily_subtask n t s) as [[x|]|]; simpl; try done.
    destruct (bool_decide (status s ≠ "Completed")); [|done]. simpl.
    apply Forall_insert; [done|]. simpl. apply alter_status_decimal.
    apply (Forall_lookup_1 _ _ _ _ H Ht).
Qed.

Lemma run_date_codes st events :
  decimal_codes_ok (tasks st) -> decimal_codes_ok (tasks (run st events)).
Proof.
  revert st. induction events as [|e events IH]; intros st H; [done|].
  apply IH, step_date_codes, H.
Qed.

Lemma for_each_total {A B : Type} (f : A -> result B) (l : list A) :
  Forall (λ x, ∃ y, f x = Ok y) l -> ∃ ys, for_each f l = Ok ys.
Proof.
  induction 1 as [|x l [y Hy] _ [ys IH]]; simpl; [by eexists|].
  rewrite Hy, IH. by eexists.
Qed.

(** On date codes of four decimal digits the Daily Tasks page runs to
    its end. *)
Lemma daily_tasks_total now tasks :
  wall_clock now -> decimal_codes_ok tasks ->
  ∃ view, daily_tasks now tasks = Ok view.
Proof.
  intros Hnow Hcodes. unfold daily_tasks.
  rewrite (today_num_value now Hnow). cbn [mbind result_bind].
  destruct (for_each_total (daily_task (100 * month now + day now)) tasks)
    as [ls ->]; [|by eexists].
  eapply Forall_impl; [exact Hcodes|]. intros t Ht. unfold daily_task.
  destruct (for_each_total
              (daily_subtask (100 * month now + day now) t) (subtasks t))
    as [l ->]; [|by eexists].
  eapply Forall_impl; [exact Ht|]. intros s Hs.
  destruct (py_int_date_code _ Hs) as (n & Hn & _).
  unfold daily_subtask. rewrite Hn. cbn [mbind result_bind].
  repeat case_match; by eexists.
Qed.

(** X4.  Whatever the user does from an empty installation (saving tasks,
    completing subtasks on either page, deleting tasks, saving edited
    descriptions, in any order and under any selection), every subtask of
    the session list keeps a date code of four decimal digits, of any
    script; so, on every clock date, neither the Daily Tasks page nor the
    dashboard raises on a date code. *)
Theorem pages_never_raise events now :
  wall_clock now ->
  decimal_codes_ok (tasks (run empty_state events))
  ∧ ∃ view m,
      daily_tasks now (tasks (run empty_state events)) = Ok view
      ∧ dashboard now (tasks (run empty_state events)) = Ok m.
Proof.
  intros Hnow.
  assert (decimal_codes_ok (tasks (run empty_state events))) as Hcodes
    by (apply run_date_codes; constructor).
  split; [done|].
  destruct (daily_tasks_total now _ Hnow Hcodes) as [view Hd].
  eexists _, _. split; [exact Hd|]. by rewrite dashboard_daily, Hd.
Qed.

(** A task saved with a date code in Arabic-Indic digits: on the
    fifteenth of June its subtask, of the fifth of March, is overdue. *)
Lemma pages_never_raise_example :
  ∃ view m,
    daily_tasks june_15 (tasks (run empty_state run_with_scripts)) = Ok view
    ∧ dashboard june_15 (tasks (run empty_state run_with_scripts)) = Ok m
    ∧ overdue_count m = 1.
Proof.
  destruct (pages_never_raise run_with_scripts june_15)
    as (_ & view & m & Hview & Hm).
  - unfold wall_clock, june_15; simpl; lia.
  - exists view, m. split; [done|]. split; [done|].
    vm_compute in Hm. by injection Hm as <-.
Defined.

(** ** Rowids *)

Lemma rowids_ok_insert p t d s subs db :
  rowids_ok db -> rowids_ok (sql_insert p t d s subs db).
Proof.
  intros [Hnd Hle]. unfold rowids_ok, sql_insert. simpl. split.
  - rewrite fmap_app. simpl. apply NoDup_app. split; [done|]. split.
    + intros x Hx Hx'. apply list_elem_of_singleton in Hx'. subst x.
      apply list_elem_of_fmap in Hx as (r & Hr & Hin).
      apply (proj1 (Forall_forall _ _) Hle) in Hin. lia.
    + apply NoDup_singleton.
  - apply Forall_app. split.
    + eapply Forall_impl; [exact Hle|]. intros r ?. simpl in *. lia.
    + constructor; [simpl; lia|done].
Qed.

Lemma rowids_ok_fmap (f : row -> row) db :
  (∀ r, col_id (f r) = col_id r) -> rowids_ok db ->
  rowids_ok {| rows := f <$> rows db; last_rowid := last_rowid db |}.
Proof.
  intros Hf [Hnd Hle]. unfold rowids_ok. simpl. split.
  - rewrite <- list_fmap_compose.
    by rewrite (list_fmap_ext (col_id ∘ f) col_id (rows db))
      by (intros; simpl; apply Hf).
  - apply Forall_fmap. eapply Forall_impl; [exact Hle|].
    intros r ?. simpl. by rewrite Hf.
Qed.

Lemma rowids_ok_delete p t db : rowids_ok db -> rowids_ok (sql_delete p t db).
Proof.
  intros [Hnd Hle]. unfold rowids_ok, sql_delete. simpl. split.
  - eapply sublist_NoDup; [exact Hnd|]. apply fmap_sublist, sublist_filter.
  - apply Forall_forall. intros r [_ Hr]%list_elem_of_filter.
    by apply (proj1 (Forall_forall _ _) Hle).
Qed.

Lemma rowids_ok_update_subtasks subs p t db :
  rowids_ok db -> rowids_ok (sql_update_subtasks subs p t db).
Proof. apply rowids_ok_fmap. intros r. by case_decide. Qed.

Lemma rowids_ok_update_description d subs p t db :
  rowids_ok db -> rowids_ok (sql_update_description d subs p t db).
Proof. apply rowids_ok_fmap. intros r. by case_decide. Qed.

Lemma step_rowids st e :
  rowids_ok (db st) ->
  rowids_ok (db (step st e)) ∧ last_rowid (db st) <= last_rowid (db (step st e)).
Proof.
  intros H. destruct e as [p t d s|p q idx sub_idx|p q idx|p q idx new_desc
                           |now idx sub_idx]; simpl.
  - unfold save_task. destruct (truthy p && truthy t); [|by split].
    destruct (extract_subtasks d) as [subs|]; simpl; [|by split].
    split; [by apply rowids_ok_insert|lia].
  - unfold click_complete.
    destruct (filtered p q (tasks st) !! idx) as [[ref t]|]; simpl; [|by split].
    destruct (subtasks t !! sub_idx); simpl; [|by split].
    split; [by apply rowids_ok_update_subtasks|done].
  - unfold click_delete.
    destruct (filtered p q (tasks st) !! idx) as [[ref t]|]; simpl; [|by split].
    split; [by apply rowids_ok_delete|done].
  - unfold save_changes.
    destruct (filtered p q (tasks st) !! idx) as [[ref t]|]; simpl; [|by split].
    destruct (extract_subtasks new_desc) as [subs|]; simpl; [|by split].
    split; [by apply rowids_ok_update_description|done].
  - unfold click_complete_today.
    destruct (py_int (strftime_md now)) as [n|]; simpl; [|by split].
    destruct (for_each (daily_task n) (take idx (tasks st))); simpl; [|by split].
    destruct (tasks st !! idx) as [t|] eqn:Ht; [|by split].
    destruct (for_each (daily_subtask n t) (take sub_idx (subtasks t)));
      simpl; [|by split].
    destruct (subtasks t !! sub_idx) as [s|]; [|by split].
    destruct (daily_subtask n t s) as [[x|]|]; simpl; try by split.
    destruct (bool_decide (status s ≠ "Completed")); [|by split]. simpl.
    split; [by apply rowids_ok_update_subtasks|done].
Qed.

(** X5.  Rowids are never given twice: from a table whose rowids differ
    and are at most [last_rowid], any run of the handlers leads to such a
    table, and [last_rowid] never goes down, also when the last row is
    deleted; a task saved after that gets a rowid above every rowid given
    before. *)
Theorem rowids_never_reused st events :
  rowids_ok (db st) ->
  rowids_ok (db (run st events))
  ∧ last_rowid (db st) <= last_rowid (db (run st events))
  ∧ ∀ p t d s st' n,
      save_task p t d s (run st events) = Ok (st', n) ->
      ∀ r, r ∈ rows (db st') ->
           r ∈ rows (db (run st events)) ∨ last_rowid (db st) < col_id r.
Proof.
  intros H.
  assert (rowids_ok (db (run st events))
          ∧ last_rowid (db st) <= last_rowid (db (run st events))) as [Hok Hle].
  { revert st H. induction events as [|e events IH]; intros st H; [by split|].
    destruct (step_rowids st e H) as [H1 H2].
    destruct (IH _ H1) as [H3 H4]. split; [done|]. simpl. lia. }
  split; [done|]. split; [done|].
  intros p t d s st' n Hsave r Hr. unfold save_task in Hsave.
  destruct (truthy p && truthy t); [|simplify_eq; by left].
  destruct (extract_subtasks d) as [subs|]; simpl in Hsave; [|done].
  simplify_eq. simpl in Hr. apply elem_of_app in Hr as [Hr|Hr]; [by left|].
  apply list_elem_of_singleton in Hr. subst r. right. simpl. lia.
Qed.

Lemma rowids_never_reused_example :
  rowids_ok (db (run empty_state example_run))
  ∧ last_rowid (db (run empty_state example_run)) = 2
  ∧ (col_id <$> rows (db (run empty_state example_run))) = [].
Proof.
  destruct (rowids_never_reused empty_state example_run) as (Hok & _ & _).
  - split; [constructor|constructor].
  - split; [exact Hok|]. split; vm_compute; reflexivity.
Defined.

(** ** The session list as a mirror of the table *)

Lemma in_sync_insert_key st ref (t t' : task) (f : row -> row) :
  in_sync st -> unique_keys (tasks st) -> tasks st !! ref = Some t ->
  task_key t' = task_key t ->
  (∀ r, row_mirrors r t -> row_mirrors (f r) t') ->
  in_sync {| db := {| rows := (λ r, if decide (where_key (project t) (task_name t) r)
                                    then f r else r) <$> rows (db st);
                      last_rowid := last_rowid (db st) |};
             tasks := <[ref := t']> (tasks st) |}
  ∧ unique_keys (<[ref := t']> (tasks st)).
Proof.
  intros Hsync Hkeys Href Hkey Hf. split.
  - unfold in_sync in *. simpl.
    apply Forall2_same_length_lookup in Hsync as [Hlen Hsync].
    apply Forall2_same_length_lookup. split.
    { by rewrite length_fmap, length_insert. }
    intros i r' y Hr' Hy. rewrite list_lookup_fmap in Hr'.
    destruct (rows (db st) !! i) as [r|] eqn:Hr; simplify_eq/=.
    destruct (decide (i = ref)) as [->|Hne].
    + rewrite list_lookup_insert_eq in Hy by (by eapply lookup_lt_Some).
      simplify_eq. pose proof (Hsync _ _ _ Hr Href) as Hm.
      rewrite decide_True; [by apply Hf|].
      destruct Hm as (? & ? & _). by split.
    + rewrite list_lookup_insert_ne in Hy by done.
      pose proof (Hsync _ _ _ Hr Hy) as Hm.
      rewrite decide_False; [done|]. intros [Hp Ht].
      destruct Hm as (Hp' & Ht' & _). apply Hne.
      eapply (NoDup_lookup _ _ _ _ Hkeys).
      * by rewrite list_lookup_fmap, Hy.
      * rewrite list_lookup_fmap, Href. simpl. unfold task_key. congruence.
  - unfold unique_keys in *. rewrite list_fmap_insert, Hkey.
    rewrite list_insert_id; [done|]. by rewrite list_lookup_fmap, Href.
Qed.

Lemma filter_Forall {A : Type} (P : A -> Prop) `{!∀ x, Decision (P x)} (l : list A) :
  Forall P l -> filter P l = l.
Proof.
  induction 1 as [|x l Hx _ IH]; [done|]. by rewrite filter_cons, decide_True, IH.
Qed.

Lemma in_sync_delete st idx (t : task) :
  in_sync st -> unique_keys (tasks st) -> tasks st !! idx = Some t ->
  in_sync {| db := sql_delete (project t) (task_name t) (db st);
             tasks := delete idx (tasks st) |}
  ∧ unique_keys (delete idx (tasks st)).
Proof.
  intros Hsync Hkeys Hidx. split.
  - unfold in_sync in *. simpl.
    pose proof (Forall2_length _ _ _ Hsync) as Hlen.
    destruct (lookup_lt_is_Some_2 (rows (db st)) idx) as [r Hr].
    { rewrite Hlen. by eapply lookup_lt_Some. }
    assert (∀ i r' y, i ≠ idx -> rows (db st) !! i = Some r' ->
                      tasks st !! i = Some y ->
                      ¬ where_key (project t) (task_name t) r') as Hother.
    { intros i r' y Hne Hr' Hy [Hp Ht].
      destruct (Forall2_lookup_lr _ _ _ _ _ _ Hsync Hr' Hy) as (Hp' & Ht' & _).
      apply Hne. eapply (NoDup_lookup _ _ _ _ Hkeys).
      - by rewrite list_lookup_fmap, Hy.
      - rewrite list_lookup_fmap, Hidx. simpl. unfold task_key. congruence. }
    rewrite <- (take_drop_middle _ _ _ Hr), filter_app, filter_cons.
    rewrite decide_False.
    2: { intros Hnot. apply Hnot.
         destruct (Forall2_lookup_lr _ _ _ _ _ _ Hsync Hr Hidx) as (? & ? & _).
         by split. }
    rewrite !filter_Forall.
    + rewrite delete_take_drop. apply Forall2_app.
      * by apply Forall2_take.
      * by apply Forall2_drop.
    + apply Forall_forall. intros r' Hin.
      apply list_elem_of_lookup in Hin as [j Hj]. rewrite lookup_drop in Hj.
      destruct (lookup_lt_is_Some_2 (tasks st) (S idx + j)) as [y Hy].
      { rewrite <- Hlen. by eapply lookup_lt_Some. }
      eapply (Hother (S idx + j)%nat); [lia|done..].
    + apply Forall_forall. intros r' Hin.
      apply list_elem_of_lookup in Hin as [j Hj].
      pose proof (lookup_lt_Some _ _ _ Hj) as Hlt. rewrite length_take in Hlt.
      rewrite lookup_take_lt in Hj by lia.
      destruct (lookup_lt_is_Some_2 (tasks st) j) as [y Hy].
      { rewrite <- Hlen. by eapply lookup_lt_Some. }
      eapply (Hother j); [lia|done..].
  - unfold unique_keys in *.
    eapply sublist_NoDup; [exact Hkeys|]. apply fmap_sublist, sublist_delete.
Qed.

(** X6.  Saving a task keeps the session list a mirror of the table,
    whether the task is saved or the warning is given, and also when the
    key is already in use. *)
Theorem save_task_keeps_sync p t d s st st' n :
  in_sync st -> save_task p t d s st = Ok (st', n) -> in_sync st'.
Proof.
  intros Hsync Hsave. unfold save_task in Hsave.
  destruct (truthy p && truthy t); [|by simplify_eq].
  destruct (extract_subtasks d) as [subs|]; simpl in Hsave; [|done].
  simplify_eq. unfold in_sync in *. simpl.
  apply Forall2_app; [done|]. constructor; [|done]. by repeat split.
Qed.

Lemma save_task_keeps_sync_example :
  ∃ st' n,
    save_task "assay" "prepare" "0610: thaw" "Not Started" state_with_example
    = Ok (st', n)
    ∧ in_sync st' ∧ ¬ unique_keys (tasks st').
Proof.
  eexists _, _. split; [vm_compute; reflexivity|]. split.
  - eapply (save_task_keeps_sync "assay" "prepare" "0610: thaw" "Not Started"
              state_with_example).
    + repeat constructor.
    + vm_compute; reflexivity.
  - intros H. apply NoDup_cons in H as [H _]. apply H. left.
Defined.

(** X7.  When the session list mirrors the table and no two of its tasks
    have the same project and name, it still does so after any handler,
    provided that a task is saved under a key not in use and that a delete
    button is pressed where the filtered list and the session list agree on
    the position of the task (as they do with no selection). *)
Theorem step_keeps_mirror st e :
  in_sync st -> unique_keys (tasks st) -> careful st e ->
  in_sync (step st e) ∧ unique_keys (tasks (step st e)).
Proof.
  intros Hsync Hkeys Hcare.
  destruct e as [p t d s|p q idx sub_idx|p q idx|p q idx new_desc
                 |now idx sub_idx]; simpl in *.
  - destruct (save_task p t d s st) as [[st' n]|] eqn:Hsave; [|done].
    split; [by eapply save_task_keeps_sync|].
    unfold save_task in Hsave. destruct (truthy p && truthy t); [|by simplify_eq].
    destruct (extract_subtasks d) as [subs|]; simpl in Hsave; [|done].
    simplify_eq. unfold unique_keys in *. simpl. rewrite fmap_app.
    apply NoDup_app. split; [done|]. split; [|apply NoDup_singleton].
    intros x Hx Hx'%list_elem_of_singleton. by subst x.
  - unfold click_complete.
    destruct (filtered p q (tasks st) !! idx) as [[ref t]|] eqn:Hf; simpl; [|done].
    destruct (subtasks t !! sub_idx); simpl; [|done].
    apply (in_sync_insert_key st ref t _ (set_col_subtasks _)); try done.
    + by eapply filtered_lookup.
    + intros r (? & ? & ? & ? & _). by repeat split.
  - unfold click_delete.
    destruct (filtered p q (tasks st) !! idx) as [[ref t]|] eqn:Hf; simpl; [|done].
    pose proof (Hcare _ _ eq_refl) as ->.
    apply in_sync_delete; try done. by eapply filtered_lookup.
  - unfold save_changes.
    destruct (filtered p q (tasks st) !! idx) as [[ref t]|] eqn:Hf; simpl; [|done].
    destruct (extract_subtasks new_desc) as [subs|]; simpl; [|done].
    apply (in_sync_insert_key st ref t (set_description new_desc subs t)
             (λ r, {| col_id := col_id r; col_project := col_project r;
                      col_task := col_task r; col_description := new_desc;
                      col_status := col_status r;
                      col_subtasks := json_dumps subs |})); try done.
    + by eapply filtered_lookup.
    + intros r (? & ? & ? & ? & _). by repeat split.
  - unfold click_complete_today.
    destruct (py_int (strftime_md now)) as [n|]; simpl; [|done].
    destruct (for_each (daily_task n) (take idx (tasks st))); simpl; [|done].
    destruct (tasks st !! idx) as [t|] eqn:Ht; [|done].
    destruct (for_each (daily_subtask n t) (take sub_idx (subtasks t)));
      simpl; [|done].
    destruct (subtasks t !! sub_idx) as [s|]; [|done].
    destruct (daily_subtask n t s) as [[x|]|]; simpl; try done.
    destruct (bool_decide (status s ≠ "Completed")); [|done]. simpl.
    apply (in_sync_insert_key st idx t _ (set_col_subtasks _)); try done.
    intros r (? & ? & ? & ? & _). by repeat split.
Qed.

Lemma step_keeps_mirror_example :
  in_sync (step state_with_example (CompleteToday june_15 0 0))
  ∧ unique_keys (tasks (step state_with_example (CompleteToday june_15 0 0))).
Proof.
  apply (step_keeps_mirror state_with_example (CompleteToday june_15 0 0)).
  - repeat constructor.
  - apply NoDup_singleton.
  - exact I.
Defined.

(** ** Saving and deleting *)

(** X8.  A task saved under a project and a name that no stored row has,
    and deleted at once with no selection, leaves the session list and the
    rows of the table as they were before it was saved; only [last_rowid]
    has moved, by one. *)
Theorem save_then_delete p t d s st :
  p ≠ EmptyString -> t ≠ EmptyString ->
  Forall (λ r, ¬ where_key p t r) (rows (db st)) ->
  ∃ st1 n,
    save_task p t d s st = Ok (st1, n)
    ∧ click_delete "All Projects" "All Tasks" (length (tasks st)) st1
      = Some {| db := {| rows := rows (db st);
                         last_rowid := last_rowid (db st) + 1 |};
                tasks := tasks st |}.
Proof.
  intros Hp%truthy_iff Ht%truthy_iff Hrows.
  unfold save_task. rewrite Hp, Ht, extract_subtasks_ok. simpl.
  eexists _, _. split; [reflexivity|].
  unfold click_delete. rewrite filtered_all, list_lookup_imap. simpl.
  rewrite lookup_app_r, Nat.sub_diag by done. simpl.
  rewrite delete_take_drop, take_app_length, drop_app_ge by lia.
  replace (S (length (tasks st)) - length (tasks st))%nat with 1%nat by lia.
  simpl. rewrite app_nil_r. unfold sql_delete. simpl.
  rewrite filter_app, (filter_Forall _ _ Hrows), filter_cons, decide_False.
  - by rewrite filter_nil, app_nil_r.
  - intros H. by apply H.
Qed.

Lemma save_then_delete_example :
  ∃ st1 n,
    save_task "buffer" "mix" "0701: stir" "Not Started" state_with_example
    = Ok (st1, n)
    ∧ click_delete "All Projects" "All Tasks" 1 st1
      = Some {| db := {| rows := rows (db state_with_example); last_rowid := 2 |};
                tasks := tasks state_with_example |}.
Proof.
  apply (save_then_delete "buffer" "mix" "0701: stir" "Not Started"
           state_with_example); [done|done|].
  repeat constructor. intros [H _]. discriminate H.
Defined.

(** ** Editing a description *)

Lemma extract_subtasks_not_started d subs :
  extract_subtasks d = Ok subs -> Forall (λ s, status s = "Not Started") subs.
Proof.
  rewrite extract_subtasks_ok. intros; simplify_eq.
  apply Forall_fmap, Forall_forall. done.
Qed.

(** X9.  "Save Changes" never raises.  It gives the task the new
    description and the subtasks extracted from it, all "Not Started":
    what was completed before is forgotten, also when the description is
    the old one.  The other tasks of the session list stay as they are;
    in the table, the rows with the project and name of the task get the
    new description and subtasks, the other rows stay as they are. *)
Theorem save_changes_resets p q idx new_desc st ref (t : task) :
  filtered p q (tasks st) !! idx = Some (ref, t) ->
  ∃ subs st',
    extract_subtasks new_desc = Ok subs
    ∧ save_changes p q idx new_desc st = Some (Ok st')
    ∧ tasks st' !! ref = Some (set_description new_desc subs t)
    ∧ Forall (λ s, status s = "Not Started") subs
    ∧ length (tasks st') = length (tasks st)
    ∧ (∀ i, i ≠ ref -> tasks st' !! i = tasks st !! i)
    ∧ length (rows (db st')) = length (rows (db st))
    ∧ ∀ i r, rows (db st) !! i = Some r ->
        ∃ r', rows (db st') !! i = Some r'
              ∧ if decide (where_key (project t) (task_name t) r)
                then col_description r' = new_desc
                     ∧ col_subtasks r' = json_dumps subs
                     ∧ col_id r' = col_id r ∧ col_status r' = col_status r
                     ∧ where_key (project t) (task_name t) r'
                else r' = r.
Proof.
  intros Hf. pose proof (filtered_lookup _ _ _ _ _ _ Hf) as Href.
  exists (subtask_of_match <$> findall new_desc). eexists.
  split; [apply extract_subtasks_ok|].
  unfold save_changes. rewrite Hf. simpl. rewrite extract_subtasks_ok. simpl.
  split; [reflexivity|]. simpl. repeat split.
  - apply list_lookup_insert_eq. by eapply lookup_lt_Some.
  - eapply extract_subtasks_not_started, extract_subtasks_ok.
  - by rewrite length_insert.
  - intros i Hi. by rewrite list_lookup_insert_ne.
  - by rewrite length_fmap.
  - intros i r Hr. eexists. rewrite list_lookup_fmap, Hr. simpl.
    split; [reflexivity|]. by case_decide.
Qed.

(** Two subtasks of the example task are completed and its description is
    empty: saving the description again, unchanged, leaves the task without
    subtasks. *)
Lemma save_changes_resets_example :
  ∃ subs st',
    extract_subtasks EmptyString = Ok subs
    ∧ save_changes "All Projects" "All Tasks" 0 EmptyString state_with_example
      = Some (Ok st')
    ∧ tasks st' !! 0%nat = Some (set_description EmptyString subs example_task)
    ∧ subs = [].
Proof.
  destruct (save_changes_resets "All Projects" "All Tasks" 0 EmptyString
              state_with_example 0 example_task eq_refl)
    as (subs & st' & Hsubs & Hsave & Htask & _).
  exists subs, st'. repeat split; try done.
  vm_compute in Hsubs. congruence.
Defined.

(** X10.  The edit area follows the flag of its position: "Save Changes"
    is on the page only after the edit button of that position has been
    pressed; pressed, it saves and lowers the flag, so that it is no longer
    on the page until the edit button is pressed again. *)
Theorem edit_mode_protocol p q idx new_desc s ref (t : task) :
  filtered p q (tasks (app s)) !! idx = Some (ref, t) ->
  (edit_mode s !! idx = None ->
   click_save_changes p q idx new_desc s = None)
  ∧ ∃ s1 s2,
      click_edit p q idx s = Some s1
      ∧ click_save_changes p q idx new_desc s1 = Some (Ok s2)
      ∧ save_changes p q idx new_desc (app s) = Some (Ok (app s2))
      ∧ edit_mode s2 !! idx = Some false
      ∧ ∀ new_desc', click_save_changes p q idx new_desc' s2 = None.
Proof.
  intros Hf. split.
  - intros Hnone. unfold click_save_changes. by rewrite Hnone.
  - destruct (save_changes_resets p q idx new_desc (app s) ref t Hf)
      as (subs & st' & _ & Hsave & _).
    unfold click_edit. rewrite Hf. simpl. eexists _, _. split; [reflexivity|].
    unfold click_save_changes. simpl. rewrite lookup_insert_eq. simpl.
    rewrite Hsave. simpl. split; [reflexivity|]. simpl.
    split; [done|]. split; [by rewrite lookup_insert_eq|].
    intros new_desc'. by rewrite lookup_insert_eq.
Qed.

Lemma edit_mode_protocol_example :
  click_save_changes "All Projects" "All Tasks" 0 "0701: repeat"
    session_with_example = None
  ∧ ∃ s1 s2,
      click_edit "All Projects" "All Tasks" 0 session_with_example = Some s1
      ∧ click_save_changes "All Projects" "All Tasks" 0 "0701: repeat" s1
        = Some (Ok s2)
      ∧ edit_mode s2 !! 0%nat = Some false.
Proof.
  destruct (edit_mode_protocol "All Projects" "All Tasks" 0 "0701: repeat"
              session_with_example 0 example_task eq_refl)
    as [Hnone (s1 & s2 & Hedit & Hsave & _ & Hflag & _)].
  split; [by apply Hnone|]. by exists s1, s2.
Defined.

(** ** The button of the Daily Tasks page *)

Lemma class_count_app code c l1 l2 :
  class_count code c (l1 ++ l2)%list = class_count code c l1 + class_count code c l2.
Proof. unfold class_count. rewrite filter_app, length_app. lia. Qed.

Lemma class_count_cons code c s l :
  class_count code c (s :: l)
  = (if decide (entry_class code s = Some c) then 1 else 0) + class_count code c l.
Proof.
  unfold class_count. rewrite filter_cons.
  destruct (decide (entry_class code s = Some c)); simpl; lia.
Qed.

Lemma count_as_entries code c (t : task) subs :
  count_as c (omap (spec_entry code t) subs) = class_count code c subs.
Proof.
  induction subs as [|s subs IH]; [done|].
  rewrite class_count_cons, <- IH.
  change (omap (spec_entry code t) (s :: subs))
    with (match spec_entry code t s with
          | Some y => y :: omap (spec_entry code t) subs
          | None => omap (spec_entry code t) subs
          end).
  generalize (omap (spec_entry code t) subs). intros rest.
  unfold entry_class, spec_entry.
  destruct (spec_due_or_overdue code s); [|by destruct (decide (None = Some c))].
  destruct (spec_classify code s) as [c'|]; simpl; [|by destruct (decide (None = Some c))].
  rewrite count_as_cons. simpl.
  destruct (decide (c' = c)), (decide (Some c' = Some c)); simplify_eq; done.
Qed.

(** The counts of a view are those of the subtasks of the list, taken
    together. *)
Lemma count_as_view code c (tasks : list task) :
  count_as c (spec_view code tasks) = class_count code c (tasks ≫= subtasks).
Proof.
  unfold spec_view. induction tasks as [|t tasks IH]; [done|].
  rewrite !bind_cons, count_as_app, class_count_app, IH.
  by rewrite count_as_entries.
Qed.

Lemma class_count_completed code c (t : task) idx sub_idx tasks s :
  tasks !! idx = Some t -> subtasks t !! sub_idx = Some s ->
  class_count code c
    (<[idx := set_subtasks (alter (set_status "Completed") sub_idx (subtasks t)) t]>
       tasks ≫= subtasks)
  = class_count code c (tasks ≫= subtasks)
    - (if decide (entry_class code s = Some c) then 1 else 0)
    + (if decide (entry_class code (set_status "Completed" s) = Some c)
       then 1 else 0).
Proof.
  intros Ht Hs.
  rewrite insert_take_drop by (by eapply lookup_lt_Some).
  rewrite <- (take_drop_middle tasks idx t Ht) at 3.
  rewrite !bind_app, !bind_cons, !class_count_app. simpl.
  rewrite <- (take_drop_middle (subtasks t) sub_idx s Hs) at 2.
  assert (alter (set_status "Completed") sub_idx (subtasks t)
          = (take sub_idx (subtasks t) ++ set_status "Completed" s
            :: drop (S sub_idx) (subtasks t))%list) as ->.
  { apply list_eq. intros i.
    rewrite list_lookup_alter.
    destruct (decide (sub_idx = i)) as [<-|Hne].
    - rewrite Hs. simpl. rewrite lookup_app_r by (rewrite length_take; lia).
      rewrite length_take.
      pose proof (lookup_lt_Some _ _ _ Hs).
      by replace (sub_idx - sub_idx `min` length (subtasks t))%nat with 0%nat by lia.
    - rewrite <- (take_drop_middle (subtasks t) sub_idx s Hs) at 1.
      pose proof (lookup_lt_Some _ _ _ Hs).
      destruct (decide (i < sub_idx)%nat).
      + by rewrite !lookup_app_l by (rewrite length_take; lia).
      + rewrite !lookup_app_r by (rewrite length_take; lia).
        rewrite length_take.
        destruct (i - sub_idx `min` length (subtasks t))%nat as [|k] eqn:Hk; [lia|].
        done. }
  rewrite !class_count_app, !class_count_cons. lia.
Qed.

(** X11.  On a clock date, on a session list with date codes of four
    digits, the button of a subtask that is not completed and is due today
    or before completes it, and the figures move by one: an overdue subtask
    leaves the overdue figure and the page; a subtask due today leaves the
    figure of today and is then among the pairs written as completed.  The
    other figures stay. *)
Theorem complete_today_counts now st idx sub_idx (t : task) s :
  wall_clock now -> date_codes_ok (tasks st) ->
  tasks st !! idx = Some t -> subtasks t !! sub_idx = Some s ->
  status s ≠ "Completed" ->
  int_value (date_code s) <= int_value (strftime_md now) ->
  ∃ st' view view' m m',
    click_complete_today now idx sub_idx st = Ok (Some st')
    ∧ daily_tasks now (tasks st) = Ok view
    ∧ daily_tasks now (tasks st') = Ok view'
    ∧ dashboard now (tasks st) = Ok m
    ∧ dashboard now (tasks st') = Ok m'
    ∧ total_projects m' = total_projects m ∧ total_tasks m' = total_tasks m
    ∧ if decide (int_value (date_code s) < int_value (strftime_md now))
      then overdue_count m' = overdue_count m - 1
           ∧ today_count m' = today_count m
           ∧ count_as Completed view' = count_as Completed view
      else overdue_count m' = overdue_count m
           ∧ today_count m' = today_count m - 1
           ∧ count_as Completed view' = count_as Completed view + 1.
Proof.
  intros Hnow Hcodes Ht Hs Hstatus Hdue.
  pose proof (int_value_decimal _ (today_code_decimal now Hnow)) as Hint.
  set (code := strftime_md now) in *.
  pose proof (date_codes_ok_numeric _ Hcodes) as Hnum.
  pose proof (proj1 (Forall_forall _ _) Hnum t
                (list_elem_of_lookup_2 _ _ _ Ht)) as Hnum_t.
  pose proof (proj1 (Forall_forall _ _) Hnum_t s
                (list_elem_of_lookup_2 _ _ _ Hs)) as Hnum_s.
  set (subs' := alter (set_status "Completed") sub_idx (subtasks t)).
  set (tasks' := <[idx := set_subtasks subs' t]> (tasks st)).
  assert (numeric_codes tasks') as Hnum'.
  { apply date_codes_ok_numeric, date_codes_ok_insert; [done|]. simpl.
    apply alter_status_codes. by eapply date_codes_ok_lookup. }
  assert (entry_class code s
          = Some (if decide (int_value (date_code s) < int_value code)
                  then Overdue else DueToday)) as Hclass.
  { unfold entry_class, spec_due_or_overdue, spec_classify.
    rewrite (bool_decide_eq_false_2 _ Hstatus),
      (bool_decide_eq_true_2 (_ ≠ _)) by done.
    simpl. rewrite orb_false_r.
    destruct (Z.leb_spec (int_value (date_code s)) (int_value code)); [|lia].
    destruct (Z.ltb_spec (int_value (date_code s)) (int_value code)).
    - by rewrite decide_True.
    - rewrite decide_False by lia.
      destruct (Z.eqb_spec (int_value (date_code s)) (int_value code)); [done|lia]. }
  assert (entry_class code (set_status "Completed" s)
          = if decide (int_value (date_code s) < int_value code)
            then None else Some Completed) as Hclass'.
  { unfold entry_class, spec_due_or_overdue, spec_classify. simpl.
    destruct (Z.eqb_spec (int_value (date_code s)) (int_value code)).
    - by rewrite decide_False by lia.
    - rewrite decide_True by lia. done. }
  exists {| db := sql_update_subtasks (json_dumps subs') (project t)
                    (task_name t) (db st);
            tasks := tasks' |},
    (spec_view code (tasks st)), (spec_view code tasks'),
    (metrics_of_view (tasks st) (spec_view code (tasks st))),
    (metrics_of_view tasks' (spec_view code tasks')).
  split.
  { unfold click_complete_today. cbv zeta. fold code. rewrite Hint. simpl.
    rewrite (for_each_ok _ (λ t, omap (spec_entry code t) (subtasks t))).
    2: { apply Forall_take. eapply Forall_impl; [exact Hnum|].
         intros t0 Ht0. by apply daily_task_entries. }
    simpl. rewrite Ht.
    rewrite (for_each_ok _ (spec_entry code t)).
    2: { apply Forall_take. eapply Forall_impl; [exact Hnum_t|].
         intros s0 Hs0. by apply daily_subtask_entry. }
    simpl. rewrite Hs, (daily_subtask_entry code t s Hnum_s). simpl.
    unfold entry_class in Hclass. unfold spec_entry.
    destruct (spec_due_or_overdue code s); [|done].
    destruct (spec_classify code s); [|done]. simpl.
    by rewrite (bool_decide_eq_true_2 _ Hstatus). }
  cbn [tasks].
  split; [by apply daily_tasks_numeric|].
  split; [by apply daily_tasks_numeric|].
  split; [by rewrite dashboard_daily, (daily_tasks_numeric _ _ Hnow Hnum)|].
  split; [by rewrite dashboard_daily, (daily_tasks_numeric _ _ Hnow Hnum')|].
  simpl. split.
  { subst tasks'. rewrite list_fmap_insert. simpl.
    rewrite list_insert_id; [done|]. by rewrite list_lookup_fmap, Ht. }
  split; [subst tasks'; by rewrite length_insert|].
  rewrite !count_as_view. subst tasks' subs'.
  rewrite !(class_count_completed code _ t idx sub_idx (tasks st) s Ht Hs).
  rewrite Hclass, Hclass'.
  destruct (decide (int_value (date_code s) < int_value code));
    repeat match goal with
           | |- context [decide ?P] => destruct (decide P); try done
           end; lia.
Qed.

(** On the fifteenth of June, the overdue subtask of the example. *)
Lemma complete_today_counts_example :
  ∃ st' m m',
    click_complete_today june_15 0 0 state_with_example = Ok (Some st')
    ∧ dashboard june_15 (tasks state_with_example) = Ok m
    ∧ dashboard june_15 (tasks st') = Ok m'
    ∧ overdue_count m = 1 ∧ overdue_count m' = 0 ∧ today_count m' = 1.
Proof.
  destruct (complete_today_counts june_15 state_with_example 0 0 example_task
              (example_subtask "0610" "Not Started"))
    as (st' & view & view' & m & m' & Hclick & _ & _ & Hm & Hm' & _ & _ & Hfig).
  - unfold wall_clock, june_15; simpl; lia.
  - repeat constructor.
  - reflexivity.
  - reflexivity.
  - discriminate.
  - vm_compute. discriminate.
  - exists st', m, m'. split; [exact Hclick|]. split; [exact Hm|].
    split; [exact Hm'|].
    assert (m = {| total_projects := 1; total_tasks := 1; overdue_count := 1;
                   today_count := 1 |}) as ->
      by (vm_compute in Hm; congruence).
    rewrite decide_True in Hfig by (vm_compute; reflexivity).
    destruct Hfig as (Ho & Ht & _). simpl in *. split; [done|]. split; lia.
Defined.

(** ** Project Overview page and the select boxes *)

Lemma project_group_snoc_other seen t k :
  k ≠ project t -> project_group (seen ++ [t]) k = project_group seen k.
Proof.
  intros Hk. unfold project_group. rewrite filter_app, filter_cons.
  rewrite decide_False by done. by rewrite filter_nil, app_nil_r.
Qed.

Lemma filter_none {A : Type} (P : A -> Prop) `{∀ x, Decision (P x)} (l : list A) :
  Forall (λ x, ¬ P x) l -> filter P l = [].
Proof.
  induction 1 as [|x l Hx _ IH]; [done|].
  by rewrite filter_cons, decide_False.
Qed.

(** [setdefault(...).append(...)] on the groups of the tasks seen gives
    the groups with the task added, under a new key when there is none. *)
Lemma setdefault_append_groups seen keys (t : task) :
  NoDup keys ->
  (project t ∉ keys -> project t ∉ project <$> seen) ->
  setdefault_append (project t) t (project_group seen <$> keys)
  = project_group (seen ++ [t])
      <$> (if decide (project t ∈ keys) then keys else keys ++ [project t])%list.
Proof.
  intros Hkeys Hnew. induction keys as [|k keys IH].
  - rewrite decide_False by set_solver. simpl. unfold project_group.
    rewrite filter_app, filter_cons, decide_True by done.
    rewrite filter_none; [done|].
    apply Forall_forall. intros t' Ht' Hp. apply Hnew; [set_solver|].
    apply list_elem_of_fmap. by exists t'.
  - apply NoDup_cons in Hkeys as [Hk Hkeys]. rewrite fmap_cons.
    cbn [setdefault_append project_group fst].
    change (setdefault_append (project t) t
              (project_group seen k :: (project_group seen <$> keys)))
      with (if decide (k = project t)
            then (k, (filter (λ t', project t' = k) seen ++ [t])%list)
                 :: (project_group seen <$> keys)
            else project_group seen k
                 :: setdefault_append (project t) t (project_group seen <$> keys)).
    destruct (decide (k = project t)) as [->|Hne].
    + rewrite decide_True by set_solver. rewrite fmap_cons. f_equal.
      * unfold project_group. by rewrite filter_app, filter_cons, decide_True.
      * apply Forall_fmap_ext. apply Forall_forall. intros k' Hk'.
        symmetry. apply project_group_snoc_other. by intros ->.
    + rewrite IH.
      * destruct (decide (project t ∈ keys)) as [Hin|Hin].
        -- rewrite decide_True by (by apply list_elem_of_further).
           rewrite fmap_cons. by rewrite project_group_snoc_other.
        -- rewrite decide_False
             by (apply not_elem_of_cons; split; [congruence|done]).
           change ((k :: keys) ++ [project t])%list
             with (k :: (keys ++ [project t]))%list.
           rewrite fmap_cons. by rewrite project_group_snoc_other.
      * done.
      * intros Hin. apply Hnew. intros [?|?]%elem_of_cons; [congruence|done].
Qed.

(** The dictionary after the loop: one group for each project, the keys
    in the order in which the projects first occur. *)
Lemma foldl_groups tasks seen keys :
  NoDup keys -> (∀ k, k ∈ keys ↔ k ∈ project <$> seen) ->
  ∃ keys', NoDup keys'
    ∧ (∀ k, k ∈ keys' ↔ k ∈ project <$> (seen ++ tasks)%list)
    ∧ foldl (λ projects task, setdefault_append (project task) task projects)
        (project_group seen <$> keys) tasks
      = project_group (seen ++ tasks) <$> keys'.
Proof.
  revert seen keys. induction tasks as [|t tasks IH]; intros seen keys Hnd Hkeys.
  - exists keys. by rewrite app_nil_r.
  - cbn [foldl]. rewrite setdefault_append_groups; [|done|by rewrite <- Hkeys].
    destruct (IH (seen ++ [t])%list
                (if decide (project t ∈ keys) then keys
                 else (keys ++ [project t])%list)) as (keys' & ? & Hk' & Heq).
    + case_decide as Hin; [done|].
      apply NoDup_app. split_and!; [done| |apply NoDup_singleton].
      by intros k Hk ->%list_elem_of_singleton.
    + intros k. rewrite fmap_app, elem_of_app, <- Hkeys.
      change (project <$> [t]) with [project t].
      case_decide as Hin; [|by rewrite elem_of_app].
      split; [by left|]. by intros [?| ->%list_elem_of_singleton].
    + exists keys'. rewrite <- (assoc_L (++)) in Heq, Hk'. done.
Qed.

Lemma group_by_project_groups tasks :
  group_by_project tasks ≡ₚ project_group tasks <$> remove_dups (project <$> tasks).
Proof.
  destruct (foldl_groups tasks [] []) as (keys & Hnd & Hkeys & Heq).
  - constructor.
  - set_solver.
  - unfold group_by_project. simpl in Heq. rewrite Heq. apply fmap_Permutation.
    apply NoDup_Permutation; [done|apply NoDup_remove_dups|].
    intros k. rewrite Hkeys, elem_of_remove_dups. done.
Qed.

(** Two lists of groups with the same items, each sorted by key, are the
    same list when no key occurs twice. *)
Lemma sorted_items_unique (l1 l2 : list (string * list task)) :
  StronglySorted items_le l1 -> StronglySorted items_le l2 ->
  NoDup l1.*1 -> l1 ≡ₚ l2 -> l1 = l2.
Proof.
  intros H1 H2 Hnd Hp.
  apply (StronglySorted_unique_strong items_le); [|done..].
  intros a b Ha Hb Hab Hba. unfold items_le in Hab, Hba.
  assert (a.1 = b.1) as Hkey by (by apply (anti_symm String.le)).
  rewrite <- Hp in Hb.
  apply list_elem_of_lookup in Ha as [i Hi], Hb as [j Hj].
  assert (i = j) as ->.
  { eapply NoDup_lookup; [exact Hnd|..].
    - by rewrite list_lookup_fmap, Hi.
    - rewrite list_lookup_fmap, Hj. simpl. by rewrite Hkey. }
  congruence.
Qed.

Lemma project_group_keys tasks keys : (project_group tasks <$> keys).*1 = keys.
Proof.
  rewrite <- list_fmap_compose. rewrite <- (list_fmap_id keys) at 2.
  by apply list_fmap_ext.
Qed.

(** Each task is in the group of its project, and in no other. *)
Lemma concat_groups_cons (t : task) tasks keys :
  NoDup keys ->
  concat (project_group (t :: tasks) <$> keys).*2
  ≡ₚ (if decide (project t ∈ keys) then [t] else [])
     ++ concat (project_group tasks <$> keys).*2.
Proof.
  induction 1 as [|k keys Hk Hnd IH]; [done|].
  rewrite !fmap_cons. cbn [concat project_group snd]. rewrite filter_cons, IH.
  destruct (decide (project t = k)) as [<-|Hne].
  - rewrite decide_False by done. by rewrite decide_True by set_solver.
  - destruct (decide (project t ∈ keys)).
    + rewrite decide_True by (by apply list_elem_of_further).
      symmetry.
      exact (Permutation_middle (filter (λ t' : task, project t' = k) tasks)
               (concat (project_group tasks <$> keys).*2) t).
    + by rewrite decide_False
        by (apply not_elem_of_cons; split; [congruence|done]).
Qed.

Lemma concat_groups (tasks : list task) keys :
  NoDup keys -> (∀ t, t ∈ tasks -> project t ∈ keys) ->
  concat (project_group tasks <$> keys).*2 ≡ₚ tasks.
Proof.
  intros Hnd. induction tasks as [|t tasks IH]; intros Hin.
  - clear. induction keys as [|k keys IH]; [done|]. exact IH.
  - rewrite concat_groups_cons by done.
    rewrite decide_True by set_solver. rewrite IH by set_solver. done.
Qed.

(** X12.  The Project Overview page has one column for each option of
    the project select box other than "All Projects", in the same order: the
    projects of the session list, each once, sorted.  The column of a project
    holds the tasks of this project, in the order of the session list. *)
Theorem project_overview_columns (tasks : list task) :
  project_overview tasks = project_group tasks <$> tail (project_options tasks)
  ∧ StronglySorted String.le (tail (project_options tasks))
  ∧ NoDup (tail (project_options tasks))
  ∧ (∀ k, k ∈ tail (project_options tasks) ↔ k ∈ project <$> tasks)
  ∧ concat (project_overview tasks).*2 ≡ₚ tasks.
Proof.
  unfold project_options. cbn [tail]. unfold sorted_strings.
  set (keys := remove_dups (project <$> tasks)).
  pose proof (merge_sort_Permutation String.le keys) as Hsorted.
  assert (NoDup (merge_sort String.le keys)) as Hnd.
  { rewrite Hsorted. apply NoDup_remove_dups. }
  assert (∀ k, k ∈ merge_sort String.le keys ↔ k ∈ project <$> tasks) as Hkeys.
  { intros k. rewrite Hsorted. apply elem_of_remove_dups. }
  assert (project_overview tasks
          = project_group tasks <$> merge_sort String.le keys) as Heq.
  { unfold project_overview. apply sorted_items_unique.
    - apply StronglySorted_merge_sort; apply _.
    - apply (StronglySorted_fmap _ String.le).
      + by intros x y Hxy.
      + apply StronglySorted_merge_sort; apply _.
    - rewrite merge_sort_Permutation, group_by_project_groups.
      rewrite project_group_keys. apply NoDup_remove_dups.
    - rewrite merge_sort_Permutation, group_by_project_groups.
      by rewrite Hsorted. }
  split; [exact Heq|].
  split; [apply StronglySorted_merge_sort; apply _|].
  split; [exact Hnd|]. split; [exact Hkeys|].
  rewrite Heq. apply concat_groups; [done|].
  intros t Ht. apply Hkeys, list_elem_of_fmap. by exists t.
Qed.

Lemma by_project_elem p i (t : task) tasks :
  tasks !! i = Some t -> p = "All Projects" ∨ project t = p ->
  (i, t) ∈ filtered p "All Tasks" tasks.
Proof.
  intros Hi Hp. unfold filtered. rewrite decide_False by (by intros []).
  apply list_elem_of_filter. split; [done|].
  apply elem_of_lookup_imap. by exists i, t.
Qed.

Lemma filtered_elem p q i (t : task) tasks :
  (i, t) ∈ filtered p "All Tasks" tasks -> q = "All Tasks" ∨ task_name t = q ->
  (i, t) ∈ filtered p q tasks.
Proof.
  intros Hi Hq. destruct (decide (q = "All Tasks")) as [->|Hne]; [done|].
  destruct Hq as [?|Hq]; [done|].
  unfold filtered in *. rewrite decide_False in Hi by (by intros []).
  rewrite decide_True by done. apply list_elem_of_filter. by split.
Qed.

(** X13.  While the session list is not empty, whatever is chosen in the
    two select boxes of the Current Tasks page, among the options they
    offer, the page shows at least one task. *)
Theorem select_boxes_show_tasks (tasks : list task) p q :
  tasks ≠ [] -> p ∈ project_options tasks -> q ∈ task_options p tasks ->
  filtered p q tasks ≠ [].
Proof.
  intros Hne Hp Hq.
  assert (∃ it, it ∈ filtered p q tasks) as [it Hit];
    [|by destruct (filtered p q tasks); [apply elem_of_nil in Hit|]].
  unfold task_options, sorted_strings in Hq.
  apply elem_of_cons in Hq as [->|Hq].
  - unfold project_options, sorted_strings in Hp.
    apply elem_of_cons in Hp as [->|Hp].
    + destruct tasks as [|t tasks]; [done|]. exists (0%nat, t).
      apply by_project_elem; [done|by left].
    + rewrite merge_sort_Permutation in Hp.
      apply elem_of_remove_dups, list_elem_of_fmap in Hp as (t & -> & Ht).
      apply list_elem_of_lookup in Ht as [i Hi]. exists (i, t).
      apply by_project_elem; [done|by right].
  - rewrite merge_sort_Permutation in Hq.
    apply list_elem_of_fmap in Hq as ([i t] & -> & Hit).
    exists (i, t). apply filtered_elem; [done|by right].
Qed.

(** The two tasks of two projects, under the second project and the name
    of its task. *)
Lemma select_boxes_show_tasks_example :
  filtered (project other_task) (task_name other_task)
    (tasks state_with_two_projects) ≠ [].
Proof.
  apply select_boxes_show_tasks.
  - discriminate.
  - vm_compute. repeat (first [apply list_elem_of_here | apply list_elem_of_further]).
  - vm_compute. repeat (first [apply list_elem_of_here | apply list_elem_of_further]).
Defined.

(** X14.  Each task of the session list can be reached through the select
    boxes: its project is an option of the first, its name an option of the
    second once the project is chosen, and with both chosen the page shows
    the task, with its position in the session list. *)
Theorem every_task_selectable (tasks : list task) i t :
  tasks !! i = Some t ->
  project t ∈ project_options tasks
  ∧ task_name t ∈ task_options (project t) tasks
  ∧ (i, t) ∈ filtered (project t) (task_name t) tasks
  ∧ (i, t) ∈ filtered "All Projects" "All Tasks" tasks.
Proof.
  intros Hi.
  assert ((i, t) ∈ filtered (project t) "All Tasks" tasks) as Hin
    by (apply by_project_elem; [done|by right]).
  split_and!.
  - unfold project_options, sorted_strings. apply list_elem_of_further.
    rewrite merge_sort_Permutation. apply elem_of_remove_dups, list_elem_of_fmap.
    exists t. split; [done|]. by eapply list_elem_of_lookup_2.
  - unfold task_options, sorted_strings. apply list_elem_of_further.
    rewrite merge_sort_Permutation. apply list_elem_of_fmap. by exists (i, t).
  - apply filtered_elem; [done|by right].
  - apply by_project_elem; [done|by left].
Qed.

Lemma every_task_selectable_example :
  (1%nat, other_task)
  ∈ filtered (project other_task) (task_name other_task)
      (tasks state_with_two_projects).
Proof.
  apply (every_task_selectable (tasks state_with_two_projects) 1 other_task).
  reflexivity.
Defined.

(** ** Navigation *)

(** X15.  The page shown is decided by the first character of the
    parameter alone: a value that starts with the digit of a page shows this
    page, whatever follows the digit.  So each button leads to the page it is
    labelled with, those of the sidebar too, whose values go on after the
    digit.  Without the parameter the page code is the whole default,
    "Dashboard", under which no page is shown; on an empty value the
    indexing fails. *)
Theorem page_by_first_character :
  (∀ p rest,
     current_page (Some (String (page_digit p) rest)) ≫= page_shown = Some p)
  ∧ (∀ b, page_after b = Some (button_target b))
  ∧ current_page None = Some "Dashboard"
  ∧ current_page None ≫= page_shown = None
  ∧ current_page (Some EmptyString) = None.
Proof.
  split_and!; [|by intros [[]| | | | |]|done..].
  intros p rest. unfold current_page, first_character.
  by destruct p, rest as [|b [|c [|d s4]]].
Qed.

(** ** The codec: what [json.dumps] writes, [json.loads] reads back *)

Lemma hex_digit_value n : (n < 16)%N -> hex_value (hex_digit n) = Some n.
Proof.
  intros Hn. destruct n as [|p]; [done|].
  do 4 (destruct p as [p|p|]; first [done | lia | idtac]).
Qed.

Lemma land_15_lt m : (N.land m 15 < 16)%N.
Proof. change 15%N with (N.ones 4). rewrite N.land_ones. by apply N.mod_lt. Qed.

Lemma nibbles n :
  (n < 65536)%N ->
  (((N.land (N.shiftr n 12) 15 * 16 + N.land (N.shiftr n 8) 15) * 16
    + N.land (N.shiftr n 4) 15) * 16 + N.land n 15 = n)%N.
Proof.
  intros Hn.
  change 15%N with (N.ones 4). rewrite !N.land_ones, !N.shiftr_div_pow2.
  change (2^12)%N with 4096%N. change (2^8)%N with 256%N. change (2^4)%N with 16%N.
  zify. Z.quot_rem_to_equations. Z.div_mod_to_equations. lia.
Qed.

Lemma hex4_digits n :
  (n < 65536)%N ->
  hex4_value (hex_digit (N.land (N.shiftr n 12) 15))
    (hex_digit (N.land (N.shiftr n 8) 15))
    (hex_digit (N.land (N.shiftr n 4) 15)) (hex_digit (N.land n 15)) = Some n.
Proof.
  intros Hn. unfold hex4_value. rewrite !hex_digit_value by apply land_15_lt.
  cbn [mbind option_bind]. f_equal. by apply nibbles.
Qed.

Lemma scan_string_u h1 h2 h3 h4 s3 :
  scan_string
    (String "\" (String "u" (String h1 (String h2 (String h3 (String h4 s3))))))
  = match hex4_value h1 h2 h3 h4 with
    | None => Raise JSONDecodeError
    | Some hi =>
        let alone :=
          '(t, r) ← scan_string s3; Ok (utf8_encode hi +:+ t, r) in
        if high_surrogate hi then
          match s3 with
          | String e1 (String e2
              (String g1 (String g2 (String g3 (String g4 s4))))) =>
              if Ascii.eqb e1 "\" && Ascii.eqb e2 "u" then
                match hex4_value g1 g2 g3 g4 with
                | None => Raise JSONDecodeError
                | Some lo =>
                    if low_surrogate lo then
                      '(t, r) ← scan_string s4;
                      Ok (utf8_encode (join_surrogates hi lo) +:+ t, r)
                    else alone
                end
              else alone
          | _ => alone
          end
        else alone
    end.
Proof. reflexivity. Qed.

(** An escape [\uXXXX] that is not the first half of a pair is read as
    its code point. *)
Lemma scan_escape_u n s :
  (n < 65536)%N -> high_surrogate n = false ->
  scan_string (escape_u n +:+ s)
  = ('(t, r) ← scan_string s; Ok (utf8_encode n +:+ t, r)).
Proof.
  intros Hn Hhi.
  change (escape_u n +:+ s)
    with (String "\" (String "u"
            (String (hex_digit (N.land (N.shiftr n 12) 15))
               (String (hex_digit (N.land (N.shiftr n 8) 15))
                  (String (hex_digit (N.land (N.shiftr n 4) 15))
                     (String (hex_digit (N.land n 15)) s)))))).
  rewrite scan_string_u, hex4_digits by done. cbv zeta. by rewrite Hhi.
Qed.

(** Two escapes, the halves of a pair, are read as one code point. *)
Lemma scan_escape_pair hi lo s :
  (hi < 65536)%N -> (lo < 65536)%N ->
  high_surrogate hi = true -> low_surrogate lo = true ->
  scan_string (escape_u hi +:+ escape_u lo +:+ s)
  = ('(t, r) ← scan_string s;
     Ok (utf8_encode (join_surrogates hi lo) +:+ t, r)).
Proof.
  intros Hhi Hlo Hh Hl.
  change (escape_u hi +:+ escape_u lo +:+ s)
    with (String "\" (String "u"
            (String (hex_digit (N.land (N.shiftr hi 12) 15))
               (String (hex_digit (N.land (N.shiftr hi 8) 15))
                  (String (hex_digit (N.land (N.shiftr hi 4) 15))
                     (String (hex_digit (N.land hi 15))
       (String "\" (String "u"
            (String (hex_digit (N.land (N.shiftr lo 12) 15))
               (String (hex_digit (N.land (N.shiftr lo 8) 15))
                  (String (hex_digit (N.land (N.shiftr lo 4) 15))
                     (String (hex_digit (N.land lo 15)) s)))))))))))).
  rewrite scan_string_u, hex4_digits by done. cbv zeta. rewrite Hh.
  change (Ascii.eqb "\" "\" && Ascii.eqb "u" "u") with true. cbv iota.
  rewrite hex4_digits by done. by rewrite Hl.
Qed.

Lemma land_shiftl_low a b k : (b < 2 ^ k)%N -> N.land (N.shiftl a k) b = 0%N.
Proof.
  intros Hb. apply N.bits_inj. intros i.
  rewrite N.land_spec, N.bits_0.
  destruct (N.lt_ge_cases i k) as [Hi|Hi].
  - by rewrite N.shiftl_spec_low.
  - rewrite <- (N.mod_small b (2 ^ k)) by done.
    rewrite N.mod_pow2_bits_high by done. apply andb_false_r.
Qed.

Lemma lor_shiftl_add a b k :
  (b < 2 ^ k)%N -> N.lor (N.shiftl a k) b = (a * 2 ^ k + b)%N.
Proof.
  intros Hb. rewrite <- N.lxor_lor, <- N.add_nocarry_lxor
    by (by apply land_shiftl_low).
  by rewrite N.shiftl_mul_pow2.
Qed.

(** The two halves [json.dumps] writes for a code point above the basic
    plane, and the code point [json.loads] makes of them. *)
Lemma surrogates_of v :
  (v < 1048576)%N ->
  N.lor 55296 (N.land (N.shiftr v 10) 1023) = (55296 + v / 1024)%N
  ∧ N.lor 56320 (N.land v 1023) = (56320 + v mod 1024)%N
  ∧ join_surrogates (55296 + v / 1024) (56320 + v mod 1024) = (65536 + v)%N.
Proof.
  intros Hv.
  assert (v / 1024 < 1024)%N as Hq by (apply N.Div0.div_lt_upper_bound; lia).
  assert (v mod 1024 < 1024)%N as Hr by (by apply N.mod_lt).
  change 1023%N with (N.ones 10). rewrite !N.land_ones, N.shiftr_div_pow2.
  change (2 ^ 10)%N with 1024%N. rewrite (N.mod_small (v / 1024)) by done.
  change 55296%N with (N.shiftl 54 10) at 1.
  change 56320%N with (N.shiftl 55 10) at 1.
  rewrite !lor_shiftl_add by done. split; [done|]. split; [done|].
  unfold join_surrogates.
  rewrite (N.add_comm 55296), (N.add_comm 56320), !N.add_sub.
  rewrite lor_shiftl_add by done. change (2 ^ 10)%N with 1024%N.
  pose proof (N.div_mod v 1024). lia.
Qed.

Lemma scan_escape_ascii cp s :
  (cp < 128)%N ->
  scan_string (escape_code_point cp +:+ s)
  = ('(t, r) ← scan_string s; Ok (utf8_encode cp +:+ t, r)).
Proof.
  intros Hcp. destruct cp as [|p]; [reflexivity|].
  do 7 (destruct p as [p|p|]; first [reflexivity | lia | idtac]).
Qed.

(** What is written for a code point is read as this code point. *)
Lemma scan_escape_code_point cp s :
  scalar cp = true ->
  scan_string (escape_code_point cp +:+ s)
  = ('(t, r) ← scan_string s; Ok (utf8_encode cp +:+ t, r)).
Proof.
  intros Hcp. destruct (N.lt_ge_cases cp 128) as [Hlow|Hhigh].
  { by apply scan_escape_ascii. }
  unfold escape_code_point.
  rewrite !(proj2 (N.eqb_neq cp _)) by lia.
  rewrite (proj2 (N.leb_gt cp 126)), andb_false_r by lia.
  unfold scalar in Hcp.
  destruct (N.ltb_spec cp 65536) as [Hbmp|Hsup].
  - apply scan_escape_u; [done|]. unfold high_surrogate.
    destruct (N.ltb_spec cp 55296), (N.leb_spec 57344 cp),
      (N.leb_spec 55296 cp), (N.leb_spec cp 56319); simpl in *; done || lia.
  - cbv zeta.
    assert (cp - 65536 < 1048576)%N as Hv.
    { destruct (N.ltb_spec cp 55296), (N.leb_spec 57344 cp),
        (N.ltb_spec cp 1114112); simpl in *; done || lia. }
    destruct (surrogates_of _ Hv) as (-> & -> & Hjoin).
    assert ((cp - 65536) / 1024 < 1024)%N
      by (apply N.Div0.div_lt_upper_bound; lia).
    assert ((cp - 65536) mod 1024 < 1024)%N by (by apply N.mod_lt).
    set (q := ((cp - 65536) / 1024)%N) in *. clearbody q.
    set (r := ((cp - 65536) mod 1024)%N) in *. clearbody r.
    rewrite append_assoc, scan_escape_pair.
    + rewrite Hjoin. by replace (65536 + (cp - 65536))%N with cp by lia.
    + lia.
    + lia.
    + unfold high_surrogate. apply andb_true_iff. split; apply N.leb_le; lia.
    + unfold low_surrogate. apply andb_true_iff. split; apply N.leb_le; lia.
Qed.

Lemma concat_cons (x : string) l :
  String.concat EmptyString (x :: l) = x +:+ String.concat EmptyString l.
Proof. destruct l; [by rewrite append_nil_r|done]. Qed.

(** The text between the quotes of a string literal is read back up to
    the closing quote. *)
Lemma scan_escaped cps rest :
  forallb scalar cps = true ->
  scan_string
    (String.concat EmptyString (escape_code_point <$> cps) +:+ quote +:+ rest)
  = Ok (String.concat EmptyString (utf8_encode <$> cps), rest).
Proof.
  induction cps as [|cp cps IH]; intros H; [reflexivity|].
  apply andb_true_iff in H as [Hcp H].
  rewrite !fmap_cons, !concat_cons, append_assoc, scan_escape_code_point by done.
  by rewrite IH.
Qed.

Lemma dumps_str_app s x :
  dumps_str s +:+ x
  = String dquote
      (String.concat EmptyString (escape_code_point <$> utf8_decode s)
       +:+ quote +:+ x).
Proof. unfold dumps_str. by rewrite !append_assoc. Qed.

Lemma skip_ws_dumps_str s x : skip_ws (dumps_str s +:+ x) = dumps_str s +:+ x.
Proof. by rewrite dumps_str_app. Qed.

Lemma scan_string_text s x :
  is_text s = true ->
  scan_string
    (String.concat EmptyString (escape_code_point <$> utf8_decode s)
     +:+ quote +:+ x)
  = Ok (s, x).
Proof.
  intros [Hs Hcps]%andb_true_iff. rewrite scan_escaped by done.
  by apply String.eqb_eq in Hs as ->.
Qed.

Lemma scan_once_str fuel s x :
  is_text s = true -> scan_once (S fuel) (dumps_str s +:+ x) = Ok (JStr s, x).
Proof.
  intros Hs. rewrite dumps_str_app, scan_once_S.
  change (Ascii.eqb dquote dquote) with true. cbv iota.
  by rewrite scan_string_text.
Qed.

Lemma skip_ws_other c x : json_ws c = false -> skip_ws (String c x) = String c x.
Proof. intros H. cbn [skip_ws]. by rewrite H. Qed.

Lemma skip_ws_blank x : skip_ws (String " " x) = skip_ws x.
Proof. reflexivity. Qed.

(** A member of an object: its key, the colon, and a string for value. *)
Lemma scan_pairs_member fuel key v x :
  is_text key = true -> is_text v = true ->
  scan_pairs (S (S fuel)) (dumps_str key +:+ ": " +:+ dumps_str v +:+ x)
  = match skip_ws x with
    | String d r4 =>
        if Ascii.eqb d "}" then Ok ([(key, JStr v)], r4)
        else if Ascii.eqb d "," then
          '(items, r5) ← scan_pairs (S fuel) (skip_ws r4);
          Ok ((key, JStr v) :: items, r5)
        else Raise JSONDecodeError
    | EmptyString => Raise JSONDecodeError
    end.
Proof.
  intros Hkey Hv. rewrite (dumps_str_app key), scan_pairs_S.
  change (Ascii.eqb dquote dquote) with true. cbv iota.
  rewrite scan_string_text by done. cbn [mbind result_bind].
  rewrite !app_cons, app_empty.
  rewrite (skip_ws_other ":") by done.
  change (Ascii.eqb ":" ":") with true. cbv iota.
  rewrite skip_ws_blank, skip_ws_dumps_str, scan_once_str by done.
  done.
Qed.

Lemma scan_pairs_member_more fuel key v key' x :
  is_text key = true -> is_text v = true ->
  scan_pairs (S (S fuel))
    (dumps_str key +:+ ": " +:+ dumps_str v +:+ ", " +:+ dumps_str key' +:+ x)
  = ('(items, r) ← scan_pairs (S fuel) (dumps_str key' +:+ x);
     Ok ((key, JStr v) :: items, r)).
Proof.
  intros Hkey Hv. rewrite scan_pairs_member by done.
  rewrite !app_cons, app_empty, (skip_ws_other ",") by done.
  change (Ascii.eqb "," "}") with false.
  change (Ascii.eqb "," ",") with true. cbv iota.
  by rewrite skip_ws_blank, skip_ws_dumps_str.
Qed.

Lemma scan_pairs_member_last fuel key v x :
  is_text key = true -> is_text v = true ->
  scan_pairs (S (S fuel)) (dumps_str key +:+ ": " +:+ dumps_str v +:+ "}" +:+ x)
  = Ok ([(key, JStr v)], x).
Proof.
  intros Hkey Hv. rewrite scan_pairs_member by done.
  rewrite !app_cons, app_empty, (skip_ws_other "}") by done.
  by change (Ascii.eqb "}" "}") with true.
Qed.

Lemma scan_once_object fuel key x :
  scan_once (S fuel) (String "{" (dumps_str key +:+ x))
  = ('(items, r) ← scan_pairs fuel (dumps_str key +:+ x); Ok (JDict items, r)).
Proof.
  rewrite scan_once_S.
  change (Ascii.eqb "{" dquote) with false.
  change (Ascii.eqb "{" "{") with true. cbv iota.
  rewrite skip_ws_dumps_str, dumps_str_app.
  by change (Ascii.eqb dquote "}") with false.
Qed.

(** An object written for a subtask is read as its four members. *)
Lemma scan_once_subtask fuel s x :
  text_subtask s = true ->
  scan_once (S (S (S (S (S (S fuel)))))) (dumps_subtask s +:+ x)
  = Ok (subtask_to_json s, x).
Proof.
  intros [[[H1 H2]%andb_true_iff H3]%andb_true_iff H4]%andb_true_iff.
  unfold dumps_subtask. rewrite !append_assoc, app_cons, app_empty.
  rewrite scan_once_object.
  rewrite !scan_pairs_member_more by first [assumption | reflexivity].
  by rewrite scan_pairs_member_last by first [assumption | reflexivity].
Qed.

Lemma join_subtasks_cons s subs x :
  join ", " (dumps_subtask <$> s :: subs) +:+ x
  = dumps_subtask s
    +:+ match subs with
        | [] => x
        | s' :: subs' =>
            String "," (String " " (join ", " (dumps_subtask <$> s' :: subs') +:+ x))
        end.
Proof.
  destruct subs as [|s' subs']; [done|].
  rewrite !fmap_cons. cbn [join]. by rewrite !append_assoc.
Qed.

Lemma skip_ws_subtasks s subs x :
  skip_ws (join ", " (dumps_subtask <$> s :: subs) +:+ x)
  = join ", " (dumps_subtask <$> s :: subs) +:+ x.
Proof.
  rewrite join_subtasks_cons. unfold dumps_subtask.
  rewrite !append_assoc, app_cons. by apply skip_ws_other.
Qed.

Lemma scan_once_array fuel s subs x :
  scan_once (S fuel) (String "[" (join ", " (dumps_subtask <$> s :: subs) +:+ x))
  = ('(l, r) ← scan_items fuel (join ", " (dumps_subtask <$> s :: subs) +:+ x);
     Ok (JList l, r)).
Proof.
  rewrite scan_once_S.
  change (Ascii.eqb "[" dquote) with false.
  change (Ascii.eqb "[" "{") with false.
  change (Ascii.eqb "[" "[") with true. cbv iota.
  rewrite skip_ws_subtasks, join_subtasks_cons. reflexivity.
Qed.

(** The elements of the array written for a list of subtasks. *)
Lemma scan_items_subtasks fuel subs s x :
  forallb text_subtask (s :: subs) = true ->
  scan_items (length subs + S (S (S (S (S (S (S fuel)))))))
    (join ", " (dumps_subtask <$> s :: subs) +:+ String "]" x)
  = Ok (subtask_to_json <$> s :: subs, x).
Proof.
  revert s. induction subs as [|s' subs IH]; intros s [Hs Hsubs]%andb_true_iff.
  - rewrite join_subtasks_cons. cbn [length Nat.add].
    rewrite scan_items_S, scan_once_subtask by done. cbn [mbind result_bind].
    rewrite (skip_ws_other "]") by done.
    by change (Ascii.eqb "]" "]") with true.
  - rewrite join_subtasks_cons. cbn [length Nat.add].
    rewrite scan_items_S.
    replace (length subs + S (S (S (S (S (S (S fuel)))))))%nat
      with (S (S (S (S (S (S (length subs + S fuel)))))))%nat by lia.
    rewrite scan_once_subtask by done. cbn [mbind result_bind].
    rewrite (skip_ws_other ",") by done.
    change (Ascii.eqb "," "]") with false.
    change (Ascii.eqb "," ",") with true. cbv iota.
    rewrite skip_ws_blank, skip_ws_subtasks.
    replace (S (S (S (S (S (S (length subs + S fuel)))))))%nat
      with (length subs + S (S (S (S (S (S (S fuel)))))))%nat by lia.
    rewrite IH by done. done.
Qed.

(** X16.  What [json.dumps] writes for a list of subtasks, [json.loads]
    reads back as the list of their dictionaries, whatever the texts of the
    fields, as long as they are texts without surrogates. *)
Theorem loads_dumps_subtasks subs :
  forallb text_subtask subs = true ->
  json_loads (json_dumps subs) = Ok (JList (subtask_to_json <$> subs)).
Proof.
  intros Hsubs. destruct subs as [|s subs]; [reflexivity|].
  unfold json_loads, json_dumps.
  rewrite app_cons, app_empty, (skip_ws_other "[") by done.
  pose proof (scan_items_subtasks 0 subs s EmptyString Hsubs) as Hitems.
  assert (scan_once (S (length subs + 7))
            (String "[" (join ", " (dumps_subtask <$> s :: subs) +:+ "]"))
          = Ok (JList (subtask_to_json <$> s :: subs), EmptyString)) as Hscan.
  { rewrite scan_once_array.
    replace (length subs + 7)%nat
      with (length subs + S (S (S (S (S (S (S 0)))))))%nat by lia.
    by rewrite Hitems. }
  apply (proj1 (scan_fuel _)) in Hscan as [_ Hmore].
  rewrite Hmore by (simpl; lia). done.
Qed.

(** The accented subtask: the quote, the letter and the pair of escapes. *)
Lemma loads_dumps_subtasks_example :
  json_loads (json_dumps [accented_subtask])
  = Ok (JList [subtask_to_json accented_subtask]).
Proof. apply (loads_dumps_subtasks [accented_subtask]). reflexivity. Defined.

(** ** The store and the session after a restart *)

Lemma load_row_mirror r (t : task) :
  row_mirrors r t -> forallb text_subtask (subtasks t) = true ->
  load_row r = Ok (task_to_json t).
Proof.
  intros (Hp & Ht & Hd & Hs & Hsubs) Htext. unfold load_row, task_to_json.
  rewrite Hsubs, loads_dumps_subtasks by done.
  cbn [mbind result_bind]. by rewrite Hp, Ht, Hd, Hs.
Qed.

(** X17.  While the session list mirrors the table and its subtasks hold
    texts, [load_tasks_from_db] runs to its end and gives the tasks of the
    session list, in their order, the subtasks as the dictionaries
    [json.loads] builds: a new session starts from the same tasks. *)
Theorem load_mirrors_session st :
  in_sync st -> text_tasks (tasks st) = true ->
  load_tasks_from_db (db st) = Ok (task_to_json <$> tasks st).
Proof.
  unfold in_sync, text_tasks, load_tasks_from_db.
  induction 1 as [|r t rows ts Hrow _ IH]; [done|].
  intros [Htext Hrest]%andb_true_iff. cbn [for_each].
  rewrite (load_row_mirror r t), IH by done. done.
Qed.

Lemma load_mirrors_session_example :
  load_tasks_from_db (db state_with_accent)
  = Ok (task_to_json <$> tasks state_with_accent).
Proof.
  apply load_mirrors_session.
  - repeat constructor.
  - reflexivity.
Defined.

(** X18.  While the session list mirrors the table and its subtasks hold
    texts, the export has one line for each task of the session list, in
    their order, and the cell of the subtasks is never the marker of
    invalid subtasks: it has one line for each subtask, the date string, the
    title and the status. *)
Theorem export_mirrors_session st :
  in_sync st -> text_tasks (tasks st) = true ->
  export_all_tasks_to_csv (db st) = export_of <$> tasks st.
Proof.
  unfold in_sync, text_tasks, export_all_tasks_to_csv.
  induction 1 as [|r t rows ts (Hp & Ht & Hd & Hs & Hsubs) _ IH]; [done|].
  intros [Htext Hrest]%andb_true_iff. rewrite !fmap_cons, IH by done.
  f_equal. unfold export_of. rewrite Hp, Ht, Hd, Hs, Hsubs.
  by rewrite (format_subtasks_well_formed _ (subtasks t))
    by (by apply loads_dumps_subtasks).
Qed.

Lemma export_mirrors_session_example :
  export_all_tasks_to_csv (db state_with_accent)
  = export_of <$> tasks state_with_accent.
Proof.
  apply export_mirrors_session.
  - repeat constructor.
  - reflexivity.
Defined.

(** ** The two Complete buttons *)

(** X19.  The button of the Daily Tasks page, where the page shows it,
    does what the Complete button of the Current Tasks page does for the
    same task and subtask when nothing is selected in the boxes; and the
    page shows it only for a subtask that is not completed and is due today
    or before. *)
Theorem complete_today_as_complete now idx sub_idx st st' :
  click_complete_today now idx sub_idx st = Ok (Some st') ->
  click_complete "All Projects" "All Tasks" idx sub_idx st = Some st'
  ∧ ∃ (t : task) s n today_num,
      tasks st !! idx = Some t ∧ subtasks t !! sub_idx = Some s
      ∧ status s ≠ "Completed"
      ∧ py_int (date_code s) = Ok n
      ∧ py_int (strftime_md now) = Ok today_num ∧ n <= today_num.
Proof.
  unfold click_complete_today. cbv zeta.
  destruct (py_int (strftime_md now)) as [today_num|] eqn:Hnow; [|done].
  cbn [mbind result_bind].
  destruct (for_each _ (take idx (tasks st))); [|done]. cbn [mbind result_bind].
  destruct (tasks st !! idx) as [t|] eqn:Ht; [|done].
  destruct (for_each _ (take sub_idx (subtasks t))); [|done].
  cbn [mbind result_bind].
  destruct (subtasks t !! sub_idx) as [s|] eqn:Hs; [|done].
  destruct (daily_subtask today_num t s) as [[x|]|] eqn:Hshown; [|done..].
  cbn [mbind result_bind]. case_bool_decide as Hstatus; [|done].
  intros [= <-]. split.
  - unfold click_complete. rewrite filtered_all, list_lookup_imap, Ht.
    cbn [fmap option_fmap option_map mbind option_bind]. by rewrite Hs.
  - apply daily_subtask_shows in Hshown as (n & Hn & Hle & _).
    by exists t, s, n, today_num.
Qed.

(** On the fifteenth of June, the first subtask of the example. *)
Lemma complete_today_as_complete_example :
  ∃ st',
    click_complete_today june_15 0 0 state_with_example = Ok (Some st')
    ∧ click_complete "All Projects" "All Tasks" 0 0 state_with_example
      = Some st'.
Proof.
  destruct (click_complete_today june_15 0 0 state_with_example)
    as [[st'|]|] eqn:H; [|vm_compute in H; discriminate..].
  exists st'. split; [done|].
  by destruct (complete_today_as_complete june_15 0 0 state_with_example st' H).
Defined.

(** ** Dashboard *)

Lemma remove_dups_length {A : Type} `{EqDecision A} (l : list A) :
  (length (remove_dups l) <= length l)%nat.
Proof.
  induction l as [|x l IH]; [done|]. cbn [remove_dups].
  destruct (decide_rel elem_of x l); simpl; lia.
Qed.

Lemma count_as_nonneg c view : 0 <= count_as c view.
Proof. unfold count_as. lia. Qed.

(** The subtasks a loop of the Daily Tasks page tags as overdue or due
    today are among those that are not completed. *)
Lemma daily_subtasks_bound today_num (t : task) subs l :
  for_each (daily_subtask today_num t) subs = Ok l ->
  count_as Overdue (omap id l) + count_as DueToday (omap id l)
  <= Z.of_nat (length (filter (λ s, status s ≠ "Completed") subs)).
Proof.
  revert l. induction subs as [|s subs IH]; intros l; cbn [for_each].
  - intros [= <-]. done.
  - destruct (daily_subtask today_num t s) as [x|] eqn:Hx; [|done].
    destruct (for_each _ subs) as [l'|]; [|done].
    cbn [mbind result_bind]. intros [= <-]. specialize (IH l' eq_refl).
    assert (count_as Overdue (omap id (x :: l'))
            + count_as DueToday (omap id (x :: l'))
            = (match x with
               | Some y => if decide (shown_as y = Completed) then 0 else 1
               | None => 0
               end)
              + (count_as Overdue (omap id l') + count_as DueToday (omap id l')))
      as ->.
    { destruct x as [y|]; [|done].
      change (omap id (Some y :: l')) with (y :: omap id l').
      rewrite !count_as_cons. destruct (shown_as y); simpl; lia. }
    unfold daily_subtask in Hx.
    destruct (py_int (date_code s)) as [n|]; [|done]. cbn [mbind result_bind] in Hx.
    destruct (decide (status s ≠ "Completed")) as [Hs|Hs].
    + rewrite filter_cons, decide_True by done. cbn [length].
      destruct x as [y|]; [destruct (decide (shown_as y = Completed))|]; lia.
    + rewrite filter_cons, decide_False by done.
      apply dec_stable in Hs.
      rewrite !(bool_decide_eq_true_2 _ Hs) in Hx.
      destruct (n <? today_num), (n <=? today_num); simplify_eq/=; lia.
Qed.

Lemma daily_tasks_bound today_num (tasks : list task) ls :
  for_each (daily_task today_num) tasks = Ok ls ->
  count_as Overdue (concat ls) + count_as DueToday (concat ls)
  <= Z.of_nat (length (filter (λ s, status s ≠ "Completed") (tasks ≫= subtasks))).
Proof.
  revert ls. induction tasks as [|t tasks IH]; intros ls; cbn [for_each].
  - intros [= <-]. done.
  - change (daily_task today_num t)
      with (l ← for_each (daily_subtask today_num t) (subtasks t);
            Ok (omap (M := list) id l)).
    destruct (for_each (daily_subtask today_num t) (subtasks t)) as [l|] eqn:Hl;
      cbn [mbind result_bind]; [|done].
    destruct (for_each (daily_task today_num) tasks) as [ls'|];
      cbn [mbind result_bind]; [|done].
    intros [= <-]. specialize (IH ls' eq_refl).
    apply daily_subtasks_bound in Hl.
    rewrite bind_cons, filter_app, length_app. cbn [concat].
    rewrite !count_as_app. lia.
Qed.

(** X20.  Whenever the dashboard is computed, its figures are bounded by
    the session list: not more projects than tasks, no project only when
    there is no task, and the overdue subtasks and those of today, together,
    are not more than the subtasks that are not completed. *)
Theorem dashboard_bounds now (tasks : list task) m :
  dashboard now tasks = Ok m ->
  total_tasks m = length tasks
  ∧ (total_projects m <= total_tasks m)%nat
  ∧ (total_projects m = 0%nat ↔ tasks = [])
  ∧ 0 <= overdue_count m ∧ 0 <= today_count m
  ∧ overdue_count m + today_count m
    <= Z.of_nat (length (filter (λ s, status s ≠ "Completed")
                           (tasks ≫= subtasks))).
Proof.
  rewrite dashboard_daily. unfold daily_tasks. cbv zeta.
  destruct (py_int (strftime_md now)) as [today_num|]; [|done].
  cbn [mbind result_bind].
  destruct (for_each (daily_task today_num) tasks) as [ls|] eqn:Hls; [|done].
  cbn [mbind result_bind]. intros [= <-]. unfold metrics_of_view.
  cbn [total_tasks total_projects overdue_count today_count].
  split; [done|]. split.
  { rewrite <- (length_fmap project tasks). apply remove_dups_length. }
  split.
  { split.
    - intros H%nil_length_inv. destruct tasks as [|t tasks]; [done|].
      assert (project t ∈ remove_dups (project <$> t :: tasks)) as Hin
        by (apply elem_of_remove_dups; left).
      rewrite H in Hin. by apply elem_of_nil in Hin.
    - by intros ->. }
  split; [apply count_as_nonneg|]. split; [apply count_as_nonneg|].
  exact (daily_tasks_bound today_num tasks ls Hls).
Qed.

(** The example on the fifteenth of June: one task, one overdue subtask
    and one of today, of two that are not completed. *)
Lemma dashboard_bounds_example :
  ∃ m, dashboard june_15 (tasks state_with_example) = Ok m
       ∧ overdue_count m + today_count m <= 2.
Proof.
  destruct (dashboard june_15 (tasks state_with_example)) as [m|] eqn:H;
    [|vm_compute in H; discriminate].
  exists m. split; [done|].
  by destruct (dashboard_bounds june_15 (tasks state_with_example) m H)
    as (_ & _ & _ & _ & _ & Hb).
Defined.
